(** * Seat-chance evaluation of the JoSAA batch analyzer

    A shallow embedding of [modules/multi_student_analyzer.py] (the batch
    engine), of the header normalisation of the four workflows that load the
    master table, and of [display_validation] from
    [modules/verify_choice_filling_structured.py].

    Conventions of the embedding.
    - A pandas cell read with [dtype=str] is a Python [str] or the float NaN
      (blank cell); when several columns of a table carry the same label,
      [row[label]] is the Series of their cells: type [cell].
    - A column passed through [pd.to_numeric(errors='coerce')] holds floats.
      A float is modelled by its value: a rational (every finite double is
      one), an infinity or NaN.  Comparison and [min] are exact on floats, so
      no rounding is involved in what is modelled here.
    - Python exceptions are values of [exn] in the error monad [result].
    - Strings are byte strings; [strip] and [upper] are those of Python on
      strings of ASCII characters ([is_ascii]); the headers and the codes of
      the workbook are taken to be such strings. *)

From Stdlib Require Import ZArith QArith String Ascii List DecimalString.
From Stdlib Require Import Permutation Lia.
From stdpp Require Import base option list strings gmap sorting.

Close Scope Q_scope.

(* ================================================================== *)
(** ** Python values *)

Module Py.

(** Exceptions that the modelled code can raise. *)
Inductive exn :=
| OverflowError   (* int(float('inf')) *)
| ValueError      (* int(float('nan')); the truth value of a Series *)
| AttributeError  (* None.empty; a DataFrame has no .str *)
| KeyError        (* df['missing column'] *)
| TypeError       (* pd.to_numeric(a DataFrame) *)
| ModuleNotFoundError  (* import of a module that does not exist *)
| IOError.        (* a file that pandas cannot read *)

Inductive result (A : Type) :=
| Ok (a : A)
| Raise (e : exn).
Arguments Ok {A} a.
Arguments Raise {A} e.

Definition bind {A B} (r : result A) (k : A -> result B) : result B :=
  match r with
  | Ok a => k a
  | Raise e => Raise e
  end.

(** A Python float, by value. *)
Inductive float :=
| Fin (q : Q)
| PosInf
| NegInf
| NaN.

(** [pd.notna] / [pd.isna] on a float scalar. *)
Definition notna (x : float) : bool :=
  match x with NaN => false | _ => true end.

Definition isna (x : float) : bool := negb (notna x).

Definition is_inf (x : float) : bool :=
  match x with PosInf | NegInf => true | _ => false end.

(** [x <= y] and [x < y] on floats (IEEE: false as soon as one side is NaN). *)
Definition float_le (x y : float) : bool :=
  match x, y with
  | NaN, _ | _, NaN => false
  | NegInf, _ => true
  | _, PosInf => true
  | Fin a, Fin b => Qle_bool a b
  | _, _ => false
  end.

Definition float_lt (x y : float) : bool :=
  match x, y with
  | NaN, _ | _, NaN => false
  | Fin a, Fin b => negb (Qle_bool b a)
  | NegInf, NegInf => false
  | NegInf, _ => true
  | PosInf, _ => false
  | Fin _, PosInf => true
  | Fin _, NegInf => false
  end.

(** [int(x)]: truncation toward zero; raises on infinities and NaN. *)
Definition int (x : float) : result Z :=
  match x with
  | Fin q => Ok (Z.quot (Qnum q) (Zpos (Qden q)))
  | PosInf | NegInf => Raise OverflowError
  | NaN => Raise ValueError
  end.

(** [str(n)] for a Python int, as used by an f-string. *)
Definition str (n : Z) : string := NilZero.string_of_int (Z.to_int n).

(** [min(x :: l)]: the first smallest item. *)
Definition min (x : float) (l : list float) : float :=
  fold_left (fun cur item => if float_lt item cur then item else cur) l x.

(** [sep.join(l)]. *)
Fixpoint join (sep : string) (l : list string) : string :=
  match l with
  | [] => ""
  | [s] => s
  | s :: rest => s +:+ sep +:+ join sep rest
  end.

(** [list(set(l))].  CPython iterates a set of strings in the order of its
    hash table, which depends on the per-process string-hash seed; what is
    certain is that the list has no duplicate and has the members of [l]. *)
Record SetOrder := {
  list_set : list string -> list string;
  list_set_NoDup : forall l, NoDup (list_set l);
  list_set_elem : forall l x, x ∈ list_set l <-> x ∈ l
}.

End Py.

Import Py.

(** [result] is a monad in stdpp's sense: [x ← r; k] runs [k] unless [r]
    raised. *)
#[global] Instance result_ret : MRet result := @Ok.
#[global] Instance result_bind : MBind result :=
  fun A B k r => Py.bind r k.

(** What [row[label]] is for a row of a table read with [dtype=str]: the
    cell under the column of that label, which is text or a float (NaN when
    the cell is blank); or, when several columns carry the label, the Series
    of the cells under these columns. *)
#[warnings="-register-all"]
Inductive cell :=
| Str (s : string)
| Num (x : float)
| Series (items : list cell).

Definition is_series (c : cell) : bool :=
  match c with
  | Series _ => true
  | _ => false
  end.

(** [c == "literal"] for a text or a float.  The comparison of a Series is
    element-wise and its result has no truth value: the loops below raise
    [ValueError] where they test one (see [evaluate_option] and
    [analyze_student]), and nothing else reads the value given here. *)
Definition cell_eq (c : cell) (s : string) : bool :=
  match c with
  | Str t => bool_decide (t = s)
  | Num _ => false
  | Series _ => false
  end.

(* ================================================================== *)
(** ** Tables of the batch engine, after preprocessing *)

(** One row of [processed_master_df].  [cutoffs] holds the cutoff columns of
    the row, already coerced by [pd.to_numeric]; a label that is not a key is
    a column the row does not have. *)
Record MasterOption := {
  TYPE : cell;
  COLLEGE_CODE : cell;
  COURSE_CODE : cell;
  PROGRAM : option cell;
  Main_Code : cell;
  cutoffs : gmap string float
}.

(** [processed_master_df]: its column index and its rows. *)
Record MasterFrame := {
  master_columns : list string;
  master_rows : list MasterOption
}.

(** One row of [student_batch_df], rank columns coerced. *)
Record Student := {
  NAME : cell;
  STUDENT_ID : cell;
  GENDER : cell;
  CATEGORY : cell;
  JEE_ADVACED_CRL_RANK : float;
  JEE_ADVNCED_CATEGORY_RANK : float;
  JEE_MAIN_CRL_RANK : float;
  JEE_MAIN_CATEGORY_RANK : float
}.

(** One dict appended to [results_list]. *)
Record ResultRow := {
  Student_ID : cell;
  Student_Name : cell;
  Student_Category : cell;
  Student_Gender : cell;
  College_Type : cell;
  College_Code : cell;
  Program_Name : cell;
  Course_Code : cell;
  Student_Rank_Used : string;
  Rank_Type : string;
  Best_Eligible_Cutoff : string;
  Considered_Cutoffs_for_Option : string;
  Seat_Chance : string
}.

(* ================================================================== *)
(** ** The cutoff resolver (lines 111-117 and 141-165) *)

Definition all_cutoff_cols : list string :=
  [ "OC_FEM"; "OC_GEN"; "EWS_FEM"; "EWS_GEN"; "OBC_FEM"; "OBC_GEN";
    "SC_FEM"; "SC_GEN"; "ST_FEM"; "ST_GEN" ].

Definition category_to_cutoff_map : gmap string (gmap string string) :=
  list_to_map [
    ("OC",  list_to_map [("FEM", "OC_FEM");  ("GEN", "OC_GEN")]);
    ("EWS", list_to_map [("FEM", "EWS_FEM"); ("GEN", "EWS_GEN")]);
    ("OBC", list_to_map [("FEM", "OBC_FEM"); ("GEN", "OBC_GEN")]);
    ("SC",  list_to_map [("FEM", "SC_FEM");  ("GEN", "SC_GEN")]);
    ("ST",  list_to_map [("FEM", "ST_FEM");  ("GEN", "ST_GEN")]) ].

(** [category_to_cutoff_map.get(student_category)]; a float is not a key. *)
Definition category_map_of (student_category : cell) : option (gmap string string) :=
  match student_category with
  | Str s => category_to_cutoff_map !! s
  | Num _ | Series _ => None
  end.

(** [if m.get(k) in columns: cols.append(m[k])], as the list appended. *)
Definition append_if_in (m : gmap string string) (k : string)
    (columns : list string) : list string :=
  match m !! k with
  | Some col => if bool_decide (col ∈ columns) then [col] else []
  | None => []
  end.

(** [if label in columns: cols.append(label)]. *)
Definition append_label_if_in (label : string) (columns : list string) : list string :=
  if bool_decide (label ∈ columns) then [label] else [].

(** The list built by lines 141-163, before de-duplication. *)
Definition collected_cutoff_cols (columns : list string)
    (student_category student_gender : cell) : list string :=
  match category_map_of student_category with
  | Some category_map =>
      (if bool_decide (category_map = ∅) then []
       else if cell_eq student_gender "FEM"
            then append_if_in category_map "FEM" columns
                 ++ append_if_in category_map "GEN" columns
            else append_if_in category_map "GEN" columns)
      ++
      (if negb (cell_eq student_category "OC")
       then if cell_eq student_gender "FEM"
            then append_label_if_in "OC_GEN" columns
                 ++ append_label_if_in "OC_FEM" columns
            else append_label_if_in "OC_GEN" columns
       else [])
  | None => []
  end.

(** Line 165: [list(set([col for col in cols if col in columns]))]. *)
Definition eligible_cutoff_cols (o : SetOrder) (columns : list string)
    (student_category student_gender : cell) : list string :=
  list_set o
    (filter (fun col => col ∈ columns)
            (collected_cutoff_cols columns student_category student_gender)).

(* ================================================================== *)
(** ** Evaluation of one (student, option) pair (lines 167-224) *)

Definition LIKELY : string := "✅ LIKELY".
Definition UNLIKELY : string := "❌ UNLIKELY".
Definition NO_CUTOFF : string := "N/A - No Cutoff".
Definition RANK_MISSING : string := "N/A - Student Rank Missing".

(** Lines 173-183: the rank that applies and its label; [None] is the
    [continue] of the last branch. *)
Definition applicable_student_rank (college_type : cell)
    (current_student_adv_rank current_student_mains_rank : float)
  : option (float * string) :=
  if cell_eq college_type "IIT"
  then Some (current_student_adv_rank, "JEE Advanced Rank")
  else if cell_eq college_type "NIT" || cell_eq college_type "IIIT"
          || cell_eq college_type "GFTI"
  then Some (current_student_mains_rank, "JEE Mains Rank")
  else None.

(** [col in college_option and pd.notna(college_option[col])]. *)
Definition cutoff_present (college_option : MasterOption) (col : string) : bool :=
  match cutoffs college_option !! col with
  | Some v => notna v
  | None => false
  end.

(** Lines 189-193: the values collected from the eligible columns. *)
Definition option_cutoffs_values (cols : list string)
    (college_option : MasterOption) : list float :=
  omap (fun col =>
          match cutoffs college_option !! col with
          | Some v => if notna v then Some v else None
          | None => None
          end) cols.

(** Lines 185-199. *)
Definition best_eligible_cutoff_for_option (cols : list string)
    (applicable_rank : float) (college_option : MasterOption) : option float :=
  if notna applicable_rank then
    match option_cutoffs_values cols college_option with
    | v :: vs => Some (Py.min v vs)
    | [] => None
    end
  else None.

(** Line 197: one ["col: value"] entry per eligible column present. *)
Definition cutoff_entry (college_option : MasterOption) (col : string) : result string :=
  n ← Py.int (default NaN (cutoffs college_option !! col));
  mret (col +:+ ": " +:+ Py.str n).

Definition relevant_cutoffs_for_option_display (cols : list string)
    (college_option : MasterOption) : result (list string) :=
  mapM (cutoff_entry college_option)
       (filter (fun col => cutoff_present college_option col = true) cols).

(** Lines 201-208. *)
Definition seat_chance (applicable_rank : float) (best : option float) : string :=
  match best with
  | Some b => if float_le applicable_rank b then LIKELY else UNLIKELY
  | None => if isna applicable_rank then RANK_MISSING else NO_CUTOFF
  end.

(** An f-string [f"{int(x)}" if pd.notna(x) else "N/A"]. *)
Definition int_or_na (x : float) : result string :=
  if notna x then n ← Py.int x; mret (Py.str n) else mret "N/A".

(** The body of the inner loop: [Ok None] when the option is skipped,
    [Ok (Some row)] when a row is appended, [Raise e] when the body raises.
    When the master table has several TYPE columns, [college_type] is a
    Series and the test of line 176 raises [ValueError]. *)
Definition evaluate_option (cols : list string) (student_row : Student)
    (current_student_adv_rank current_student_mains_rank : float)
    (college_option : MasterOption) : result (option ResultRow) :=
  if is_series (TYPE college_option) then Raise ValueError else
  match applicable_student_rank (TYPE college_option)
          current_student_adv_rank current_student_mains_rank with
  | None => mret None
  | Some (applicable_rank, rank_type_used) =>
      let best := best_eligible_cutoff_for_option cols applicable_rank college_option in
      display ← (match best with
                 | Some _ => relevant_cutoffs_for_option_display cols college_option
                 | None => mret []
                 end);
      rank_used ← int_or_na applicable_rank;
      best_shown ← (match best with
                    | Some b => int_or_na b
                    | None => mret "N/A"
                    end);
      mret (Some {|
        Student_ID := STUDENT_ID student_row;
        Student_Name := NAME student_row;
        Student_Category := CATEGORY student_row;
        Student_Gender := GENDER student_row;
        College_Type := TYPE college_option;
        College_Code := COLLEGE_CODE college_option;
        Program_Name := default (Str "N/A") (PROGRAM college_option);
        Course_Code := COURSE_CODE college_option;
        Student_Rank_Used := rank_used;
        Rank_Type := rank_type_used;
        Best_Eligible_Cutoff := best_shown;
        Considered_Cutoffs_for_Option := Py.join ", " display;
        Seat_Chance := seat_chance applicable_rank best
      |})
  end.

(** The inner loop over the master rows: the rows appended, in order, unless
    one body raises. *)
Fixpoint evaluate_options (body : MasterOption -> result (option ResultRow))
    (options : list MasterOption) : result (list ResultRow) :=
  match options with
  | [] => mret []
  | college_option :: rest =>
      r ← body college_option;
      rows ← evaluate_options body rest;
      mret (match r with Some row => row :: rows | None => rows end)
  end.

(** Lines 131-139: CRL ranks for OC, category ranks otherwise. *)
Definition current_student_adv_rank (student_row : Student) : float :=
  if cell_eq (CATEGORY student_row) "OC"
  then JEE_ADVACED_CRL_RANK student_row
  else JEE_ADVNCED_CATEGORY_RANK student_row.

Definition current_student_mains_rank (student_row : Student) : float :=
  if cell_eq (CATEGORY student_row) "OC"
  then JEE_MAIN_CRL_RANK student_row
  else JEE_MAIN_CATEGORY_RANK student_row.

(** Whether lines 143-163 test the gender of the student: they do when the
    category is a key of the dict (line 146, or line 156 if its entry were
    empty and the category not OC). *)
Definition gender_is_tested (student_category : cell) : bool :=
  match category_map_of student_category with
  | Some category_map =>
      negb (bool_decide (category_map = ∅)) || negb (cell_eq student_category "OC")
  | None => false
  end.

(** The body of the outer loop (lines 124-224) for one student.  When the
    batch file has several CATEGORY columns, [student_category] is a Series
    and the test of line 131 raises [ValueError]; so does the test of the
    gender (line 146) when the batch file has several GENDER columns. *)
Definition analyze_student (o : SetOrder) (master : MasterFrame)
    (student_row : Student) : result (list ResultRow) :=
  if is_series (CATEGORY student_row) then Raise ValueError else
  if gender_is_tested (CATEGORY student_row) && is_series (GENDER student_row)
  then Raise ValueError else
  let cols := eligible_cutoff_cols o (master_columns master)
                (CATEGORY student_row) (GENDER student_row) in
  evaluate_options
    (evaluate_option cols student_row
       (current_student_adv_rank student_row)
       (current_student_mains_rank student_row))
    (master_rows master).

(** The whole analysis (lines 110-231): [results_list] when no body raised. *)
Fixpoint run_analysis (o : SetOrder) (master : MasterFrame)
    (students : list Student) : result (list ResultRow) :=
  match students with
  | [] => mret []
  | student_row :: rest =>
      rows ← analyze_student o master student_row;
      more ← run_analysis o master rest;
      mret (rows ++ more)
  end.

(* ================================================================== *)
(** ** Header normalisation and the join key *)

(** A string of ASCII characters. *)
Fixpoint is_ascii (s : string) : bool :=
  match s with
  | EmptyString => true
  | String a rest => (nat_of_ascii a <? 128)%nat && is_ascii rest
  end.

(** The ASCII characters that [str.strip()] removes: tab, line feed,
    vertical tab, form feed, carriage return, the four separators 0x1c-0x1f
    and the space.  (Python removes other Unicode white space as well, such
    as U+00A0: [strip] below is [str.strip()] on strings of ASCII
    characters.) *)
Definition is_space (a : ascii) : bool :=
  let n := nat_of_ascii a in
  ((9 <=? n)%nat && (n <=? 13)%nat) || ((28 <=? n)%nat && (n <=? 32)%nat).

Fixpoint lstrip (s : string) : string :=
  match s with
  | EmptyString => EmptyString
  | String a rest => if is_space a then lstrip rest else s
  end.

Fixpoint rstrip (s : string) : string :=
  match s with
  | EmptyString => EmptyString
  | String a rest =>
      match rstrip rest with
      | EmptyString => if is_space a then EmptyString else String a EmptyString
      | kept => String a kept
      end
  end.

Definition strip (s : string) : string := rstrip (lstrip s).

(** [str.upper()] on a string of ASCII characters: a-z become A-Z. *)
Definition upper_ascii (a : ascii) : ascii :=
  let n := nat_of_ascii a in
  if ((97 <=? n)%nat && (n <=? 122)%nat) then ascii_of_nat (n - 32) else a.

Fixpoint map_chars (f : ascii -> ascii) (s : string) : string :=
  match s with
  | EmptyString => EmptyString
  | String a rest => String (f a) (map_chars f rest)
  end.

Definition upper (s : string) : string := map_chars upper_ascii s.

(** [s.replace(' ', '_')]. *)
Definition replace_space (s : string) : string :=
  map_chars (fun a => if Ascii.eqb a " "%char then "_"%char else a) s.

(** A table as read by pandas: the header row and the cells by position. *)
Record RawFrame := {
  raw_columns : list string;
  raw_rows : list (list cell)
}.

Module Analyzer.
(** multi_student_analyzer.py, line 37 (and line 80 for the batch file). *)
Definition normalize_columns (columns : list string) : list string :=
  map (fun h => replace_space (upper (strip h))) columns.
Definition COLLEGE := "COLLEGE_CODE".
Definition COURSE := "COURSE_CODE".
End Analyzer.

Module Dashboard.
(** verify_choice_filling_structured.py, line 43. *)
Definition normalize_columns (columns : list string) : list string :=
  map (fun h => replace_space (upper (strip h))) columns.
Definition COLLEGE := "COLLEGE_CODE".
Definition COURSE := "COURSE_CODE".
End Dashboard.

Module SmartInsights.
(** smart_insights.py, line 44. *)
Definition normalize_columns (columns : list string) : list string :=
  map (fun h => replace_space (upper (strip h))) columns.
Definition COLLEGE := "COLLEGE_CODE".
Definition COURSE := "COURSE_CODE".
End SmartInsights.

Module ChoiceVerifier.
(** verify_choice_filling.py, line 40. *)
Definition normalize_columns (columns : list string) : list string :=
  map (fun h => upper (strip h)) columns.
Definition COLLEGE := "COLLEGE CODE".
Definition COURSE := "COURSE CODE".
End ChoiceVerifier.

(** The cells of a row under the headers equal to [name], from left to
    right.  A short row is padded with blanks, as pandas does. *)
Fixpoint cells_at (columns : list string) (row : list cell) (name : string)
  : list cell :=
  match columns with
  | [] => []
  | h :: columns' =>
      (if bool_decide (h = name) then [default (Num NaN) (head row)] else [])
      ++ cells_at columns' (tail row) name
  end.

(** [row[name]] for a row of a frame with the given column index: the cell
    under the header equal to [name]; the Series of the cells under these
    headers when there are several; [KeyError] when there is none. *)
Definition get_cell (columns : list string) (row : list cell) (name : string)
  : result cell :=
  match cells_at columns row name with
  | [] => Raise KeyError
  | [c] => Ok c
  | items => Ok (Series items)
  end.

(** The number of columns that carry the label [name]. *)
Definition occurrences (columns : list string) (name : string) : nat :=
  length (filter (fun h => h = name) columns).

(** [df[name].str]: [df[name]] is a column when one header is [name]; when
    several are it is a DataFrame, which has no attribute [str]. *)
Definition str_accessor (columns : list string) (name : string) : result unit :=
  match occurrences columns name with
  | 0 => Raise KeyError
  | 1 => Ok tt
  | _ => Raise AttributeError
  end.

(** The argument check of [pd.to_numeric(df[name], errors='coerce')]: a
    DataFrame is not an argument it accepts. *)
Definition to_numeric_column (columns : list string) (name : string) : result unit :=
  match occurrences columns name with
  | 0 => Raise KeyError
  | 1 => Ok tt
  | _ => Raise TypeError
  end.

(** [a.str.strip() + "_" + b.str.strip()] on one row; a blank propagates. *)
Definition main_code (college course : cell) : cell :=
  match college, course with
  | Str a, Str b => Str (strip a +:+ "_" +:+ strip b)
  | _, _ => Num NaN
  end.

(** The statement that builds the [Main_Code] column of the master table
    (multi_student_analyzer.py line 47, verify_choice_filling.py line 42,
    verify_choice_filling_structured.py line 51, smart_insights.py line 52),
    given the header normalisation of the workflow and the two labels it
    reads: [df[college].str.strip() + "_" + df[course].str.strip()].  What a
    workflow checks before it reaches this statement is in its loader
    ([preprocess_master] for the batch analyzer). *)
Definition master_main_codes (normalize : list string -> list string)
    (college course : string) (master : RawFrame) : result (list cell) :=
  let columns := normalize (raw_columns master) in
  _ ← str_accessor columns college;
  _ ← str_accessor columns course;
  mapM (fun row =>
          a ← get_cell columns row college;
          b ← get_cell columns row course;
          mret (main_code a b))
       (raw_rows master).

(** The cutoff-label columns a workflow's normalised header exposes. *)
Definition cutoff_label_columns (normalize : list string -> list string)
    (master : RawFrame) : list string :=
  filter (fun h => h ∈ all_cutoff_cols) (normalize (raw_columns master)).

(* ================================================================== *)
(** ** The page [display_multi_student_analyzer] (lines 15-249) *)

(** A value of [st.session_state]: [None] or a results frame. *)
Inductive session_value :=
| PyNone
| Frame (rows : list ResultRow).

Definition RESULTS_KEY : string := "analysis_results_df".

(** [if key in st.session_state: del st.session_state[key]]. *)
Definition clear_results (st : gmap string session_value) : gmap string session_value :=
  delete RESULTS_KEY st.

(** What one run of the page is given. *)
Record Inputs := {
  master_exists : bool;                       (* os.path.exists(master_path) *)
  load_excel : result RawFrame;               (* load_excel(master_path) *)
  student_batch_file : option (result RawFrame); (* the upload, as pandas reads it *)
  run_button : bool                           (* st.button("Run Seat Chance Analysis") *)
}.

(** What the page writes. *)
Inductive message :=
| Error_master_not_found
| Error_master_columns
| Detected_columns (columns : list string)
| Error_master_load (e : exn)
| Ask_upload_batch
| Error_student_columns
| Error_student_load (e : exn)
| Success_loaded (students options : nat)
| Results_table (rows : list ResultRow)
| Ask_click_run.

(** The result of one run of the page: the session state it leaves, what it
    wrote, and the exception that left the function, if any. *)
Record Run := {
  session : gmap string session_value;
  written : list message;
  raised : option exn
}.

Definition required_master_cols : list string :=
  ["COLLEGE_CODE"; "COURSE_CODE"; "TYPE"].

Definition required_student_cols : list string :=
  ["NAME"; "STUDENT_ID"; "GENDER"; "CATEGORY";
   "JEE_ADVACED_CRL_RANK"; "JEE_ADVNCED_CATEGORY_RANK";
   "JEE_MAIN_CRL_RANK"; "JEE_MAIN_CATEGORY_RANK"].

(** [all(col in columns for col in required)]. *)
Definition has_all (required columns : list string) : bool :=
  forallb (fun col => bool_decide (col ∈ columns)) required.

(** The outcome of a [try] block that loads and preprocesses a table. *)
Inductive loaded (A : Type) :=
| Loaded (a : A)
| Missing_columns (detected : list string)
| Unreadable (e : exn).
Arguments Loaded {A} a.
Arguments Missing_columns {A} detected.
Arguments Unreadable {A} e.

Section Preprocess.

(** [pd.to_numeric(..., errors='coerce')] on one cell. *)
Variable to_numeric : cell -> float.

(** Lines 47-58 and the reads of lines 168-171, for one row of the master
    table. *)
Definition master_option_of (columns : list string) (row : list cell)
  : result MasterOption :=
  type ← get_cell columns row "TYPE";
  college ← get_cell columns row "COLLEGE_CODE";
  course ← get_cell columns row "COURSE_CODE";
  mret {|
    TYPE := type;
    COLLEGE_CODE := college;
    COURSE_CODE := course;
    PROGRAM := match get_cell columns row "PROGRAM" with
               | Ok c => Some c
               | Raise _ => None
               end;
    Main_Code := main_code college course;
    cutoffs := list_to_map
                 (omap (fun col =>
                          match get_cell columns row col with
                          | Ok c => Some (col, to_numeric c)
                          | Raise _ => None
                          end) all_cutoff_cols)
  |}.

(** Lines 35-64.  [Unreadable e] is the [except] branch of lines 60-64: the
    file cannot be read, or the header has several COLLEGE_CODE or
    COURSE_CODE columns (line 47) or several columns of one cutoff label
    (line 56). *)
Definition preprocess_master (file : result RawFrame) : loaded MasterFrame :=
  match file with
  | Raise e => Unreadable e
  | Ok master_df =>
      let columns := Analyzer.normalize_columns (raw_columns master_df) in
      if negb (has_all required_master_cols columns)
      then Missing_columns columns
      else
        match
          _ ← str_accessor columns "COLLEGE_CODE";
          _ ← str_accessor columns "COURSE_CODE";
          _ ← mapM (to_numeric_column columns)
                (filter (fun col => col ∈ columns) all_cutoff_cols);
          mapM (master_option_of columns) (raw_rows master_df)
        with
        | Raise e => Unreadable e
        | Ok rows =>
            Loaded {| master_columns :=
                        if bool_decide ("Main_Code" ∈ columns) then columns
                        else columns ++ ["Main_Code"];
                      master_rows := rows |}
        end
  end.

(** Lines 94-96 and the column reads of lines 124-139, for one row. *)
Definition student_of (columns : list string) (row : list cell)
  : result Student :=
  name ← get_cell columns row "NAME";
  id ← get_cell columns row "STUDENT_ID";
  gender ← get_cell columns row "GENDER";
  category ← get_cell columns row "CATEGORY";
  adv_crl ← get_cell columns row "JEE_ADVACED_CRL_RANK";
  adv_cat ← get_cell columns row "JEE_ADVNCED_CATEGORY_RANK";
  main_crl ← get_cell columns row "JEE_MAIN_CRL_RANK";
  main_cat ← get_cell columns row "JEE_MAIN_CATEGORY_RANK";
  mret {|
    NAME := name; STUDENT_ID := id; GENDER := gender; CATEGORY := category;
    JEE_ADVACED_CRL_RANK := to_numeric adv_crl;
    JEE_ADVNCED_CATEGORY_RANK := to_numeric adv_cat;
    JEE_MAIN_CRL_RANK := to_numeric main_crl;
    JEE_MAIN_CATEGORY_RANK := to_numeric main_cat
  |}.

(** The rank columns coerced by lines 94-96. *)
Definition rank_cols : list string :=
  ["JEE_ADVACED_CRL_RANK"; "JEE_ADVNCED_CATEGORY_RANK";
   "JEE_MAIN_CRL_RANK"; "JEE_MAIN_CATEGORY_RANK"].

(** Lines 73-102.  [Unreadable e] is the [except] branch of lines 98-102: the
    file cannot be read, or the header has several columns of one rank label
    (line 96). *)
Definition preprocess_students (file : result RawFrame) : loaded (list Student) :=
  match file with
  | Raise e => Unreadable e
  | Ok student_batch_df =>
      let columns := Analyzer.normalize_columns (raw_columns student_batch_df) in
      if negb (has_all required_student_cols columns)
      then Missing_columns columns
      else
        match
          _ ← mapM (to_numeric_column columns) rank_cols;
          mapM (student_of columns) (raw_rows student_batch_df)
        with
        | Raise e => Unreadable e
        | Ok students => Loaded students
        end
  end.

(** Lines 233-249: the display section. *)
Definition display_results (st : gmap string session_value) (written : list message) : Run :=
  match st !! RESULTS_KEY with
  | Some PyNone =>
      (* [None.empty] *)
      {| session := st; written := written; raised := Some AttributeError |}
  | Some (Frame []) =>
      {| session := st; written := written; raised := None |}
  | Some (Frame rows) =>
      {| session := st; written := written ++ [Results_table rows]; raised := None |}
  | None =>
      {| session := st; written := written ++ [Ask_click_run]; raised := None |}
  end.

Definition stop (st : gmap string session_value) (written : list message) : Run :=
  {| session := clear_results st; written := written; raised := None |}.

Definition display_multi_student_analyzer (o : SetOrder) (inp : Inputs)
    (st : gmap string session_value) : Run :=
  if negb (master_exists inp) then stop st [Error_master_not_found]
  else
    match preprocess_master (load_excel inp) with
    | Unreadable e => stop st [Error_master_load e]
    | Missing_columns detected =>
        stop st [Error_master_columns; Detected_columns detected]
    | Loaded processed_master_df =>
        match student_batch_file inp with
        | None => stop st [Ask_upload_batch]
        | Some file =>
            match preprocess_students file with
            | Unreadable e => stop st [Error_student_load e]
            | Missing_columns detected =>
                stop st [Error_student_columns; Detected_columns detected]
            | Loaded student_batch_df =>
                let written :=
                  [Success_loaded (length student_batch_df)
                                  (length (master_rows processed_master_df))] in
                if run_button inp then
                  let st0 := <[RESULTS_KEY := PyNone]> st in
                  match run_analysis o processed_master_df student_batch_df with
                  | Raise e =>
                      {| session := st0; written := written; raised := Some e |}
                  | Ok results_list =>
                      display_results (<[RESULTS_KEY := Frame results_list]> st0) written
                  end
                else display_results st written
            end
        end
    end.

End Preprocess.

(* ================================================================== *)
(** ** [display_validation] of the dashboard (lines 356-372) *)

(** Equality of two join keys as [isin] and [duplicated] see it: equal
    strings, or two blanks. *)
Definition key_eq (a b : cell) : bool :=
  match a, b with
  | Str s, Str t => bool_decide (s = t)
  | Num NaN, Num NaN => true
  | _, _ => false
  end.

(** [key.isin(keys)]. *)
Definition isin (key : cell) (keys : list cell) : bool :=
  existsb (key_eq key) keys.

(** The three tables of the validation tab; an empty table is shown as
    "None". *)
Record Validation (M S : Type) := {
  missing_in_master : list S;
  missing_in_upload : list M;
  duplicates : list S
}.
Arguments missing_in_master {M S} _.
Arguments missing_in_upload {M S} _.
Arguments duplicates {M S} _.

(** [master] and [student] are frames with a [Main_Code] column, read by
    [master_key] and [student_key]. *)
Definition display_validation {M S : Type} (master_key : M -> cell)
    (student_key : S -> cell) (master : list M) (student : list S)
  : Validation M S :=
  {| missing_in_master :=
       filter (fun row => isin (student_key row) (map master_key master) = false) student;
     missing_in_upload :=
       filter (fun row => isin (master_key row) (map student_key student) = false) master;
     duplicates :=
       (* df.duplicated(subset='Main_Code', keep=False) *)
       filter (fun row =>
                 (2 <=? length (filter (fun other => key_eq (student_key other) (student_key row) = true)
                                       student))%nat = true) student |}.

(** A row of the student's choice sheet of the dashboard (lines 29-38). *)
Record Choice := {
  Choice_College_Code : cell;
  Choice_COURSE_CODE : cell;
  Choice_Number : float;
  Choice_Main_Code : cell
}.

(** Some row of the frame shares its join key with another row. *)
Definition has_duplicate_key (master : list MasterOption) : bool :=
  existsb (fun row =>
             (2 <=? length (filter (fun other => key_eq (Main_Code other) (Main_Code row) = true)
                                   master))%nat) master.

(* ================================================================== *)
(** ** Two iteration orders of a set, and sample tables *)

(** Insertion order. *)
Definition insertion_order : SetOrder :=
  {| list_set := remove_dups;
     list_set_NoDup := NoDup_remove_dups;
     list_set_elem := fun l x => elem_of_remove_dups l x |}.

(** The order of last insertion first. *)
Definition reverse_order : SetOrder :=
  {| list_set := fun l => remove_dups (reverse l);
     list_set_NoDup := fun l => NoDup_remove_dups (reverse l);
     list_set_elem := fun l x =>
       iff_trans (elem_of_remove_dups (reverse l) x) (elem_of_reverse x l) |}.

Definition mk_option (type : string) (cuts : list (string * float)) : MasterOption :=
  {| TYPE := Str type; COLLEGE_CODE := Str "C1"; COURSE_CODE := Str "K1";
     PROGRAM := Some (Str "P"); Main_Code := Str "C1_K1";
     cutoffs := list_to_map cuts |}.

Definition mk_student (category gender : string) (rank : float) : Student :=
  {| NAME := Str "S"; STUDENT_ID := Str "1"; GENDER := Str gender;
     CATEGORY := Str category;
     JEE_ADVACED_CRL_RANK := rank; JEE_ADVNCED_CATEGORY_RANK := rank;
     JEE_MAIN_CRL_RANK := rank; JEE_MAIN_CATEGORY_RANK := rank |}.

Definition mk_master (options : list MasterOption) : MasterFrame :=
  {| master_columns := ["COLLEGE_CODE"; "COURSE_CODE"; "TYPE"; "PROGRAM"]
                       ++ all_cutoff_cols ++ ["Main_Code"];
     master_rows := options |}.

(** A rank or cutoff that is the integer [n]. *)
Definition rank (n : Z) : float := Fin (inject_Z n).

(** The institute types for which a pair is evaluated (every other type is
    the OTHER of the data model). *)
Definition evaluated_type (college_type : cell) : bool :=
  cell_eq college_type "IIT" || cell_eq college_type "NIT"
  || cell_eq college_type "IIIT" || cell_eq college_type "GFTI".

Definition evaluated_options (master : MasterFrame) : list MasterOption :=
  filter (fun college_option => evaluated_type (TYPE college_option) = true)
         (master_rows master).

(** No rank of the student, resp. no cutoff of the option, is an infinity. *)
Definition student_no_inf (student_row : Student) : bool :=
  negb (is_inf (JEE_ADVACED_CRL_RANK student_row))
  && negb (is_inf (JEE_ADVNCED_CATEGORY_RANK student_row))
  && negb (is_inf (JEE_MAIN_CRL_RANK student_row))
  && negb (is_inf (JEE_MAIN_CATEGORY_RANK student_row)).

Definition option_no_inf (college_option : MasterOption) : bool :=
  bool_decide (map_Forall (fun _ v => is_inf v = false) (cutoffs college_option)).

(** Some eligible column of the option holds an infinite cutoff. *)
Definition has_inf_cutoff (cols : list string) (college_option : MasterOption) : bool :=
  existsb (fun col => match cutoffs college_option !! col with
                      | Some v => is_inf v
                      | None => false
                      end) cols.

(** The integer part of a finite float (0 otherwise). *)
Definition trunc (x : float) : Z :=
  match Py.int x with Ok n => n | Raise _ => 0%Z end.

(** The text of the audit entry of a column. *)
Definition entry_text (college_option : MasterOption) (col : string) : string :=
  col +:+ ": " +:+ Py.str (trunc (default NaN (cutoffs college_option !! col))).

(** Two result rows that differ at most in the order of the entries of
    [Considered_Cutoffs_for_Option]. *)
Definition row_agree (a b : ResultRow) : Prop :=
  Student_ID a = Student_ID b /\ Student_Name a = Student_Name b
  /\ Student_Category a = Student_Category b /\ Student_Gender a = Student_Gender b
  /\ College_Type a = College_Type b /\ College_Code a = College_Code b
  /\ Program_Name a = Program_Name b /\ Course_Code a = Course_Code b
  /\ Student_Rank_Used a = Student_Rank_Used b /\ Rank_Type a = Rank_Type b
  /\ Best_Eligible_Cutoff a = Best_Eligible_Cutoff b
  /\ Seat_Chance a = Seat_Chance b
  /\ exists entries_a entries_b,
       Considered_Cutoffs_for_Option a = Py.join ", " entries_a
       /\ Considered_Cutoffs_for_Option b = Py.join ", " entries_b
       /\ entries_a ≡ₚ entries_b.

(** Two runs that raise the same exception, or return rows that agree one by
    one. *)
Definition runs_agree (a b : result (list ResultRow)) : Prop :=
  match a, b with
  | Ok rows_a, Ok rows_b => Forall2 row_agree rows_a rows_b
  | Raise e_a, Raise e_b => e_a = e_b
  | _, _ => False
  end.

(** Floats that compare equal. *)
Definition float_equiv (x y : float) : Prop :=
  float_le x y = true /\ float_le y x = true.

(** What the body of the inner loop returns for two orders of the same
    columns. *)
Definition pair_agree (a b : result (option ResultRow)) : Prop :=
  match a, b with
  | Ok None, Ok None => True
  | Ok (Some row_a), Ok (Some row_b) => row_agree row_a row_b
  | Raise e_a, Raise e_b => e_a = e_b
  | _, _ => False
  end.

(** The master frame and the students of a run whose preconditions all hold:
    the master file exists, loads and has its required columns, a batch file
    is uploaded, loads and has its required columns. *)
Definition ready (to_numeric : cell -> float) (inp : Inputs)
  : option (MasterFrame * list Student) :=
  if master_exists inp then
    match preprocess_master to_numeric (load_excel inp) with
    | Loaded processed_master_df =>
        match student_batch_file inp with
        | Some file =>
            match preprocess_students to_numeric file with
            | Loaded student_batch_df => Some (processed_master_df, student_batch_df)
            | _ => None
            end
        | None => None
        end
    | _ => None
    end
  else None.

(** Sample files and a sample session. *)
Definition sample_master_file : RawFrame :=
  {| raw_columns := ["College Code"; "Course Code"; "Type"; "OC GEN"];
     raw_rows := [[Str "C1"; Str "K1"; Str "NIT"; Str "100"]] |}.

Definition sample_batch_without_category : RawFrame :=
  {| raw_columns := ["Name"; "Student ID"; "Gender";
                     "JEE ADVACED CRL RANK"; "JEE ADVNCED CATEGORY RANK";
                     "JEE MAIN CRL RANK"; "JEE MAIN CATEGORY RANK"];
     raw_rows := [[Str "S"; Str "1"; Str "GEN"; Str "5"; Str "5"; Str "5"; Str "5"]] |}.

Definition sample_row : ResultRow :=
  {| Student_ID := Str "1"; Student_Name := Str "S"; Student_Category := Str "OC";
     Student_Gender := Str "GEN"; College_Type := Str "NIT"; College_Code := Str "C1";
     Program_Name := Str "N/A"; Course_Code := Str "K1"; Student_Rank_Used := "5";
     Rank_Type := "JEE Mains Rank"; Best_Eligible_Cutoff := "100";
     Considered_Cutoffs_for_Option := "OC_GEN: 100"; Seat_Chance := LIKELY |}.

Definition prior_session : gmap string session_value :=
  {[ RESULTS_KEY := Frame [sample_row] ]}.

Definition sample_inputs : Inputs :=
  {| master_exists := true;
     load_excel := Ok sample_master_file;
     student_batch_file := Some (Ok sample_batch_without_category);
     run_button := false |}.

(** A coercion that reads every cell as blank (enough where no number is
    looked at). *)
Definition all_blank (c : cell) : float := NaN.

(** A master file whose headers are already written with underscores, and
    one written with spaces. *)
Definition master_with_underscores : RawFrame :=
  {| raw_columns := ["COLLEGE_CODE"; "COURSE_CODE"; "TYPE"; "OC_GEN"];
     raw_rows := [[Str "C1"; Str "K1"; Str "NIT"; Str "100"]] |}.

Definition master_with_spaces : RawFrame :=
  {| raw_columns := [" College Code"; "Course Code "; "Type"; "Oc Gen"];
     raw_rows := [[Str "C1"; Str "K1"; Str "NIT"; Str "100"]] |}.

(** A master frame with two rows for the same college and course, and a
    choice sheet that names that option once. *)
Definition duplicated_master : MasterFrame :=
  mk_master [mk_option "NIT" [("OC_GEN", rank 100)];
             mk_option "NIT" [("OC_GEN", rank 900)]].

Definition single_choice : list Choice :=
  [{| Choice_College_Code := Str "C1"; Choice_COURSE_CODE := Str "K1";
      Choice_Number := rank 1; Choice_Main_Code := Str "C1_K1" |}].


(** The reading of the cells of the sample files below by
    [pd.to_numeric(errors='coerce')]: the text "inf" is the float infinity,
    digits are the integer they write, a blank is NaN. *)
Definition sample_to_numeric (c : cell) : float :=
  if cell_eq c "inf" then PosInf
  else if cell_eq c "50" then rank 50
  else if cell_eq c "100" then rank 100
  else NaN.

Definition sample_batch_with_inf : RawFrame :=
  {| raw_columns := ["Name"; "Student ID"; "Gender"; "Category";
                     "JEE ADVACED CRL RANK"; "JEE ADVNCED CATEGORY RANK";
                     "JEE MAIN CRL RANK"; "JEE MAIN CATEGORY RANK"];
     raw_rows := [[Str "A"; Str "1"; Str "GEN"; Str "OC";
                   Str "50"; Num NaN; Str "50"; Num NaN];
                  [Str "B"; Str "2"; Str "GEN"; Str "OC";
                   Str "inf"; Num NaN; Str "inf"; Num NaN]] |}.

Definition sample_inputs_with_inf (pressed : bool) : Inputs :=
  {| master_exists := true;
     load_excel := Ok sample_master_file;
     student_batch_file := Some (Ok sample_batch_with_inf);
     run_button := pressed |}.

(* ================================================================== *)
(** ** [split_ranges] (verify_choice_filling_structured.py, lines 406-420;
       the same function is in smart_insights.py, lines 371-382) *)

(** The loop of [split_ranges]: [start] is the first number of the run being
    read, [prev] is [lst[i - 1]], [rest] is [lst[i:]]; [fmt start end] is what
    is appended to [ranges] when a run ends. *)
Fixpoint split_ranges_loop {A : Type} (fmt : Z -> Z -> A) (start prev : Z)
    (rest : list Z) : list A :=
  match rest with
  | [] => [fmt start prev]
  | x :: rest' =>
      if bool_decide (x <> (prev + 1)%Z)
      then fmt start prev :: split_ranges_loop fmt x x rest'
      else split_ranges_loop fmt start x rest'
  end.

(** [f"{start}-{end}" if start != end else f"{start}"]. *)
Definition range_text (start end_ : Z) : string :=
  if bool_decide (start <> end_) then Py.str start +:+ "-" +:+ Py.str end_
  else Py.str start.

Definition split_ranges (lst : list Z) : string :=
  match lst with
  | [] => ""
  | first :: rest => Py.join ", " (split_ranges_loop range_text first first rest)
  end.

(** The runs that [split_ranges] writes, as pairs of their first and last
    number. *)
Definition ranges_of (lst : list Z) : list (Z * Z) :=
  match lst with
  | [] => []
  | first :: rest => split_ranges_loop pair first first rest
  end.

(** The numbers a run [start-end] stands for. *)
Definition expand_range (r : Z * Z) : list Z := seqZ r.1 (r.2 - r.1 + 1).

(* ================================================================== *)
(** ** The left join on [Main_Code] and the unmatched rows
       (verify_choice_filling.py, lines 45 and 99;
        verify_choice_filling_structured.py, line 54; smart_insights.py,
        line 54) *)

(** [pd.merge(student_df, master_df, on='Main_Code', how='left')]: the rows
    of the sheet in their order, each with the master rows of the same key
    in the order of the master table, or alone when there is none.  Blank
    keys match each other. *)
Definition merge_left {S M : Type} (student_key : S -> cell) (master_key : M -> cell)
    (student : list S) (master : list M) : list (S * option M) :=
  student ≫= (fun s =>
    match filter (fun m => key_eq (student_key s) (master_key m) = true) master with
    | [] => [(s, None)]
    | matches => map (fun m => (s, Some m)) matches
    end).

(** [pd.isna] on a cell of a column. *)
Definition cell_isna (c : cell) : bool :=
  match c with
  | Num x => isna x
  | Str _ | Series _ => false
  end.

(** Line 99: [merged_df[merged_df['PROGRAM'].isna()]], [program] reading
    the PROGRAM column of a master row. *)
Definition unmatched {S M : Type} (program : M -> cell)
    (merged_df : list (S * option M)) : list (S * option M) :=
  filter (fun row => match row.2 with
                     | None => true
                     | Some m => cell_isna (program m)
                     end = true) merged_df.

(** The column index of [pd.merge(left, right, on=key, how='left',
    suffixes=(lsuffix, rsuffix))]: the columns of the left table, then those
    of the right table without the key; a label that both tables have, the
    key apart, gets the suffix of its side. *)
Definition merged_columns (left right : list string) (on lsuffix rsuffix : string)
  : list string :=
  map (fun c => if bool_decide (c <> on /\ c ∈ right) then c +:+ lsuffix else c) left
  ++ map (fun c => if bool_decide (c ∈ left) then c +:+ rsuffix else c)
         (filter (fun c => c <> on) right).

(** What lines 100-102 of the choice verifier write. *)
Inductive unmatched_message (R : Type) :=
| Subheader_unmatched
| Dataframe_unmatched (rows : list R).
Arguments Subheader_unmatched {R}.
Arguments Dataframe_unmatched {R} rows.

(** The columns that line 102 selects. *)
Definition unmatched_columns : list string :=
  ["College Code"; "Institute"; "COURSE CODE"; "Program"; "Choice Number"].

(** Lines 98-102 of the choice verifier, [columns] being the column index of
    [merged_df]: what is written, and the exception that line 102 raises
    when a column it selects is missing (the handler of line 104 then
    reports it). *)
Definition show_unmatched {S M : Type} (columns : list string) (program : M -> cell)
    (merged_df : list (S * option M))
  : list (unmatched_message (S * option M)) * option exn :=
  match unmatched program merged_df with
  | [] => ([], None)
  | unmatched_df =>
      if forallb (fun col => bool_decide (col ∈ columns)) unmatched_columns
      then ([Subheader_unmatched; Dataframe_unmatched unmatched_df], None)
      else ([Subheader_unmatched], Some KeyError)
  end.

(* ================================================================== *)
(** ** Smart insights (smart_insights.py, lines 102-130, 152-155, 254-272) *)

(** [col in df.columns and pd.notna(df[col]).any()]. *)
Definition column_has_data (df : RawFrame) (col : string) : bool :=
  match list_find (fun h => h = col) (raw_columns df) with
  | Some (i, _) =>
      existsb (fun row => negb (cell_isna (default (Num NaN) (row !! i)))) (raw_rows df)
  | None => false
  end.

(** The truth value of a Python string. *)
Definition truthy (s : string) : bool := negb (String.eqb s "").

(** Lines 103-130: the cutoff column the analysis uses ([None] when there is
    none).  The dict of lines 87-93 is the one of the batch analyzer. *)
Definition col_to_check (merged_df : RawFrame)
    (student_category_input student_gender_pref : string) : option string :=
  if truthy student_category_input && truthy student_gender_pref then
    match category_to_cutoff_map !! student_category_input with
    | Some selected_category_map =>
        if bool_decide (selected_category_map = ∅) then None
        else
          let preferred_col := selected_category_map !! student_gender_pref in
          let general_col := selected_category_map !! "GEN" in
          let usable (c : option string) : bool :=
            match c with
            | Some col => truthy col && column_has_data merged_df col
            | None => false
            end in
          if usable preferred_col then preferred_col
          else if usable general_col then general_col
          else None
    | None => None
    end
  else None.

Definition SMART_LIKELY : string := "✅ Likely".
Definition SMART_UNLIKELY : string := "❌ Unlikely".

(** Line 154: the status of one option, [x] being its cutoff in the column
    chosen and [student_rank] the integer typed in the sidebar. *)
Definition rank_status (student_rank : Z) (x : float) : string :=
  if notna x && float_le (Fin (inject_Z student_rank)) x
  then SMART_LIKELY else SMART_UNLIKELY.


(* ================================================================== *)
(** ** Navigation (Home.py, lines 9-58) *)

(** The sidebar buttons of one run. *)
Record Buttons := {
  nav_home : bool;
  nav_dashboard_verifier : bool;
  nav_smart_insights : bool;
  nav_multi_student_analyzer : bool
}.

(** [navigate]: [st.session_state.page] after the sidebar is drawn ([None]
    while the attribute is not set). *)
Definition navigate (b : Buttons) (page : option string) : option string :=
  let page := if nav_home b then Some "home" else page in
  let page := if nav_dashboard_verifier b then Some "verify_choice_dashboard" else page in
  let page := if nav_smart_insights b then Some "smart_insights" else page in
  if nav_multi_student_analyzer b then Some "multi_student_analyzer" else page.

(** The page function that [run_page] calls. *)
Inductive page_shown :=
| Display_home
| Display_smart_insights
| Display_multi_student_analyzer
| Display_nothing.

(** [run_page]: the page attribute it leaves, and the page function it
    calls or the exception it raises.  Line 46 imports
    [modules.verify_choice_filling_dashboard]; the package [modules] has no
    module of that name ([display_verify_choice_filling_dashboard] is
    defined in verify_choice_filling_structured.py, which nothing imports),
    so the import raises before any page function is called. *)
Definition run_page (page : option string) : string * result page_shown :=
  let page := default "home" page in
  (page,
   if String.eqb page "home" then Ok Display_home
   else if String.eqb page "verify_choice_dashboard" then Raise ModuleNotFoundError
   else if String.eqb page "smart_insights" then Ok Display_smart_insights
   else if String.eqb page "multi_student_analyzer" then Ok Display_multi_student_analyzer
   else Ok Display_nothing).

(** [main], run after run: the page attribute and, for each run, the
    function called or the exception raised (the session keeps the page
    attribute when a run raises). *)
Fixpoint main_runs (runs : list Buttons) (page : option string)
  : option string * list (result page_shown) :=
  match runs with
  | [] => (page, [])
  | b :: rest =>
      let '(page', shown) := run_page (navigate b page) in
      let '(final, more) := main_runs rest (Some page') in
      (final, shown :: more)
  end.

(** A run in which no button is pressed. *)
Definition no_button : Buttons :=
  {| nav_home := false; nav_dashboard_verifier := false;
     nav_smart_insights := false; nav_multi_student_analyzer := false |}.

(** The character map of the normalisation: upper case, then underscore for
    space. *)
Definition normalize_char (a : ascii) : ascii :=
  let u := upper_ascii a in if Ascii.eqb u " "%char then "_"%char else u.

(** A string without white space at its ends. *)
Definition starts_clean (s : string) : bool :=
  match s with
  | EmptyString => true
  | String a _ => negb (is_space a)
  end.

Fixpoint ends_clean (s : string) : bool :=
  match s with
  | EmptyString => true
  | String a EmptyString => negb (is_space a)
  | String _ rest => ends_clean rest
  end.

(** The identity columns of a result row: student, college, course, type. *)
Definition row_identity (row : ResultRow) : cell * cell * cell * cell :=
  (Student_ID row, College_Code row, Course_Code row, College_Type row).

Definition pair_identity (stu : Student) (opt : MasterOption) : cell * cell * cell * cell :=
  (STUDENT_ID stu, COLLEGE_CODE opt, COURSE_CODE opt, TYPE opt).

(** The same files with the analysis button pressed or not. *)
Definition with_button (inp : Inputs) (pressed : bool) : Inputs :=
  {| master_exists := master_exists inp;
     load_excel := load_excel inp;
     student_batch_file := student_batch_file inp;
     run_button := pressed |}.

(** The sample master file with a batch of one OC student of rank 50. *)
Definition sample_inputs_ok : Inputs :=
  {| master_exists := true;
     load_excel := Ok sample_master_file;
     student_batch_file :=
       Some (Ok {| raw_columns := raw_columns sample_batch_with_inf;
                   raw_rows := [[Str "A"; Str "1"; Str "GEN"; Str "OC";
                                 Str "50"; Num NaN; Str "50"; Num NaN]] |});
     run_button := false |}.

(** A merged table whose SC_FEM column is blank and whose SC_GEN column is
    not. *)
Definition sample_merged : RawFrame :=
  {| raw_columns := ["Choice Number"; "Main_Code"; "TYPE"; "SC_FEM"; "SC_GEN"];
     raw_rows := [[Num (rank 1); Str "C1_K1"; Str "NIT"; Num NaN; Num (rank 800)];
                  [Num (rank 2); Str "C2_K1"; Str "IIT"; Num NaN; Num NaN]] |}.

(** The pages that the router knows. *)
Definition known_page (page : string) : Prop :=
  page ∈ ["home"; "verify_choice_dashboard"; "smart_insights"; "multi_student_analyzer"].


(** A string made of ASCII white space only. *)
Fixpoint all_space (w : string) : bool :=
  match w with
  | EmptyString => true
  | String a rest => is_space a && all_space rest
  end.

(** The tests of lines 131 and 146 have a truth value for this student: the
    category is not a Series, nor is the gender where it is tested. *)
Definition student_tests_ok (student_row : Student) : bool :=
  negb (is_series (CATEGORY student_row))
  && negb (gender_is_tested (CATEGORY student_row) && is_series (GENDER student_row)).

(** The header row of a file is written in ASCII characters, where
    [Analyzer.normalize_columns] is the normalisation that Python does. *)
Definition ascii_headers (file : result RawFrame) : Prop :=
  match file with
  | Ok df => Forall (fun h => is_ascii h = true) (raw_columns df)
  | Raise _ => True
  end.

Definition ascii_inputs (inp : Inputs) : Prop :=
  ascii_headers (load_excel inp)
  /\ match student_batch_file inp with
     | Some file => ascii_headers file
     | None => True
     end.

(** What a run of the router ends with: one of three page functions, or
    the failed import of line 46. *)
Definition router_outcome (outcome : result page_shown) : Prop :=
  outcome = Ok Display_home \/ outcome = Ok Display_smart_insights
  \/ outcome = Ok Display_multi_student_analyzer
  \/ outcome = Raise ModuleNotFoundError.

(** A master file with two columns whose headers normalise to COLLEGE_CODE,
    and a batch file with two columns whose headers normalise to CATEGORY. *)
Definition master_with_two_code_headers : RawFrame :=
  {| raw_columns := ["College Code"; "COLLEGE_CODE"; "Course Code"; "Type"; "OC GEN"];
     raw_rows := [[Str "C1"; Str "C1"; Str "K1"; Str "NIT"; Str "100"]] |}.

Definition batch_with_two_category_headers : RawFrame :=
  {| raw_columns := ["Name"; "Student ID"; "Gender"; "Category"; "CATEGORY";
                     "JEE ADVACED CRL RANK"; "JEE ADVNCED CATEGORY RANK";
                     "JEE MAIN CRL RANK"; "JEE MAIN CATEGORY RANK"];
     raw_rows := [[Str "A"; Str "1"; Str "GEN"; Str "OC"; Str "OC";
                   Str "50"; Num NaN; Str "50"; Num NaN]] |}.

(** The cells of a file as pandas reads them: texts and floats. *)
Definition plain_cells (df : RawFrame) : Prop :=
  Forall (Forall (fun c => is_series c = false)) (raw_rows df).

(* ================================================================== *)
(** * Properties *)

(** ** The cutoff resolver *)

Lemma category_map_of_float (x : float) : category_map_of (Num x) = None.
Proof. reflexivity. Qed.

(** The dict has exactly the five categories as keys. *)
Lemma category_map_of_Some (s : string) (m : gmap string string) :
  category_map_of (Str s) = Some m ->
  s ∈ ["OC"; "EWS"; "OBC"; "SC"; "ST"].
Proof.
  unfold category_map_of, category_to_cutoff_map. intros H.
  apply elem_of_list_to_map_2 in H.
  repeat (apply elem_of_cons in H as [H | H];
          [injection H as -> _; set_solver |]).
  by apply elem_of_nil in H.
Qed.

Lemma category_map_of_None (c : cell) :
  (forall s, c = Str s -> s ∉ ["OC"; "EWS"; "OBC"; "SC"; "ST"]) ->
  category_map_of c = None.
Proof.
  intros H. destruct c as [s | x | items]; [| done | done].
  destruct (category_map_of (Str s)) as [m |] eqn:E; [| done].
  apply category_map_of_Some in E. by destruct (H s eq_refl).
Qed.

(** What lines 141-163 collect for each of the five categories. *)
Lemma collected_OC (columns : list string) (gender : cell) :
  collected_cutoff_cols columns (Str "OC") gender =
  if cell_eq gender "FEM"
  then append_label_if_in "OC_FEM" columns ++ append_label_if_in "OC_GEN" columns
  else append_label_if_in "OC_GEN" columns.
Proof.
  unfold collected_cutoff_cols.
  replace (category_map_of (Str "OC"))
    with (Some (list_to_map [("FEM", "OC_FEM"); ("GEN", "OC_GEN")] : gmap string string))
    by (vm_compute; reflexivity).
  replace (bool_decide (_ = ∅)) with false by (vm_compute; reflexivity).
  replace (cell_eq (Str "OC") "OC") with true by reflexivity.
  cbn [negb]. rewrite app_nil_r. reflexivity.
Qed.

Lemma collected_reserved (cat : string) (columns : list string) (gender : cell) :
  cat ∈ ["EWS"; "OBC"; "SC"; "ST"] ->
  collected_cutoff_cols columns (Str cat) gender =
  if cell_eq gender "FEM"
  then (append_label_if_in (cat +:+ "_FEM") columns
        ++ append_label_if_in (cat +:+ "_GEN") columns)
       ++ (append_label_if_in "OC_GEN" columns ++ append_label_if_in "OC_FEM" columns)
  else append_label_if_in (cat +:+ "_GEN") columns
       ++ append_label_if_in "OC_GEN" columns.
Proof.
  intros Hcat. unfold collected_cutoff_cols.
  repeat (apply elem_of_cons in Hcat as [-> | Hcat]);
    [ | | | | by apply elem_of_nil in Hcat ];
    match goal with
    | |- context [category_map_of (Str ?c)] =>
        let m := eval vm_compute in (category_to_cutoff_map !! c) in
        let f := eval vm_compute in (category_to_cutoff_map !! c ≫= (.!! "FEM")) in
        let g := eval vm_compute in (category_to_cutoff_map !! c ≫= (.!! "GEN")) in
        match f with
        | Some ?f' =>
            match g with
            | Some ?g' =>
                replace (category_map_of (Str c))
                  with (Some (list_to_map [("FEM", f'); ("GEN", g')] : gmap string string))
                  by (vm_compute; reflexivity)
            end
        end
    end;
    replace (bool_decide (_ = ∅)) with false by (vm_compute; reflexivity);
    destruct (cell_eq gender "FEM"); reflexivity.
Qed.

Lemma elem_of_append_label (x label : string) (columns : list string) :
  x ∈ append_label_if_in label columns <-> x = label /\ label ∈ columns.
Proof.
  unfold append_label_if_in. destruct (decide (label ∈ columns)).
  - rewrite bool_decide_eq_true_2 by done. rewrite list_elem_of_singleton. tauto.
  - rewrite bool_decide_eq_false_2 by done.
    split; [by intros ?%elem_of_nil | tauto].
Qed.

Lemma list_set_nil (o : SetOrder) : list_set o [] = [].
Proof.
  destruct (list_set o []) as [| x l] eqn:E; [done |].
  assert (x ∈ list_set o []) as H by (rewrite E; left).
  apply list_set_elem in H. by apply elem_of_nil in H.
Qed.

Lemma elem_of_eligible (o : SetOrder) (columns : list string)
    (category gender : cell) (x : string) :
  x ∈ eligible_cutoff_cols o columns category gender <->
  x ∈ columns /\ x ∈ collected_cutoff_cols columns category gender.
Proof.
  unfold eligible_cutoff_cols. rewrite list_set_elem, list_elem_of_filter. tauto.
Qed.

Lemma eligible_NoDup (o : SetOrder) (columns : list string) (category gender : cell) :
  NoDup (eligible_cutoff_cols o columns category gender).
Proof. apply list_set_NoDup. Qed.

(** An unmapped category resolves to no column at all. *)
Lemma eligible_unmapped (o : SetOrder) (columns : list string) (category gender : cell) :
  category_map_of category = None ->
  eligible_cutoff_cols o columns category gender = [].
Proof.
  intros H. unfold eligible_cutoff_cols, collected_cutoff_cols. rewrite H.
  apply list_set_nil.
Qed.

(** C3.  For a student of category OC the resolver returns a duplicate-free
    list contained in {OC_GEN, OC_FEM}, hence without any column of another
    category, whatever the gender and the master schema.  For a student of
    another category of the data model (EWS, OBC, SC, ST) and of gender FEM
    the list contains OC_GEN as soon as the master schema has that column.
    In both cases every member is a column of the schema: a column that the
    schema lacks is left out, silently.  (The gender is a cell of the batch
    file, not the Series that several GENDER columns would give: line 146
    raises on a Series.) *)
Theorem resolver_columns (o : SetOrder) (columns : list string)
    (category : string) (gender : cell) :
  (is_series gender = false ->
   NoDup (eligible_cutoff_cols o columns (Str "OC") gender)
   /\ forall col, col ∈ eligible_cutoff_cols o columns (Str "OC") gender ->
                  (col = "OC_GEN" \/ col = "OC_FEM") /\ col ∈ columns)
  /\ (category ∈ ["EWS"; "OBC"; "SC"; "ST"] ->
      ("OC_GEN" ∈ columns ->
       "OC_GEN" ∈ eligible_cutoff_cols o columns (Str category) (Str "FEM"))
      /\ NoDup (eligible_cutoff_cols o columns (Str category) (Str "FEM"))
      /\ forall col, col ∈ eligible_cutoff_cols o columns (Str category) (Str "FEM") ->
                     col ∈ columns).
Proof.
  split; [intros _; split |].
  - apply eligible_NoDup.
  - intros col [Hin Hcol]%elem_of_eligible. split; [| done].
    rewrite collected_OC in Hcol.
    destruct (cell_eq gender "FEM");
      repeat (apply elem_of_app in Hcol as [Hcol | Hcol]);
      apply elem_of_append_label in Hcol as [-> _]; auto.
  - intros Hcat. split; [| split].
    + intros Hin. apply elem_of_eligible. split; [done |].
      rewrite collected_reserved by done. cbn [cell_eq].
      rewrite bool_decide_eq_true_2 by done.
      apply elem_of_app. right. apply elem_of_app. left.
      by apply elem_of_append_label.
    + apply eligible_NoDup.
    + by intros col [? _]%elem_of_eligible.
Qed.

Lemma resolver_columns_witness :
  "OC_GEN" ∈ eligible_cutoff_cols insertion_order
               (master_columns (mk_master [])) (Str "SC") (Str "FEM")
  /\ NoDup (eligible_cutoff_cols insertion_order
              (master_columns (mk_master [])) (Str "OC") (Str "FEM")).
Proof.
  destruct (resolver_columns insertion_order (master_columns (mk_master []))
              "SC" (Str "FEM")) as [Hoc Hreserved].
  split.
  - apply Hreserved.
    + repeat constructor.
    + apply (bool_decide_unpack _). by vm_compute.
  - by apply Hoc.
Defined.

(** Outside the data model: a category that is no key of the dict (C10 is
    about these) gets no column at all, the open-category columns
    included, because the fallback of lines 155-163 is nested in the test
    of line 143. *)
Remark fallback_needs_a_mapped_category :
  eligible_cutoff_cols insertion_order ["OC_GEN"; "OC_FEM"] (Str "GEN-EWS") (Str "FEM")
  = [].
Proof. by vm_compute. Qed.

(* ================================================================== *)
(** ** The order on floats and [min] *)

Lemma float_le_refl (x : float) : notna x = true -> float_le x x = true.
Proof.
  destruct x as [q | | |]; try done. intros _. cbn.
  apply Qle_bool_iff, Qle_refl.
Qed.

Lemma float_le_trans (x y z : float) :
  float_le x y = true -> float_le y z = true -> float_le x z = true.
Proof.
  destruct x as [a | | |], y as [b | | |], z as [c | | |]; cbn; try done.
  rewrite !Qle_bool_iff. apply Qle_trans.
Qed.

Lemma float_lt_le (x y : float) : float_lt x y = true -> float_le x y = true.
Proof.
  destruct x as [a | | |], y as [b | | |]; cbn; try done.
  intros H%negb_true_iff. apply Qle_bool_iff.
  destruct (Qlt_le_dec a b) as [Hlt | Hle]; [by apply Qlt_le_weak |].
  apply Qle_bool_iff in Hle. congruence.
Qed.

Lemma float_not_lt_le (x y : float) :
  notna x = true -> notna y = true ->
  float_lt x y = false -> float_le y x = true.
Proof.
  destruct x as [a | | |], y as [b | | |]; cbn; try done.
  intros _ _ H%negb_false_iff. done.
Qed.

Lemma float_lt_not_le (x y : float) : float_lt x y = true -> float_le y x = false.
Proof.
  destruct x as [a | | |], y as [b | | |]; cbn; try done.
  by intros H%negb_true_iff.
Qed.

(** [min] returns a member that is below every member. *)
Lemma min_spec (l : list float) (x : float) :
  Forall (fun v => notna v = true) (x :: l) ->
  Py.min x l ∈ x :: l /\ forall v, v ∈ x :: l -> float_le (Py.min x l) v = true.
Proof.
  unfold Py.min. revert x.
  induction l as [| y l IH]; intros x Hall.
  - cbn. split; [left |].
    intros v ->%list_elem_of_singleton. apply float_le_refl.
    by inversion Hall.
  - cbn [fold_left].
    inversion Hall as [| ? ? Hx Hrest]; subst.
    inversion Hrest as [| ? ? Hy Hl]; subst.
    destruct (float_lt y x) eqn:Hlt.
    + destruct (IH y) as [Hin Hle]; [by constructor |].
      split; [by right |].
      intros v [-> | Hv]%elem_of_cons; [| by apply Hle].
      eapply float_le_trans; [apply Hle; left | by apply float_lt_le].
    + destruct (IH x) as [Hin Hle]; [by constructor |].
      split.
      * apply elem_of_cons in Hin as [-> | Hin]; [left | right; by right].
      * intros v [-> | [-> | Hv]%elem_of_cons]%elem_of_cons.
        -- apply Hle; left.
        -- eapply float_le_trans; [apply Hle; left | by apply float_not_lt_le].
        -- apply Hle. by right.
Qed.

(** The values collected are exactly the present cells of the eligible columns. *)
Lemma elem_of_option_cutoffs_values (cols : list string) (opt : MasterOption) (v : float) :
  v ∈ option_cutoffs_values cols opt <->
  exists col, col ∈ cols /\ cutoffs opt !! col = Some v /\ notna v = true.
Proof.
  unfold option_cutoffs_values. rewrite list_elem_of_omap.
  split.
  - intros (col & Hcol & H). exists col. split; [done |].
    destruct (cutoffs opt !! col) as [w |]; [| done].
    destruct (notna w) eqn:Hw; [| done]. by injection H as ->.
  - intros (col & Hcol & Hlook & Hv). exists col. split; [done |].
    by rewrite Hlook, Hv.
Qed.

Lemma option_cutoffs_values_notna (cols : list string) (opt : MasterOption) :
  Forall (fun v => notna v = true) (option_cutoffs_values cols opt).
Proof.
  apply Forall_forall. intros v Hv.
  by apply elem_of_option_cutoffs_values in Hv as (_ & _ & _ & ?).
Qed.

(** The collected values depend on the eligible columns only. *)
Lemma option_cutoffs_values_ext (cols : list string) (opt opt' : MasterOption) :
  (forall col, col ∈ cols -> cutoffs opt !! col = cutoffs opt' !! col) ->
  option_cutoffs_values cols opt = option_cutoffs_values cols opt'.
Proof.
  unfold option_cutoffs_values. induction cols as [| col cols IH]; intros H; [done |].
  cbn. rewrite (H col) by left. rewrite IH; [done |].
  intros c Hc. apply H. by right.
Qed.

Lemma best_Some_inv (cols : list string) (r : float) (opt : MasterOption) (m : float) :
  best_eligible_cutoff_for_option cols r opt = Some m ->
  notna r = true
  /\ (exists col, col ∈ cols /\ cutoffs opt !! col = Some m /\ notna m = true)
  /\ forall col v, col ∈ cols -> cutoffs opt !! col = Some v -> notna v = true ->
                   float_le m v = true.
Proof.
  unfold best_eligible_cutoff_for_option.
  destruct (notna r); [| done].
  pose proof (option_cutoffs_values_notna cols opt) as Hall.
  pose proof (elem_of_option_cutoffs_values cols opt) as Helem.
  destruct (option_cutoffs_values cols opt) as [| v vs]; [done |].
  intros [= <-]. destruct (min_spec vs v Hall) as [Hin Hle].
  split; [done |]. split.
  - by apply Helem.
  - intros col w Hcol Hlook Hw. apply Hle, Helem. eauto.
Qed.

Lemma best_None_inv (cols : list string) (r : float) (opt : MasterOption) :
  best_eligible_cutoff_for_option cols r opt = None ->
  notna r = true ->
  forall col v, col ∈ cols -> cutoffs opt !! col = Some v -> notna v = false.
Proof.
  unfold best_eligible_cutoff_for_option. intros H Hr. rewrite Hr in H.
  pose proof (elem_of_option_cutoffs_values cols opt) as Helem.
  destruct (option_cutoffs_values cols opt) as [| w ws]; [| done].
  intros col v Hcol Hlook. destruct (notna v) eqn:Hv; [| done].
  assert (v ∈ []) as Hin by (apply Helem; eauto).
  by apply elem_of_nil in Hin.
Qed.

(* ================================================================== *)
(** ** One pair *)

Lemma cutoff_present_ext (cols : list string) (opt opt' : MasterOption) :
  (forall col, col ∈ cols -> cutoffs opt !! col = cutoffs opt' !! col) ->
  relevant_cutoffs_for_option_display cols opt
  = relevant_cutoffs_for_option_display cols opt'.
Proof.
  unfold relevant_cutoffs_for_option_display.
  induction cols as [| col cols IH]; intros H; [done |].
  assert (cutoff_present opt col = cutoff_present opt' col) as Hp
    by (unfold cutoff_present; rewrite (H col) by left; done).
  assert (cutoff_entry opt col = cutoff_entry opt' col) as He
    by (unfold cutoff_entry; rewrite (H col) by left; done).
  rewrite !filter_cons, Hp.
  assert (forall c, c ∈ cols -> cutoffs opt !! c = cutoffs opt' !! c) as H'
    by (intros c Hc; apply H; by right).
  specialize (IH H').
  destruct (decide (cutoff_present opt' col = true)); [| done].
  cbn [mapM]. by rewrite He, IH.
Qed.

Lemma best_ext (cols : list string) (r : float) (opt opt' : MasterOption) :
  (forall col, col ∈ cols -> cutoffs opt !! col = cutoffs opt' !! col) ->
  best_eligible_cutoff_for_option cols r opt
  = best_eligible_cutoff_for_option cols r opt'.
Proof.
  intros H. unfold best_eligible_cutoff_for_option.
  by rewrite (option_cutoffs_values_ext cols opt opt' H).
Qed.

(** A type for which a rank applies is a text, not a Series. *)
Lemma applicable_scalar (t : cell) (adv mains : float) (x : float * string) :
  applicable_student_rank t adv mains = Some x -> is_series t = false.
Proof. by destruct t. Qed.


(** Opens the body of the inner loop; the case of a Series is closed when
    the goal supposes that the body returns. *)
Ltac open_pair opt :=
  unfold evaluate_option;
  destruct (is_series (TYPE opt)) eqn:?; [try done |].

(** What a row that was appended holds. *)
Lemma evaluate_option_row (cols : list string) (stu : Student) (adv mains : float)
    (opt : MasterOption) (row : ResultRow) :
  evaluate_option cols stu adv mains opt = Ok (Some row) ->
  exists r label,
    applicable_student_rank (TYPE opt) adv mains = Some (r, label)
    /\ Rank_Type row = label
    /\ Seat_Chance row = seat_chance r (best_eligible_cutoff_for_option cols r opt)
    /\ int_or_na r = Ok (Student_Rank_Used row)
    /\ match best_eligible_cutoff_for_option cols r opt with
       | Some b => int_or_na b = Ok (Best_Eligible_Cutoff row)
       | None => Best_Eligible_Cutoff row = "N/A"
                 /\ Considered_Cutoffs_for_Option row = ""
       end.
Proof.
  open_pair opt.
  destruct (applicable_student_rank (TYPE opt) adv mains) as [[r label] |]; [| done].
  intros H. exists r, label. split; [done |].
  destruct (best_eligible_cutoff_for_option cols r opt) as [b |].
  - destruct (relevant_cutoffs_for_option_display cols opt) as [d |]; [| done].
    cbn in H. destruct (int_or_na r) as [ru |]; [| done].
    cbn in H. destruct (int_or_na b) as [bs |]; [| done].
    cbn in H. injection H as <-. done.
  - cbn in H. destruct (int_or_na r) as [ru |]; [| done].
    cbn in H. injection H as <-. done.
Qed.

(** C1.  For a pair for which the engine appends a row, the row's verdict is
    LIKELY exactly when the applicable rank is present, a best eligible
    cutoff exists and the rank is at most that cutoff.  A rank equal to the
    cutoff gives LIKELY; a rank strictly above it gives UNLIKELY. *)
Theorem verdict_likely_iff (cols : list string) (stu : Student) (adv mains : float)
    (opt : MasterOption) (row : ResultRow) :
  evaluate_option cols stu adv mains opt = Ok (Some row) ->
  exists r label,
    applicable_student_rank (TYPE opt) adv mains = Some (r, label)
    /\ (Seat_Chance row = LIKELY <->
        notna r = true
        /\ exists c, best_eligible_cutoff_for_option cols r opt = Some c
                     /\ float_le r c = true)
    /\ (best_eligible_cutoff_for_option cols r opt = Some r ->
        Seat_Chance row = LIKELY)
    /\ (forall c, best_eligible_cutoff_for_option cols r opt = Some c ->
                  float_lt c r = true -> Seat_Chance row = UNLIKELY).
Proof.
  intros H. apply evaluate_option_row in H as (r & label & Happ & _ & Hseat & _).
  exists r, label. split; [done |]. rewrite Hseat. clear Hseat.
  split; [| split].
  - unfold seat_chance.
    destruct (best_eligible_cutoff_for_option cols r opt) as [b |] eqn:Hb.
    + apply best_Some_inv in Hb as (Hr & _).
      destruct (float_le r b) eqn:Hle.
      * split; [| done]. intros _. split; [done |]. by exists b.
      * split; [done |]. intros (_ & c & [= <-] & Hc). congruence.
    + split; [by destruct (isna r) |]. by intros (_ & c & ? & _).
  - intros Hb. rewrite Hb. cbn.
    apply best_Some_inv in Hb as (Hr & _). by rewrite float_le_refl.
  - intros c Hb Hlt. rewrite Hb. cbn. by rewrite (float_lt_not_le c r).
Qed.

Lemma verdict_likely_iff_witness :
  exists row r label,
    evaluate_option ["SC_FEM"] (mk_student "SC" "FEM" (rank 500))
      (rank 500) (rank 500) (mk_option "IIT" [("SC_FEM", rank 500)]) = Ok (Some row)
    /\ applicable_student_rank (Str "IIT") (rank 500) (rank 500) = Some (r, label)
    /\ (Seat_Chance row = LIKELY <->
        notna r = true
        /\ exists c, best_eligible_cutoff_for_option ["SC_FEM"] r
                       (mk_option "IIT" [("SC_FEM", rank 500)]) = Some c
                     /\ float_le r c = true).
Proof.
  eexists. 
  destruct (verdict_likely_iff ["SC_FEM"] (mk_student "SC" "FEM" (rank 500))
              (rank 500) (rank 500) (mk_option "IIT" [("SC_FEM", rank 500)]) _
              ltac:(vm_compute; reflexivity))
    as (r & label & Happ & Hiff & _).
  exists r, label. split; [vm_compute; reflexivity |]. split; [exact Happ | exact Hiff].
Defined.

(** C2.  With a present applicable rank, the best eligible cutoff is a present
    cell of an eligible column of the option and is at most every present
    cell of every eligible column; there is none exactly when no eligible
    column has a present cell.  Cells of other columns have no influence: an
    option that differs only outside the eligible columns has the same best
    cutoff, and the engine appends the same row for it. *)
Theorem best_cutoff_min_of_eligible (cols : list string) (r : float)
    (opt opt' : MasterOption) (stu : Student) (adv mains : float) :
  notna r = true ->
  (forall col, col ∈ cols -> cutoffs opt !! col = cutoffs opt' !! col) ->
  TYPE opt = TYPE opt' -> COLLEGE_CODE opt = COLLEGE_CODE opt' ->
  COURSE_CODE opt = COURSE_CODE opt' -> PROGRAM opt = PROGRAM opt' ->
  match best_eligible_cutoff_for_option cols r opt with
  | Some m =>
      (exists col, col ∈ cols /\ cutoffs opt !! col = Some m /\ notna m = true)
      /\ forall col v, col ∈ cols -> cutoffs opt !! col = Some v ->
                       notna v = true -> float_le m v = true
  | None =>
      forall col v, col ∈ cols -> cutoffs opt !! col = Some v -> notna v = false
  end
  /\ best_eligible_cutoff_for_option cols r opt'
     = best_eligible_cutoff_for_option cols r opt
  /\ evaluate_option cols stu adv mains opt'
     = evaluate_option cols stu adv mains opt.
Proof.
  intros Hr Hcut Htype Hcollege Hcourse Hprogram. split; [| split].
  - destruct (best_eligible_cutoff_for_option cols r opt) as [m |] eqn:Hb.
    + by apply best_Some_inv in Hb as (_ & ? & ?).
    + exact (best_None_inv cols r opt Hb Hr).
  - symmetry. by apply best_ext.
  - unfold evaluate_option.
    rewrite <- Htype, <- Hcollege, <- Hcourse, <- Hprogram.
    destruct (is_series (TYPE opt)); [done |].
    destruct (applicable_student_rank (TYPE opt) adv mains) as [[a label] |]; [| done].
    rewrite <- (best_ext cols a opt opt' Hcut).
    by rewrite <- (cutoff_present_ext cols opt opt' Hcut).
Qed.

Lemma best_cutoff_min_of_eligible_witness :
  best_eligible_cutoff_for_option ["SC_FEM"; "SC_GEN"; "OC_GEN"] (rank 500)
    (mk_option "IIT" [("SC_FEM", rank 600); ("SC_GEN", rank 550); ("OC_GEN", rank 300)])
  = best_eligible_cutoff_for_option ["SC_FEM"; "SC_GEN"; "OC_GEN"] (rank 500)
      (mk_option "IIT" [("SC_FEM", rank 600); ("SC_GEN", rank 550);
                        ("OC_GEN", rank 300); ("ST_GEN", rank 5)]).
Proof.
  apply (best_cutoff_min_of_eligible ["SC_FEM"; "SC_GEN"; "OC_GEN"] (rank 500)
           (mk_option "IIT" [("SC_FEM", rank 600); ("SC_GEN", rank 550);
                             ("OC_GEN", rank 300); ("ST_GEN", rank 5)])
           (mk_option "IIT" [("SC_FEM", rank 600); ("SC_GEN", rank 550);
                             ("OC_GEN", rank 300)])
           (mk_student "SC" "FEM" (rank 500)) (rank 500) (rank 500));
    try reflexivity.
  intros col Hcol.
  repeat (apply elem_of_cons in Hcol as [-> | Hcol]; [vm_compute; reflexivity |]).
  by apply elem_of_nil in Hcol.
Defined.

(** The scenarios of the specification: an SC/FEM student of rank 500 against
    an IIT option with SC_FEM 600, SC_GEN 550 and OC_GEN 300, then against one
    with SC_FEM 600 only; a student without rank; an option of another type. *)
Example scenario_rows :
  match run_analysis insertion_order
          (mk_master [mk_option "IIT" [("SC_FEM", rank 600); ("SC_GEN", rank 550);
                                       ("OC_GEN", rank 300)];
                      mk_option "IIT" [("SC_FEM", rank 600)];
                      mk_option "DEEMED" [("SC_FEM", rank 600)]])
          [mk_student "SC" "FEM" (rank 500); mk_student "SC" "FEM" NaN] with
  | Ok rows =>
      map (fun row => (Student_Rank_Used row, Best_Eligible_Cutoff row, Seat_Chance row)) rows
      = [("500", "300", UNLIKELY); ("500", "600", LIKELY);
         ("N/A", "N/A", RANK_MISSING); ("N/A", "N/A", RANK_MISSING)]
  | Raise _ => False
  end.
Proof. vm_compute. reflexivity. Qed.

Example scenario_best_is_lowest_eligible :
  best_eligible_cutoff_for_option ["SC_FEM"; "SC_GEN"; "OC_GEN"] (rank 500)
    (mk_option "IIT" [("SC_FEM", rank 600); ("SC_GEN", rank 550);
                      ("OC_GEN", rank 300); ("ST_GEN", rank 5)])
  = Some (rank 300).
Proof. vm_compute. reflexivity. Qed.

(* ================================================================== *)
(** ** The loops *)

Lemma applicable_is_Some (t : cell) (adv mains : float) :
  evaluated_type t = true ->
  exists r label, applicable_student_rank t adv mains = Some (r, label)
                  /\ (r = adv \/ r = mains).
Proof.
  unfold evaluated_type, applicable_student_rank. intros H.
  destruct (cell_eq t "IIT"); [eauto |].
  cbn [orb] in H. rewrite H. eauto.
Qed.

Lemma applicable_is_None (t : cell) (adv mains : float) :
  evaluated_type t = false -> applicable_student_rank t adv mains = None.
Proof.
  unfold evaluated_type, applicable_student_rank. intros H.
  destruct (cell_eq t "IIT"); [done |].
  cbn [orb] in H. by rewrite H.
Qed.


(** The body of the outer loop, past the tests of lines 131 and 146. *)
Lemma analyze_student_unfold (o : SetOrder) (master : MasterFrame) (stu : Student) :
  analyze_student o master stu
  = if student_tests_ok stu
    then evaluate_options
           (evaluate_option
              (eligible_cutoff_cols o (master_columns master) (CATEGORY stu) (GENDER stu))
              stu (current_student_adv_rank stu) (current_student_mains_rank stu))
           (master_rows master)
    else Raise ValueError.
Proof.
  unfold analyze_student, student_tests_ok.
  destruct (is_series (CATEGORY stu)); [done |].
  by destruct (gender_is_tested (CATEGORY stu) && is_series (GENDER stu)).
Qed.

(** When the body does not raise, it appends a row exactly for the evaluated
    types. *)
Lemma evaluate_option_Ok (cols : list string) (stu : Student) (adv mains : float)
    (opt : MasterOption) (r : option ResultRow) :
  evaluate_option cols stu adv mains opt = Ok r ->
  is_Some r <-> evaluated_type (TYPE opt) = true.
Proof.
  destruct (evaluated_type (TYPE opt)) eqn:Ht.
  - destruct (applicable_is_Some _ adv mains Ht) as (a & label & Happ & _).
    unfold evaluate_option. rewrite (applicable_scalar _ _ _ _ Happ), Happ.
    destruct (best_eligible_cutoff_for_option cols a opt) as [b |].
    + destruct (relevant_cutoffs_for_option_display cols opt) as [d |]; cbn; [| done].
      destruct (int_or_na a) as [ru |]; cbn; [| done].
      destruct (int_or_na b) as [bs |]; cbn; [| done].
      intros [= <-]. split; eauto.
    + cbn. destruct (int_or_na a) as [ru |]; cbn; [| done].
      intros [= <-]. split; eauto.
  - open_pair opt. rewrite applicable_is_None by done. intros [= <-].
    split; [by intros [? ?] | done].
Qed.

Lemma evaluate_options_length (cols : list string) (stu : Student) (adv mains : float)
    (options : list MasterOption) (rows : list ResultRow) :
  evaluate_options (evaluate_option cols stu adv mains) options = Ok rows ->
  length rows
  = length (filter (fun opt => evaluated_type (TYPE opt) = true) options).
Proof.
  revert rows. induction options as [| opt options IH]; intros rows.
  - by intros [= <-].
  - cbn [evaluate_options].
    destruct (evaluate_option cols stu adv mains opt) as [r |] eqn:Hr; [| done].
    cbn. destruct (evaluate_options _ options) as [rest |]; [| done].
    cbn. intros [= <-]. specialize (IH rest eq_refl).
    apply evaluate_option_Ok in Hr.
    destruct (decide (evaluated_type (TYPE opt) = true)) as [Ht | Ht].
    + apply Hr in Ht as [row ->]. cbn. by rewrite IH.
    + destruct r as [row |]; [| done]. destruct Ht. apply Hr. eauto.
Qed.

(** A run that completes has one row per student and evaluated option. *)
Lemma run_analysis_length (o : SetOrder) (master : MasterFrame)
    (students : list Student) (rows : list ResultRow) :
  run_analysis o master students = Ok rows ->
  length rows = (length students * length (evaluated_options master))%nat.
Proof.
  revert rows. induction students as [| stu students IH]; intros rows.
  - by intros [= <-].
  - cbn [run_analysis].
    destruct (analyze_student o master stu) as [here |] eqn:Hs; [| done].
    cbn. destruct (run_analysis o master students) as [more |]; [| done].
    cbn. intros [= <-]. rewrite length_app, (IH more eq_refl).
    rewrite analyze_student_unfold in Hs.
    destruct (student_tests_ok stu); [| done].
    apply evaluate_options_length in Hs. rewrite Hs. done.
Qed.

(* ================================================================== *)
(** ** When the body of the loop raises *)

Lemma int_or_na_no_inf (x : float) :
  is_inf x = false -> exists s, int_or_na x = Ok s.
Proof. destruct x; cbn; try done; eauto. Qed.


Lemma option_no_inf_lookup (opt : MasterOption) (col : string) (v : float) :
  option_no_inf opt = true -> cutoffs opt !! col = Some v -> is_inf v = false.
Proof.
  unfold option_no_inf. intros H%bool_decide_eq_true Hlook.
  exact (H col v Hlook).
Qed.

Lemma display_no_inf (cols : list string) (opt : MasterOption) :
  option_no_inf opt = true ->
  exists d, relevant_cutoffs_for_option_display cols opt = Ok d.
Proof.
  intros Hopt. unfold relevant_cutoffs_for_option_display.
  induction cols as [| col cols (d & IH)]; [by exists [] |].
  rewrite filter_cons.
  destruct (decide (cutoff_present opt col = true)) as [Hp |]; [| eauto].
  cbn [mapM]. rewrite IH. unfold cutoff_entry, cutoff_present in *.
  destruct (cutoffs opt !! col) as [v |] eqn:Hlook; [| done].
  pose proof (option_no_inf_lookup opt col v Hopt Hlook).
  destruct v; try done. cbn. eauto.
Qed.

(** Without an infinite rank or cutoff the body returns (the type of the
    option being under one column). *)
Lemma evaluate_option_no_inf (cols : list string) (stu : Student) (adv mains : float)
    (opt : MasterOption) :
  is_series (TYPE opt) = false ->
  is_inf adv = false -> is_inf mains = false -> option_no_inf opt = true ->
  exists r, evaluate_option cols stu adv mains opt = Ok r.
Proof.
  intros Hs Hadv Hmains Hopt. unfold evaluate_option. rewrite Hs.
  destruct (applicable_student_rank (TYPE opt) adv mains) as [[a label] |] eqn:Happ;
    [| by exists None].
  assert (is_inf a = false) as Ha.
  { unfold applicable_student_rank in Happ.
    destruct (cell_eq (TYPE opt) "IIT"); [by injection Happ as <- _ |].
    destruct (_ || _); [by injection Happ as <- _ | done]. }
  destruct (int_or_na_no_inf a Ha) as [ru Hru].
  destruct (best_eligible_cutoff_for_option cols a opt) as [b |] eqn:Hb.
  - destruct (display_no_inf cols opt Hopt) as [d ->]. cbn. rewrite Hru. cbn.
    apply best_Some_inv in Hb as (_ & (col & _ & Hlook & _) & _).
    destruct (int_or_na_no_inf b (option_no_inf_lookup opt col b Hopt Hlook))
      as [bs ->].
    cbn. eauto.
  - cbn. rewrite Hru. cbn. eauto.
Qed.

Lemma evaluate_options_no_inf (cols : list string) (stu : Student) (adv mains : float)
    (options : list MasterOption) :
  is_inf adv = false -> is_inf mains = false ->
  Forall (fun opt => is_series (TYPE opt) = false /\ option_no_inf opt = true) options ->
  exists rows, evaluate_options (evaluate_option cols stu adv mains) options = Ok rows.
Proof.
  intros Hadv Hmains.
  induction 1 as [| opt options [Hs Hopt] _ (rows & IH)]; [by exists [] |].
  cbn [evaluate_options].
  destruct (evaluate_option_no_inf cols stu adv mains opt Hs Hadv Hmains Hopt) as [r ->].
  cbn. rewrite IH. cbn. eauto.
Qed.

Lemma current_ranks_no_inf (stu : Student) :
  student_no_inf stu = true ->
  is_inf (current_student_adv_rank stu) = false
  /\ is_inf (current_student_mains_rank stu) = false.
Proof.
  unfold student_no_inf, current_student_adv_rank, current_student_mains_rank.
  rewrite !andb_true_iff, !negb_true_iff. intros (((? & ?) & ?) & ?).
  by destruct (cell_eq (CATEGORY stu) "OC").
Qed.

(** A batch without an infinite rank or cutoff, whose CATEGORY, GENDER and
    TYPE are each under one column, runs to the end, and then has one row
    per student and evaluated option. *)
Lemma run_analysis_no_inf (o : SetOrder) (master : MasterFrame) (students : list Student) :
  Forall (fun stu => student_tests_ok stu = true /\ student_no_inf stu = true) students ->
  Forall (fun opt => is_series (TYPE opt) = false /\ option_no_inf opt = true)
         (master_rows master) ->
  exists rows,
    run_analysis o master students = Ok rows
    /\ length rows = (length students * length (evaluated_options master))%nat.
Proof.
  intros Hstu Hopt.
  assert (exists rows, run_analysis o master students = Ok rows) as [rows Hrun].
  { induction Hstu as [| stu students [Hok Hs] _ (more & IH)]; [by exists [] |].
    cbn [run_analysis]. rewrite analyze_student_unfold, Hok.
    destruct (current_ranks_no_inf stu Hs) as [Hadv Hmains].
    destruct (evaluate_options_no_inf
                (eligible_cutoff_cols o (master_columns master) (CATEGORY stu) (GENDER stu))
                stu _ _ (master_rows master) Hadv Hmains Hopt) as [rows ->].
    cbn. rewrite IH. cbn. eauto. }
  exists rows. split; [done |]. by apply run_analysis_length in Hrun.
Qed.

(** A pair whose applicable rank is absent is not skipped: its row says so and
    shows no best cutoff, whatever the cutoffs of the option. *)
Lemma evaluate_option_rank_missing (cols : list string) (stu : Student)
    (adv mains : float) (opt : MasterOption) (label : string) :
  applicable_student_rank (TYPE opt) adv mains = Some (NaN, label) ->
  exists row,
    evaluate_option cols stu adv mains opt = Ok (Some row)
    /\ Seat_Chance row = RANK_MISSING
    /\ Best_Eligible_Cutoff row = "N/A"
    /\ Student_Rank_Used row = "N/A"
    /\ Considered_Cutoffs_for_Option row = "".
Proof.
  intros Happ. unfold evaluate_option.
  rewrite (applicable_scalar _ _ _ _ Happ), Happ. cbn. eauto 10.
Qed.

(** With no eligible column, a row carries one of the two "N/A" verdicts:
    no cutoff data when the rank is present, rank missing otherwise. *)
Lemma evaluate_option_no_columns (stu : Student) (adv mains : float)
    (opt : MasterOption) (row : ResultRow) :
  evaluate_option [] stu adv mains opt = Ok (Some row) ->
  exists r label,
    applicable_student_rank (TYPE opt) adv mains = Some (r, label)
    /\ Seat_Chance row = (if notna r then NO_CUTOFF else RANK_MISSING)
    /\ Best_Eligible_Cutoff row = "N/A".
Proof.
  intros H. apply evaluate_option_row in H as (r & label & Happ & _ & Hseat & _ & Hbest).
  exists r, label. split; [done |].
  unfold best_eligible_cutoff_for_option in *. cbn in *.
  destruct (notna r) eqn:Hr; cbn in *.
  - unfold seat_chance, isna in Hseat. rewrite Hr in Hseat. by destruct Hbest.
  - unfold seat_chance, isna in Hseat. rewrite Hr in Hseat. by destruct Hbest.
Qed.

(** Every verdict is one of the four documented strings. *)
Lemma seat_chance_documented (r : float) (best : option float) :
  seat_chance r best ∈ [LIKELY; UNLIKELY; NO_CUTOFF; RANK_MISSING].
Proof.
  unfold seat_chance. destruct best as [b |].
  - destruct (float_le r b); set_solver.
  - destruct (isna r); set_solver.
Qed.

(** The audit entries: they raise exactly when an eligible column holds an
    infinite cutoff. *)
Lemma display_char (cols : list string) (opt : MasterOption) :
  relevant_cutoffs_for_option_display cols opt
  = if has_inf_cutoff cols opt then Raise OverflowError
    else Ok (map (entry_text opt) (filter (fun col => cutoff_present opt col = true) cols)).
Proof.
  unfold relevant_cutoffs_for_option_display.
  induction cols as [| col cols IH]; [done |].
  rewrite filter_cons. cbn [has_inf_cutoff existsb].
  fold (has_inf_cutoff cols opt).
  destruct (decide (cutoff_present opt col = true)) as [Hp | Hp];
    unfold cutoff_present in Hp;
    destruct (cutoffs opt !! col) as [[q | | |] |] eqn:Hlook; try done.
  - cbn [map mapM]. rewrite IH. unfold cutoff_entry at 1, entry_text at 2.
    rewrite Hlook. cbn. by destruct (has_inf_cutoff cols opt).
  - cbn [mapM]. unfold cutoff_entry. by rewrite Hlook.
  - cbn [mapM]. unfold cutoff_entry. by rewrite Hlook.
Qed.


(** C5, evaluated where it fails.  The rank cell "inf" is coerced to the float
    infinity, which [pd.notna] accepts and [int] rejects: the pair raises
    [OverflowError], and the batch is lost whether the row comes first or
    last, although the other student alone is evaluated. *)
Theorem infinite_rank_aborts_batch :
  evaluate_option ["OC_GEN"] (mk_student "OC" "GEN" PosInf) PosInf PosInf
    (mk_option "NIT" [("OC_GEN", rank 100)]) = Raise OverflowError
  /\ (exists row,
        run_analysis insertion_order (mk_master [mk_option "NIT" [("OC_GEN", rank 100)]])
          [mk_student "OC" "GEN" (rank 50)] = Ok [row]
        /\ Seat_Chance row = LIKELY)
  /\ run_analysis insertion_order (mk_master [mk_option "NIT" [("OC_GEN", rank 100)]])
       [mk_student "OC" "GEN" PosInf; mk_student "OC" "GEN" (rank 50)]
     = Raise OverflowError
  /\ run_analysis insertion_order (mk_master [mk_option "NIT" [("OC_GEN", rank 100)]])
       [mk_student "OC" "GEN" (rank 50); mk_student "OC" "GEN" PosInf]
     = Raise OverflowError.
Proof.
  split; [by vm_compute |]. split; [| split; by vm_compute].
  eexists. split; vm_compute; reflexivity.
Qed.

(** C4, evaluated where it fails.  Two students and one NIT option make two
    pairs, but the student whose rank cell is "inf" makes the run raise: no
    result row is produced at all, and the page leaves [None] where the
    results of the run should be. *)
Theorem infinite_rank_leaves_no_rows :
  let master := mk_master [mk_option "NIT" [("OC_GEN", rank 100)];
                           mk_option "PRIVATE" [("OC_GEN", rank 100)]] in
  let students := [mk_student "OC" "GEN" (rank 50); mk_student "OC" "GEN" PosInf] in
  (length students * length (evaluated_options master))%nat = 2%nat
  /\ run_analysis insertion_order master students = Raise OverflowError
  /\ raised (display_multi_student_analyzer sample_to_numeric insertion_order
               (sample_inputs_with_inf true) prior_session) = Some OverflowError
  /\ session (display_multi_student_analyzer sample_to_numeric insertion_order
                (sample_inputs_with_inf true) prior_session) !! RESULTS_KEY
     = Some PyNone.
Proof. repeat split; by vm_compute. Qed.

(** C10, evaluated where it fails.  A student of the unmapped category "XYZ"
    has no eligible column, and with the rank cell "inf" (a present rank) the
    pair raises instead of yielding the no-cutoff verdict. *)
Theorem unmapped_category_infinite_rank_raises :
  eligible_cutoff_cols insertion_order
    (master_columns (mk_master [])) (Str "XYZ") (Str "GEN") = []
  /\ notna (current_student_mains_rank (mk_student "XYZ" "GEN" PosInf)) = true
  /\ run_analysis insertion_order (mk_master [mk_option "NIT" [("OC_GEN", rank 100)]])
       [mk_student "XYZ" "GEN" PosInf] = Raise OverflowError.
Proof. repeat split; by vm_compute. Qed.

(** With an unmapped category the tests of lines 131 and 146 have a truth
    value as soon as the category is not a Series: the gender is not
    tested. *)
Lemma unmapped_tests_ok (stu : Student) :
  category_map_of (CATEGORY stu) = None ->
  student_tests_ok stu = negb (is_series (CATEGORY stu)).
Proof.
  intros Hcat. unfold student_tests_ok, gender_is_tested. rewrite Hcat.
  by rewrite andb_true_r.
Qed.

(** What does hold for an unmapped category: no eligible column, and every
    row appended for the student says "no cutoff" when the rank is present
    and "rank missing" when it is not; without an infinite rank (and with
    CATEGORY and TYPE each under one column) every evaluated option gets its
    row. *)
Lemma unmapped_category_rows (o : SetOrder) (master : MasterFrame) (stu : Student) :
  category_map_of (CATEGORY stu) = None ->
  eligible_cutoff_cols o (master_columns master) (CATEGORY stu) (GENDER stu) = []
  /\ (forall rows row,
        analyze_student o master stu = Ok rows -> row ∈ rows ->
        Best_Eligible_Cutoff row = "N/A"
        /\ (Seat_Chance row = NO_CUTOFF \/ Seat_Chance row = RANK_MISSING))
  /\ (is_series (CATEGORY stu) = false ->
      Forall (fun opt => is_series (TYPE opt) = false) (master_rows master) ->
      student_no_inf stu = true ->
      exists rows, analyze_student o master stu = Ok rows
                   /\ length rows = length (evaluated_options master)).
Proof.
  intros Hcat.
  pose proof (eligible_unmapped o (master_columns master) _ (GENDER stu) Hcat) as Hcols.
  split; [done |]. rewrite analyze_student_unfold, (unmapped_tests_ok stu Hcat), Hcols.
  split.
  - destruct (is_series (CATEGORY stu)); [done |]. cbn [negb].
    generalize (master_rows master). intros options.
    induction options as [| opt options IH]; intros rows row.
    + intros [= <-] Hin. by apply elem_of_nil in Hin.
    + cbn [evaluate_options].
      destruct (evaluate_option [] stu _ _ opt) as [r |] eqn:Hr; [| done].
      cbn. destruct (evaluate_options _ options) as [rest |]; [| done].
      cbn. intros [= <-] Hin.
      destruct r as [here |]; [| by eapply IH].
      apply elem_of_cons in Hin as [-> | Hin]; [| by eapply IH].
      apply evaluate_option_no_columns in Hr as (a & label & _ & Hseat & Hbest).
      split; [done |]. rewrite Hseat. destruct (notna a); auto.
  - intros Hscalar Htypes Hs. rewrite Hscalar. cbn [negb].
    destruct (current_ranks_no_inf stu Hs) as [Hadv Hmains].
    assert (exists rows, evaluate_options
              (evaluate_option [] stu (current_student_adv_rank stu)
                 (current_student_mains_rank stu)) (master_rows master) = Ok rows)
      as [rows Hrows].
    { induction Htypes as [| opt options Hopt _ (rest & IH)]; [by exists [] |].
      cbn [evaluate_options].
      assert (exists r, evaluate_option [] stu (current_student_adv_rank stu)
                          (current_student_mains_rank stu) opt = Ok r) as [r ->].
      { unfold evaluate_option. rewrite Hopt.
        destruct (applicable_student_rank _ _ _) as [[a label] |] eqn:Happ; [| eauto].
        assert (is_inf a = false) as Ha.
        { unfold applicable_student_rank in Happ.
          destruct (cell_eq (TYPE opt) "IIT"); [by injection Happ as <- _ |].
          destruct (_ || _); [by injection Happ as <- _ | done]. }
        unfold best_eligible_cutoff_for_option. cbn.
        destruct (int_or_na_no_inf a Ha) as [ru Hru].
        destruct (notna a); cbn; rewrite Hru; cbn; eauto. }
      cbn. rewrite IH. cbn. eauto. }
    exists rows. split; [done |]. by apply evaluate_options_length in Hrows.
Qed.

(* ================================================================== *)
(** ** The iteration order of the set of eligible columns *)

Lemma trunc_Qeq (a b : Q) :
  Qle_bool a b = true -> Qle_bool b a = true ->
  Z.quot (Qnum a) (Zpos (Qden a)) = Z.quot (Qnum b) (Zpos (Qden b)).
Proof.
  rewrite !Qle_bool_iff. intros Hab Hba.
  assert (a == b)%Q as Heq by (by apply Qle_antisym).
  unfold Qeq in Heq.
  rewrite <- (Z.quot_mul_cancel_r (Qnum a) (Zpos (Qden a)) (Zpos (Qden b))) by done.
  rewrite <- (Z.quot_mul_cancel_r (Qnum b) (Zpos (Qden b)) (Zpos (Qden a))) by done.
  rewrite Heq. f_equal. apply Z.mul_comm.
Qed.

Lemma int_or_na_equiv (x y : float) :
  float_equiv x y -> int_or_na x = int_or_na y.
Proof.
  intros [Hxy Hyx]. destruct x as [a | | |], y as [b | | |]; try done.
  cbn in *. by rewrite (trunc_Qeq a b).
Qed.

Lemma float_le_equiv (r x y : float) :
  float_equiv x y -> float_le r x = float_le r y.
Proof.
  intros [Hxy Hyx].
  destruct (float_le r x) eqn:Hx, (float_le r y) eqn:Hy; try done.
  - by rewrite (float_le_trans r x y) in Hy.
  - by rewrite (float_le_trans r y x) in Hx.
Qed.

Lemma min_Permutation (x y : float) (l k : list float) :
  x :: l ≡ₚ y :: k ->
  Forall (fun v => notna v = true) (x :: l) ->
  float_equiv (Py.min x l) (Py.min y k).
Proof.
  intros Hperm Hall.
  assert (Forall (fun v => notna v = true) (y :: k)) as Hall'
    by (by rewrite <- Hperm).
  destruct (min_spec l x Hall) as [Hin Hle].
  destruct (min_spec k y Hall') as [Hin' Hle'].
  split.
  - apply Hle. by rewrite Hperm.
  - apply Hle'. by rewrite <- Hperm.
Qed.

Lemma best_Permutation (cols cols' : list string) (r : float) (opt : MasterOption) :
  cols ≡ₚ cols' ->
  match best_eligible_cutoff_for_option cols r opt,
        best_eligible_cutoff_for_option cols' r opt with
  | Some b, Some b' => float_equiv b b'
  | None, None => True
  | _, _ => False
  end.
Proof.
  intros Hperm. unfold best_eligible_cutoff_for_option.
  destruct (notna r); [| done].
  pose proof (option_cutoffs_values_notna cols opt) as Hall.
  assert (option_cutoffs_values cols opt ≡ₚ option_cutoffs_values cols' opt) as Hvals
    by (unfold option_cutoffs_values; by rewrite Hperm).
  destruct (option_cutoffs_values cols opt) as [| v vs],
           (option_cutoffs_values cols' opt) as [| w ws].
  - done.
  - by apply Permutation_nil_l in Hvals.
  - by apply Permutation_nil_r in Hvals.
  - by apply min_Permutation.
Qed.

Lemma has_inf_cutoff_Permutation (cols cols' : list string) (opt : MasterOption) :
  cols ≡ₚ cols' -> has_inf_cutoff cols opt = has_inf_cutoff cols' opt.
Proof.
  intros Hperm. unfold has_inf_cutoff.
  induction Hperm as [| c l l' _ IH | c d l | l l' l'' _ IH _ IH'].
  - done.
  - cbn. by rewrite IH.
  - cbn. rewrite !orb_assoc. f_equal. apply orb_comm.
  - by rewrite IH.
Qed.

Lemma evaluate_option_Permutation (cols cols' : list string) (stu : Student)
    (adv mains : float) (opt : MasterOption) :
  cols ≡ₚ cols' ->
  pair_agree (evaluate_option cols stu adv mains opt)
             (evaluate_option cols' stu adv mains opt).
Proof.
  intros Hperm. open_pair opt.
  destruct (applicable_student_rank (TYPE opt) adv mains) as [[a label] |]; [| done].
  pose proof (best_Permutation cols cols' a opt Hperm) as Hbest.
  destruct (best_eligible_cutoff_for_option cols a opt) as [b |],
           (best_eligible_cutoff_for_option cols' a opt) as [b' |]; try done.
  - rewrite !display_char, <- (has_inf_cutoff_Permutation cols cols' opt Hperm).
    destruct (has_inf_cutoff cols opt); [done |].
    cbn. destruct (int_or_na a) as [ru |]; [| done].
    cbn. rewrite <- (int_or_na_equiv b b' Hbest).
    destruct (int_or_na b) as [bs |]; [| done].
    cbn. unfold row_agree. cbn.
    repeat (split; [done |]).
    split; [unfold seat_chance; by rewrite (float_le_equiv a b b' Hbest) |].
    eexists _, _. split; [done |]. split; [done |]. by rewrite Hperm.
  - cbn. destruct (int_or_na a) as [ru |]; [| done].
    cbn. unfold row_agree. cbn.
    repeat (split; [done |]). by exists [], [].
Qed.

Lemma evaluate_options_Permutation (cols cols' : list string) (stu : Student)
    (adv mains : float) (options : list MasterOption) :
  cols ≡ₚ cols' ->
  runs_agree (evaluate_options (evaluate_option cols stu adv mains) options)
             (evaluate_options (evaluate_option cols' stu adv mains) options).
Proof.
  intros Hperm. induction options as [| opt options IH]; [by constructor |].
  cbn [evaluate_options].
  pose proof (evaluate_option_Permutation cols cols' stu adv mains opt Hperm) as Hpair.
  destruct (evaluate_option cols stu adv mains opt) as [r |],
           (evaluate_option cols' stu adv mains opt) as [r' |];
    [| by destruct r | done | done].
  cbn. destruct (evaluate_options _ options) as [rows |],
                (evaluate_options _ options) as [rows' |]; try done.
  cbn in *. destruct r as [row |], r' as [row' |]; try done.
  by constructor.
Qed.

Lemma eligible_Permutation (o o' : SetOrder) (columns : list string)
    (category gender : cell) :
  eligible_cutoff_cols o columns category gender
  ≡ₚ eligible_cutoff_cols o' columns category gender.
Proof.
  apply NoDup_Permutation; [apply eligible_NoDup | apply eligible_NoDup |].
  intros x. by rewrite !elem_of_eligible.
Qed.

Lemma run_analysis_order (o o' : SetOrder) (master : MasterFrame)
    (students : list Student) :
  runs_agree (run_analysis o master students) (run_analysis o' master students).
Proof.
  induction students as [| stu students IH]; [by constructor |].
  cbn [run_analysis]. rewrite !analyze_student_unfold.
  destruct (student_tests_ok stu); [| done].
  pose proof (evaluate_options_Permutation _ _ stu
                (current_student_adv_rank stu) (current_student_mains_rank stu)
                (master_rows master)
                (eligible_Permutation o o' (master_columns master)
                   (CATEGORY stu) (GENDER stu))) as Hs.
  destruct (evaluate_options _ (master_rows master)) as [rows |],
           (evaluate_options _ (master_rows master)) as [rows' |]; try done.
  cbn. destruct (run_analysis o master students) as [more |],
                (run_analysis o' master students) as [more' |]; try done.
  cbn in *. by apply Forall2_app.
Qed.

Lemma run_analysis_same_order (o o' : SetOrder) (master : MasterFrame)
    (students : list Student) :
  (forall l, list_set o l = list_set o' l) ->
  run_analysis o master students = run_analysis o' master students.
Proof.
  intros Hext. induction students as [| stu students IH]; [done |].
  cbn [run_analysis]. unfold analyze_student, eligible_cutoff_cols.
  by rewrite Hext, IH.
Qed.

(** C7, as amended.  The iteration order of the set of eligible columns is
    the only thing, besides its inputs, that a run depends on: two runs with
    the same order are equal; two runs with any two orders raise the same
    exception or return the same rows in the same order, equal field by
    field except that the entries of Considered_Cutoffs_for_Option may come
    in a different order. *)
Theorem rerun_agrees_up_to_set_order (o o' : SetOrder) (master : MasterFrame)
    (students : list Student) :
  runs_agree (run_analysis o master students) (run_analysis o' master students)
  /\ ((forall l, list_set o l = list_set o' l) ->
      run_analysis o master students = run_analysis o' master students).
Proof.
  split; [apply run_analysis_order | apply run_analysis_same_order].
Qed.

Lemma rerun_agrees_up_to_set_order_witness :
  run_analysis insertion_order
    (mk_master [mk_option "IIT" [("SC_FEM", rank 600); ("OC_GEN", rank 300)]])
    [mk_student "SC" "FEM" (rank 500)]
  = run_analysis insertion_order
      (mk_master [mk_option "IIT" [("SC_FEM", rank 600); ("OC_GEN", rank 300)]])
      [mk_student "SC" "FEM" (rank 500)].
Proof.
  apply (rerun_agrees_up_to_set_order insertion_order insertion_order).
  intros l. reflexivity.
Defined.

(** C7, as stated, fails: the same master and the same student, evaluated
    under two iteration orders of the same set of columns, give two different
    Considered_Cutoffs_for_Option strings. *)
Lemma rerun_counterexample :
  (Considered_Cutoffs_for_Option <$>
     default [] (match run_analysis insertion_order
                   (mk_master [mk_option "IIT" [("SC_FEM", rank 600); ("OC_GEN", rank 300)]])
                   [mk_student "SC" "FEM" (rank 500)]
                 with Ok rows => Some rows | Raise _ => None end))
  = ["SC_FEM: 600, OC_GEN: 300"]
  /\ (Considered_Cutoffs_for_Option <$>
        default [] (match run_analysis reverse_order
                      (mk_master [mk_option "IIT" [("SC_FEM", rank 600); ("OC_GEN", rank 300)]])
                      [mk_student "SC" "FEM" (rank 500)]
                    with Ok rows => Some rows | Raise _ => None end))
     = ["OC_GEN: 300, SC_FEM: 600"]
  /\ ~ (forall (o o' : SetOrder) (master : MasterFrame) (students : list Student),
          run_analysis o master students = run_analysis o' master students).
Proof.
  split; [by vm_compute |]. split; [by vm_compute |].
  intros H.
  specialize (H insertion_order reverse_order
                (mk_master [mk_option "IIT" [("SC_FEM", rank 600); ("OC_GEN", rank 300)]])
                [mk_student "SC" "FEM" (rank 500)]).
  vm_compute in H. discriminate H.
Qed.

(* ================================================================== *)
(** ** The session state across runs of the page *)

Lemma display_results_session (st : gmap string session_value) (w : list message) :
  session (display_results st w) = st.
Proof.
  unfold display_results.
  destruct (st !! RESULTS_KEY) as [[| [| row rows]] |]; done.
Qed.

(** C8, as amended.  When a precondition of a run fails, the page shows the
    reason and clears the prior results, and nothing is raised: the master
    file is missing; it cannot be read or preprocessed; it lacks a required
    column; no batch file is uploaded; the batch file cannot be read or
    preprocessed; it lacks a required column.  When all preconditions hold,
    the prior results are retained if the button is not pressed, and
    replaced by the new results if it is pressed and the analysis completes.
    The prior results are retained in no other case: a session that still
    holds them after the run comes from a run whose preconditions hold and
    in which the button is not pressed (or the analysis returned the very
    same rows). *)
Theorem failed_run_clears_results (to_numeric : cell -> float) (o : SetOrder)
    (inp : Inputs) (st : gmap string session_value) :
  ascii_inputs inp ->
  let run := display_multi_student_analyzer to_numeric o inp st in
  (ready to_numeric inp = None ->
   session run = delete RESULTS_KEY st
   /\ raised run = None
   /\ ((master_exists inp = false /\ written run = [Error_master_not_found])
       \/ (master_exists inp = true
           /\ exists e, preprocess_master to_numeric (load_excel inp) = Unreadable e
                        /\ written run = [Error_master_load e])
       \/ (master_exists inp = true
           /\ exists detected,
                preprocess_master to_numeric (load_excel inp) = Missing_columns detected
                /\ written run = [Error_master_columns; Detected_columns detected])
       \/ (master_exists inp = true
           /\ (exists master, preprocess_master to_numeric (load_excel inp) = Loaded master)
           /\ ((student_batch_file inp = None /\ written run = [Ask_upload_batch])
               \/ (exists file e,
                     student_batch_file inp = Some file
                     /\ preprocess_students to_numeric file = Unreadable e
                     /\ written run = [Error_student_load e])
               \/ (exists file detected,
                     student_batch_file inp = Some file
                     /\ preprocess_students to_numeric file = Missing_columns detected
                     /\ written run = [Error_student_columns;
                                       Detected_columns detected])))))
  /\ (forall master students,
        ready to_numeric inp = Some (master, students) ->
        (run_button inp = false -> session run = st)
        /\ (forall rows,
              run_button inp = true ->
              run_analysis o master students = Ok rows ->
              session run = <[RESULTS_KEY := Frame rows]> st))
  /\ (forall prior,
        st !! RESULTS_KEY = Some (Frame prior) ->
        session run !! RESULTS_KEY = Some (Frame prior) ->
        exists master students,
          ready to_numeric inp = Some (master, students)
          /\ (run_button inp = false \/ run_analysis o master students = Ok prior)).
Proof.
  intros _ run. subst run.
  unfold ready, display_multi_student_analyzer, stop, clear_results.
  destruct (master_exists inp); cbn [negb].
  2:{ split; [intros _; cbn; by eauto 10 |]. split; [done |].
      intros prior _. cbn. by rewrite lookup_delete_eq. }
  destruct (preprocess_master to_numeric (load_excel inp)) as [m | d | e].
  2:{ split; [intros _; cbn; split; [done |]; split; [done |]; right; right; left;
              by eauto 10 |].
      split; [done |]. intros prior _. cbn. by rewrite lookup_delete_eq. }
  2:{ split; [intros _; cbn; split; [done |]; split; [done |]; right; left;
              by eauto 10 |].
      split; [done |]. intros prior _. cbn. by rewrite lookup_delete_eq. }
  destruct (student_batch_file inp) as [file |].
  2:{ split; [intros _; cbn; split; [done |]; split; [done |]; right; right; right;
              split; [done |]; split; [by eauto |]; by left |].
      split; [done |]. intros prior _. cbn. by rewrite lookup_delete_eq. }
  destruct (preprocess_students to_numeric file) as [s | d | e] eqn:Hfile.
  2:{ split; [intros _; cbn; split; [done |]; split; [done |]; right; right; right;
              split; [done |]; split; [by eauto |]; right; right; by eauto 10 |].
      split; [done |]. intros prior _. cbn. by rewrite lookup_delete_eq. }
  2:{ split; [intros _; cbn; split; [done |]; split; [done |]; right; right; right;
              split; [done |]; split; [by eauto |]; right; left; by eauto 10 |].
      split; [done |]. intros prior _. cbn. by rewrite lookup_delete_eq. }
  split; [done |]. split.
  - intros master students [= <- <-]. split.
    + intros ->. apply display_results_session.
    + intros rows -> ->. rewrite display_results_session. apply insert_insert_eq.
  - intros prior Hprior Hkept. exists m, s. split; [done |].
    destruct (run_button inp); [right | by left].
    destruct (run_analysis o m s) as [rows | e].
    + rewrite display_results_session, lookup_insert_eq in Hkept. congruence.
    + cbn in Hkept. by rewrite lookup_insert_eq in Hkept.
Qed.

Lemma failed_run_clears_results_witness :
  session (display_multi_student_analyzer all_blank insertion_order
             sample_inputs prior_session)
  = delete RESULTS_KEY prior_session.
Proof.
  apply (failed_run_clears_results all_blank insertion_order sample_inputs prior_session).
  - split; repeat constructor.
  - vm_compute. reflexivity.
Defined.

(** C8, as stated, fails: the master file is valid, the batch file lacks the
    CATEGORY column, and the results of the previous run are gone. *)
Lemma failed_run_counterexample :
  (exists master, master_exists sample_inputs = true
                  /\ preprocess_master all_blank (load_excel sample_inputs) = Loaded master)
  /\ (exists detected,
        preprocess_students all_blank (Ok sample_batch_without_category)
        = Missing_columns detected)
  /\ prior_session !! RESULTS_KEY = Some (Frame [sample_row])
  /\ session (display_multi_student_analyzer all_blank insertion_order
                sample_inputs prior_session) !! RESULTS_KEY = None
  /\ written (display_multi_student_analyzer all_blank insertion_order
                sample_inputs prior_session)
     = [Error_student_columns;
        Detected_columns
          ["NAME"; "STUDENT_ID"; "GENDER";
           "JEE_ADVACED_CRL_RANK"; "JEE_ADVNCED_CATEGORY_RANK";
           "JEE_MAIN_CRL_RANK"; "JEE_MAIN_CATEGORY_RANK"]].
Proof.
  split; [eexists; split; [done | vm_compute; reflexivity] |].
  split; [eexists; vm_compute; reflexivity |].
  split; [by vm_compute |]. split; by vm_compute.
Qed.

(* ================================================================== *)
(** ** Header normalisation across the workflows *)

(** The batch analyzer, the dashboard and smart insights normalise alike. *)
Lemma three_workflows_normalize_alike (columns : list string) :
  Analyzer.normalize_columns columns = Dashboard.normalize_columns columns
  /\ Analyzer.normalize_columns columns = SmartInsights.normalize_columns columns.
Proof. split; reflexivity. Qed.

(** The choice verifier does the same up to the underscores. *)
Lemma choice_verifier_up_to_underscore (columns : list string) :
  Analyzer.normalize_columns columns
  = map replace_space (ChoiceVerifier.normalize_columns columns).
Proof.
  unfold Analyzer.normalize_columns, ChoiceVerifier.normalize_columns.
  by rewrite map_map.
Qed.

(** C6, evaluated where it fails.  On a master file with headers written with
    spaces the choice verifier keeps the spaces where the three other
    workflows put underscores, so no header is a cutoff label for it; on a
    master file with headers written with underscores the three workflows
    derive the join key and the choice verifier raises [KeyError]. *)
Theorem choice_verifier_normalizes_differently :
  Analyzer.normalize_columns (raw_columns master_with_spaces)
  = ["COLLEGE_CODE"; "COURSE_CODE"; "TYPE"; "OC_GEN"]
  /\ Dashboard.normalize_columns (raw_columns master_with_spaces)
     = ["COLLEGE_CODE"; "COURSE_CODE"; "TYPE"; "OC_GEN"]
  /\ SmartInsights.normalize_columns (raw_columns master_with_spaces)
     = ["COLLEGE_CODE"; "COURSE_CODE"; "TYPE"; "OC_GEN"]
  /\ ChoiceVerifier.normalize_columns (raw_columns master_with_spaces)
     = ["COLLEGE CODE"; "COURSE CODE"; "TYPE"; "OC GEN"]
  /\ cutoff_label_columns Analyzer.normalize_columns master_with_spaces = ["OC_GEN"]
  /\ cutoff_label_columns ChoiceVerifier.normalize_columns master_with_spaces = []
  /\ master_main_codes Analyzer.normalize_columns Analyzer.COLLEGE Analyzer.COURSE
       master_with_underscores = Ok [Str "C1_K1"]
  /\ master_main_codes Dashboard.normalize_columns Dashboard.COLLEGE Dashboard.COURSE
       master_with_underscores = Ok [Str "C1_K1"]
  /\ master_main_codes SmartInsights.normalize_columns
       SmartInsights.COLLEGE SmartInsights.COURSE
       master_with_underscores = Ok [Str "C1_K1"]
  /\ master_main_codes ChoiceVerifier.normalize_columns
       ChoiceVerifier.COLLEGE ChoiceVerifier.COURSE
       master_with_underscores = Raise KeyError.
Proof. repeat split; by vm_compute. Qed.

(* ================================================================== *)
(** ** Duplicate join keys *)


(* ================================================================== *)
(** ** After a run that raised *)

(** The run of the page that follows a run that raised finds [None] under the
    results key and raises at line 234 ([None.empty]). *)
Example rerun_after_raise :
  let after := session (display_multi_student_analyzer sample_to_numeric insertion_order
                          (sample_inputs_with_inf true) prior_session) in
  raised (display_multi_student_analyzer sample_to_numeric insertion_order
            (sample_inputs_with_inf false) after) = Some AttributeError.
Proof. by vm_compute. Qed.

(* ================================================================== *)
(** ** Ranges of choice numbers *)

Lemma split_ranges_loop_fmt {A : Type} (fmt : Z -> Z -> A) (start prev : Z)
    (rest : list Z) :
  split_ranges_loop fmt start prev rest
  = map (fun r => fmt r.1 r.2) (split_ranges_loop pair start prev rest).
Proof.
  revert start prev. induction rest as [| x rest IH]; intros start prev; [done |].
  cbn. case_bool_decide; cbn; by rewrite IH.
Qed.

Lemma seqZ_snoc (m n : Z) : (0 <= n)%Z -> seqZ m (n + 1) = seqZ m n ++ [(m + n)%Z].
Proof.
  intros Hn. rewrite seqZ_app by lia. by f_equal.
Qed.

Lemma split_ranges_loop_expand (start prev : Z) (rest : list Z) :
  (start <= prev)%Z ->
  concat (map expand_range (split_ranges_loop pair start prev rest))
  = seqZ start (prev - start + 1) ++ rest
  /\ Forall (fun r => (r.1 <= r.2)%Z) (split_ranges_loop pair start prev rest).
Proof.
  revert start prev. induction rest as [| x rest IH]; intros start prev Hle.
  - cbn. split; [done | by repeat constructor].
  - cbn [split_ranges_loop]. case_bool_decide as Hx.
    + destruct (IH x x ltac:(lia)) as [Hcat Hall].
      cbn. rewrite Hcat. replace (x - x + 1)%Z with 1%Z by lia.
      split; [| by constructor]. by f_equal.
    + assert (x = (prev + 1)%Z) as -> by (destruct (decide (x = (prev + 1)%Z)); [done | by destruct Hx]).
      destruct (IH start (prev + 1)%Z ltac:(lia)) as [Hcat Hall].
      split; [| done]. rewrite Hcat.
      replace (prev + 1 - start + 1)%Z with ((prev - start + 1) + 1)%Z by lia.
      rewrite seqZ_snoc by lia. rewrite <- app_assoc. cbn.
      f_equal. f_equal. lia.
Qed.

(** X1.  [split_ranges] loses nothing: the text is the list of runs, each
    written "a" or "a-b" and joined by ", ", every run has its first number
    at most its last, and the numbers of the runs, put end to end, are the
    input list itself (whatever its order and its duplicates). *)
Theorem split_ranges_expand (lst : list Z) :
  split_ranges lst = Py.join ", " (map (fun r => range_text r.1 r.2) (ranges_of lst))
  /\ Forall (fun r => (r.1 <= r.2)%Z) (ranges_of lst)
  /\ concat (map expand_range (ranges_of lst)) = lst.
Proof.
  destruct lst as [| first rest]; [by repeat split |].
  unfold split_ranges, ranges_of.
  destruct (split_ranges_loop_expand first first rest ltac:(lia)) as [Hcat Hall].
  split; [by rewrite split_ranges_loop_fmt |]. split; [done |].
  rewrite Hcat. replace (first - first + 1)%Z with 1%Z by lia.
  rewrite seqZ_cons by lia. by rewrite seqZ_nil by lia.
Qed.

Lemma split_ranges_loop_gaps (start prev : Z) (rest : list Z) :
  (start <= prev)%Z ->
  StronglySorted Z.lt (prev :: rest) ->
  StronglySorted (fun a b : Z * Z => (a.2 + 1 < b.1)%Z)
                 (split_ranges_loop pair start prev rest)
  /\ Forall (fun r => (start <= r.1)%Z) (split_ranges_loop pair start prev rest).
Proof.
  revert start prev. induction rest as [| x rest IH]; intros start prev Hle Hsorted.
  - cbn. split; repeat constructor. cbn. lia.
  - apply StronglySorted_cons in Hsorted as [Hprev Hrest].
    assert (prev < x)%Z as Hpx by (by inversion Hprev).
    cbn [split_ranges_loop]. case_bool_decide as Hx.
    + destruct (IH x x ltac:(lia) Hrest) as [Hs Hfst].
      split.
      * constructor; [done |].
        eapply Forall_impl; [exact Hfst |]. cbn. intros r Hr. lia.
      * constructor; [cbn; lia |].
        eapply Forall_impl; [exact Hfst |]. cbn. intros r Hr. lia.
    + assert (x = (prev + 1)%Z) as -> by (destruct (decide (x = (prev + 1)%Z)); [done | by destruct Hx]).
      apply (IH start (prev + 1)%Z ltac:(lia) Hrest).
Qed.

(** X2.  On a strictly increasing list (what [sorted] gives for distinct
    choice numbers) the runs are maximal and in order: between the last
    number of a run and the first number of any later run at least one
    number is missing. *)
Theorem split_ranges_sorted_gaps (lst : list Z) :
  StronglySorted Z.lt lst ->
  StronglySorted (fun a b : Z * Z => (a.2 + 1 < b.1)%Z) (ranges_of lst).
Proof.
  destruct lst as [| first rest]; [constructor |].
  intros Hsorted. by apply (split_ranges_loop_gaps first first rest).
Qed.

Lemma split_ranges_sorted_gaps_witness :
  StronglySorted (fun a b : Z * Z => (a.2 + 1 < b.1)%Z) (ranges_of [1; 2; 3; 5; 6; 9]%Z).
Proof.
  apply split_ranges_sorted_gaps.
  repeat (apply StronglySorted_cons; split; [repeat constructor; lia |]).
  constructor.
Defined.

Example split_ranges_docstring :
  split_ranges [1; 2; 3; 5; 6]%Z = "1-3, 5-6" /\ split_ranges [4]%Z = "4"
  /\ split_ranges [] = "".
Proof. by vm_compute. Qed.

(* ================================================================== *)
(** ** The left join and the validation tables *)

Lemma key_eq_sym (a b : cell) : key_eq a b = key_eq b a.
Proof.
  destruct a as [s | [| | |] |], b as [t | [| | |] |]; cbn; try done.
  apply bool_decide_ext. split; congruence.
Qed.

Lemma key_eq_trans (a b c : cell) :
  key_eq a b = true -> key_eq b c = true -> key_eq a c = true.
Proof.
  destruct a as [s | [| | |] |], b as [t | [| | |] |], c as [u | [| | |] |];
    cbn; try done.
  rewrite !bool_decide_eq_true. congruence.
Qed.

Lemma isin_false_filter {M : Type} (master_key : M -> cell) (k : cell) (master : list M) :
  isin k (map master_key master) = false
  <-> filter (fun m => key_eq k (master_key m) = true) master = [].
Proof.
  unfold isin. induction master as [| m master IH]; [done |].
  cbn [map existsb]. rewrite filter_cons, orb_false_iff, IH.
  destruct (decide (key_eq k (master_key m) = true)) as [Hk | Hk].
  - rewrite Hk. split; [by intros [? _] | done].
  - apply not_true_is_false in Hk. rewrite Hk. tauto.
Qed.

Lemma elem_of_merge_left {S M : Type} (student_key : S -> cell) (master_key : M -> cell)
    (student : list S) (master : list M) (s : S) (m : option M) :
  (s, m) ∈ merge_left student_key master_key student master
  <-> s ∈ student
      /\ match m with
         | Some row => row ∈ master /\ key_eq (student_key s) (master_key row) = true
         | None => isin (student_key s) (map master_key master) = false
         end.
Proof.
  unfold merge_left. rewrite list_elem_of_bind. split.
  - intros (s' & Hin & Hs').
    destruct (filter _ master) as [| m0 ms] eqn:Hf.
    + apply list_elem_of_singleton in Hin as [= -> ->].
      split; [done |]. by apply isin_false_filter.
    + apply list_elem_of_fmap in Hin as (row & [= -> ->] & Hrow).
      split; [done |]. rewrite <- Hf in Hrow.
      apply list_elem_of_filter in Hrow. tauto.
  - intros [Hs Hm]. exists s. split; [| done].
    destruct m as [row |].
    + destruct Hm as [Hrow Hk].
      assert (row ∈ filter (fun m => key_eq (student_key s) (master_key m) = true) master)
        as Hin by (by apply list_elem_of_filter).
      destruct (filter _ master) as [| m0 ms]; [by apply elem_of_nil in Hin |].
      apply list_elem_of_fmap. eauto.
    + apply isin_false_filter in Hm. rewrite Hm. by apply list_elem_of_singleton.
Qed.

(** At most one master row carries each key when no key is duplicated. *)
Lemma no_duplicate_key_filter (master : list MasterOption) (k : cell) :
  has_duplicate_key master = false ->
  (length (filter (fun m => key_eq k (Main_Code m) = true) master) <= 1)%nat.
Proof.
  intros Hdup.
  destruct (filter (fun m => key_eq k (Main_Code m) = true) master)
    as [| m1 [| m2 ms]] eqn:Hf; cbn; [lia | lia |].
  exfalso.
  assert (key_eq k (Main_Code m1) = true /\ m1 ∈ master) as [Hk1 Hin1].
  { apply (list_elem_of_filter (fun m => key_eq k (Main_Code m) = true)).
    rewrite Hf. left. }
  unfold has_duplicate_key in Hdup.
  assert (existsb (fun row => (2 <=? length (filter (fun other =>
            key_eq (Main_Code other) (Main_Code row) = true) master))%nat) master = true)
    as Hex; [| congruence].
  apply existsb_exists. exists m1. split; [by apply list_elem_of_In |].
  apply Nat.leb_le.
  assert (forall m, key_eq k (Main_Code m) = true ->
                    key_eq (Main_Code m) (Main_Code m1) = true) as Himp.
  { intros m Hm. eapply key_eq_trans; [| exact Hk1]. by rewrite key_eq_sym. }
  transitivity (length (filter (fun m => key_eq k (Main_Code m) = true) master)).
  - rewrite Hf. cbn. lia.
  - clear Hf Hin1 Hdup. induction master as [| m master IH]; [done |].
    rewrite !filter_cons.
    destruct (decide (key_eq k (Main_Code m) = true)) as [Hm | Hm].
    + rewrite decide_True by auto. cbn. lia.
    + destruct (decide (key_eq (Main_Code m) (Main_Code m1) = true)); cbn; lia.
Qed.

(** X3.  The left join drops no row of the sheet and invents no match: every
    sheet row is in the merged table, and a master row is attached only to a
    sheet row of the same key.  When no join key is duplicated in the master
    table, the merged table has exactly the sheet rows, in the sheet's
    order. *)
Theorem merge_left_keeps_rows {S : Type} (student_key : S -> cell)
    (student : list S) (master : list MasterOption) :
  (forall s, s ∈ student ->
             exists m, (s, m) ∈ merge_left student_key Main_Code student master)
  /\ (forall s m, (s, Some m) ∈ merge_left student_key Main_Code student master ->
                  s ∈ student /\ m ∈ master
                  /\ key_eq (student_key s) (Main_Code m) = true)
  /\ (has_duplicate_key master = false ->
      map fst (merge_left student_key Main_Code student master) = student).
Proof.
  split; [| split].
  - intros s Hs.
    destruct (filter (fun m => key_eq (student_key s) (Main_Code m) = true) master)
      as [| m ms] eqn:Hf.
    + exists None. apply elem_of_merge_left. split; [done |].
      by apply isin_false_filter.
    + exists (Some m). apply elem_of_merge_left. split; [done |].
      assert (key_eq (student_key s) (Main_Code m) = true /\ m ∈ master) as [? ?];
        [| done].
      apply (list_elem_of_filter (fun m => key_eq (student_key s) (Main_Code m) = true)).
      rewrite Hf. left.
  - intros s m H. apply elem_of_merge_left in H. tauto.
  - intros Hdup. unfold merge_left.
    induction student as [| s student IH]; [done |].
    change (?l ≫= ?f) with (mbind (M := list) f l) in *.
    rewrite bind_cons, map_app, IH.
    pose proof (no_duplicate_key_filter master (student_key s) Hdup) as Hlen.
    destruct (filter _ master) as [| m [| m' ms]]; cbn in *; [done | done | lia].
Qed.

Lemma merge_left_keeps_rows_witness :
  map fst (merge_left Choice_Main_Code Main_Code single_choice
             [mk_option "NIT" [("OC_GEN", rank 100)]])
  = single_choice.
Proof.
  apply (merge_left_keeps_rows Choice_Main_Code single_choice
           [mk_option "NIT" [("OC_GEN", rank 100)]]).
  by vm_compute.
Defined.

Lemma filter_merge_left_misses {S M : Type} (student_key : S -> cell)
    (master_key : M -> cell) (keep : S * option M -> bool)
    (student : list S) (master : list M) :
  (forall s, keep (s, None) = true) ->
  (forall s m, m ∈ master -> keep (s, Some m) = false) ->
  map fst (filter (fun row => keep row = true)
             (merge_left student_key master_key student master))
  = missing_in_master (display_validation master_key student_key master student).
Proof.
  intros Hnone Hsome. unfold merge_left, display_validation. cbn [missing_in_master].
  induction student as [| s student IH]; [done |].
  change (?l ≫= ?f) with (mbind (M := list) f l) in *.
  rewrite bind_cons, filter_app, map_app, IH, filter_cons. clear IH.
  destruct (filter (fun m => key_eq (student_key s) (master_key m) = true) master)
    as [| m ms] eqn:Hf.
  - rewrite decide_True by (by apply isin_false_filter).
    rewrite filter_cons, decide_True by apply Hnone. done.
  - rewrite decide_False.
    2:{ intros Hisin%isin_false_filter. congruence. }
    assert (Forall (fun m => m ∈ master) (m :: ms)) as Hall.
    { rewrite <- Hf. apply Forall_forall. intros x Hx.
      by apply list_elem_of_filter in Hx as [_ ?]. }
    assert (filter (fun row => keep row = true)
              (map (fun m0 => (s, Some m0)) (m :: ms)) = []) as ->; [| done].
    clear Hf. induction Hall as [| x xs Hx _ IHx]; [done |].
    cbn [map]. rewrite filter_cons, decide_False; [exact IHx |].
    rewrite (Hsome s x Hx). done.
Qed.

(** X4.  The join and the validation tab agree on the misses: the sheet rows
    that the left join leaves without a master row are, in the same order,
    the rows of the table "in student file but missing in master". *)
Theorem join_misses_are_missing_in_master {S M : Type} (student_key : S -> cell)
    (master_key : M -> cell) (student : list S) (master : list M) :
  map fst (filter (fun row => row.2 = None)
             (merge_left student_key master_key student master))
  = missing_in_master (display_validation master_key student_key master student).
Proof.
  rewrite <- (filter_merge_left_misses student_key master_key
                (fun row => bool_decide (row.2 = None)) student master); [| done | done].
  f_equal. apply list_filter_iff. intros row. by rewrite bool_decide_eq_true.
Qed.

Lemma length_append (s w : string) :
  String.length (s +:+ w) = (String.length s + String.length w)%nat.
Proof.
  induction s as [| a s IH]; [done |].
  change (String a s +:+ w) with (String a (s +:+ w)).
  cbn [String.length]. by rewrite IH.
Qed.

(** No label with one of the two suffixes of the merge is "COURSE CODE". *)
Lemma suffixed_not_course_code (c : string) :
  c +:+ "_student" <> "COURSE CODE" /\ c +:+ "_master" <> "COURSE CODE".
Proof.
  split; intros H; pose proof (f_equal String.length H) as Hlen;
    rewrite length_append in Hlen; cbn in Hlen;
    destruct c as [| a1 [| a2 [| a3 [| a4 [| a5 c]]]]]; cbn in Hlen; try lia;
    vm_compute in H; congruence.
Qed.

(** The merge renames a column that both tables have. *)
Lemma merged_columns_course_code (left right : list string) :
  "COURSE CODE" ∈ left -> "COURSE CODE" ∈ right ->
  "COURSE CODE" ∉ merged_columns left right "Main_Code" "_student" "_master".
Proof.
  intros Hleft Hright. unfold merged_columns.
  intros [Hin | Hin]%elem_of_app; apply list_elem_of_fmap in Hin as (c & Hc & Hin).
  - destruct (decide (c <> "Main_Code" /\ c ∈ right)) as [Hd | Hd].
    + rewrite bool_decide_eq_true_2 in Hc by done.
      symmetry in Hc. by apply suffixed_not_course_code in Hc.
    + rewrite bool_decide_eq_false_2 in Hc by done. subst c. by destruct Hd.
  - apply list_elem_of_filter in Hin as [_ Hin].
    destruct (decide (c ∈ left)) as [Hd | Hd].
    + rewrite bool_decide_eq_true_2 in Hc by done.
      symmetry in Hc. by apply suffixed_not_course_code in Hc.
    + rewrite bool_decide_eq_false_2 in Hc by done. by subst c.
Qed.

(** X5.  The "Unmatched Entries" of the choice verifier are never shown.
    Line 99 selects the joined rows whose PROGRAM is blank: the sheet rows
    without a master row, and those joined to a master row whose PROGRAM
    cell is blank.  Both tables have a column COURSE CODE when the merge is
    reached (lines 35 and 42 read it), so the merge renames it with the
    suffixes and the merged table has no such column: as soon as a row is
    selected, line 101 writes the subheader and line 102 raises [KeyError];
    when none is, nothing is written. *)
Theorem unmatched_entries {S M : Type} (left right : list string)
    (program : M -> cell) (merged_df : list (S * option M)) :
  "COURSE CODE" ∈ left -> "COURSE CODE" ∈ right ->
  let columns := merged_columns left right "Main_Code" "_student" "_master" in
  (forall row,
     row ∈ unmatched program merged_df
     <-> row ∈ merged_df
         /\ (row.2 = None \/ exists m, row.2 = Some m /\ cell_isna (program m) = true))
  /\ show_unmatched columns program merged_df
     = match unmatched program merged_df with
       | [] => ([], None)
       | _ => ([Subheader_unmatched], Some KeyError)
       end
  /\ forall rows, Dataframe_unmatched rows ∉ (show_unmatched columns program merged_df).1.
Proof.
  intros Hleft Hright columns.
  assert (forallb (fun col => bool_decide (col ∈ columns)) unmatched_columns = false)
    as Hmissing.
  { apply not_true_is_false. rewrite forallb_forall. intros Hall.
    apply (merged_columns_course_code left right Hleft Hright).
    apply (bool_decide_eq_true _), Hall, list_elem_of_In. repeat constructor. }
  split; [| split].
  - intros [s [m |]]; unfold unmatched; rewrite list_elem_of_filter; cbn.
    + split; [intros [? ?]; eauto 10 | intros [? [? | (m' & [= <-] & ?)]]; done].
    + split; [intros [_ ?]; auto | tauto].
  - unfold show_unmatched. by rewrite Hmissing.
  - intros rows. unfold show_unmatched. rewrite Hmissing.
    destruct (unmatched program merged_df); cbn.
    + by intros ?%elem_of_nil.
    + by intros [=]%list_elem_of_singleton.
Qed.

Lemma unmatched_entries_witness :
  show_unmatched
    (merged_columns ["College Code"; "Institute"; "COURSE CODE"; "Program";
                     "Choice Number"; "Main_Code"]
                    ["COLLEGE CODE"; "COURSE CODE"; "PROGRAM"; "Main_Code"]
                    "Main_Code" "_student" "_master")
    (fun m => default (Num NaN) (PROGRAM m))
    (merge_left Choice_Main_Code Main_Code single_choice [])
  = ([Subheader_unmatched], Some KeyError).
Proof.
  destruct (unmatched_entries
              ["College Code"; "Institute"; "COURSE CODE"; "Program";
               "Choice Number"; "Main_Code"]
              ["COLLEGE CODE"; "COURSE CODE"; "PROGRAM"; "Main_Code"]
              (fun m => default (Num NaN) (PROGRAM m))
              (merge_left Choice_Main_Code Main_Code single_choice []))
    as (_ & Hshow & _).
  - repeat constructor.
  - repeat constructor.
  - exact Hshow.
Defined.

(* ================================================================== *)
(** ** Header normalisation and the join key *)

Ltac each_ascii a :=
  destruct a as [[] [] [] [] [] [] [] []]; vm_compute; try reflexivity; try discriminate.

Lemma normalize_char_idemp (a : ascii) :
  normalize_char (normalize_char a) = normalize_char a.
Proof. each_ascii a. Qed.

Lemma normalize_char_not_space (a : ascii) :
  is_space a = false -> is_space (normalize_char a) = false.
Proof. each_ascii a. Qed.

Lemma normalize_char_not_a (a : ascii) : normalize_char a <> "a"%char.
Proof. each_ascii a. Qed.

Lemma map_chars_compose (f g : ascii -> ascii) (s : string) :
  map_chars f (map_chars g s) = map_chars (fun a => f (g a)) s.
Proof. induction s as [| a s IH]; [done |]. cbn. by rewrite IH. Qed.

Lemma normalize_header_chars (h : string) :
  replace_space (upper (strip h)) = map_chars normalize_char (strip h).
Proof. unfold replace_space, upper. by rewrite map_chars_compose. Qed.

Lemma lstrip_clean (s : string) : starts_clean (lstrip s) = true.
Proof.
  induction s as [| a s IH]; [done |]. cbn.
  destruct (is_space a) eqn:Ha; [done |]. cbn. by rewrite Ha.
Qed.

Lemma lstrip_id (s : string) : starts_clean s = true -> lstrip s = s.
Proof. destruct s as [| a s]; [done |]. cbn. by intros ->%negb_true_iff. Qed.

Lemma rstrip_clean (s : string) : ends_clean (rstrip s) = true.
Proof.
  induction s as [| a s IH]; [done |]. cbn [rstrip].
  destruct (rstrip s) as [| b kept] eqn:Hr.
  - destruct (is_space a) eqn:Ha; [done |]. cbn. by rewrite Ha.
  - exact IH.
Qed.

Lemma rstrip_id (s : string) : ends_clean s = true -> rstrip s = s.
Proof.
  induction s as [| a s IH]; [done |]. intros Hs. cbn [rstrip].
  destruct s as [| b s'].
  - cbn in *. by apply negb_true_iff in Hs as ->.
  - rewrite IH by done. done.
Qed.

Lemma rstrip_starts_clean (s : string) :
  starts_clean s = true -> starts_clean (rstrip s) = true.
Proof.
  destruct s as [| a s]; [done |]. cbn [rstrip starts_clean]. intros Ha.
  destruct (rstrip s); [| done].
  apply negb_true_iff in Ha. rewrite Ha. cbn. by rewrite Ha.
Qed.

Lemma strip_clean (s : string) :
  starts_clean (strip s) = true /\ ends_clean (strip s) = true.
Proof.
  unfold strip. split; [apply rstrip_starts_clean, lstrip_clean | apply rstrip_clean].
Qed.

Lemma strip_id (s : string) :
  starts_clean s = true -> ends_clean s = true -> strip s = s.
Proof. intros Hs He. unfold strip. rewrite lstrip_id by done. by apply rstrip_id. Qed.

Lemma strip_idemp (s : string) : strip (strip s) = strip s.
Proof. destruct (strip_clean s). by apply strip_id. Qed.

Lemma map_chars_clean (s : string) :
  starts_clean s = true -> ends_clean s = true ->
  starts_clean (map_chars normalize_char s) = true
  /\ ends_clean (map_chars normalize_char s) = true.
Proof.
  intros Hs He. split.
  - destruct s as [| a s]; [done |]. cbn in *.
    apply negb_true_iff in Hs. by rewrite normalize_char_not_space.
  - clear Hs. induction s as [| a s IH]; [done |].
    destruct s as [| b s'].
    + cbn in *. apply negb_true_iff in He. by rewrite normalize_char_not_space.
    + cbn [map_chars ends_clean] in *. by apply IH.
Qed.

(** X6.  Normalising a header twice is normalising it once, in all three
    workflows that put underscores: a master file whose headers are already
    in normal form is read with the same column names. *)
Theorem normalize_columns_idempotent (columns : list string) :
  Analyzer.normalize_columns (Analyzer.normalize_columns columns)
  = Analyzer.normalize_columns columns
  /\ Dashboard.normalize_columns (Dashboard.normalize_columns columns)
     = Dashboard.normalize_columns columns
  /\ SmartInsights.normalize_columns (SmartInsights.normalize_columns columns)
     = SmartInsights.normalize_columns columns.
Proof.
  assert (forall h, replace_space (upper (strip (replace_space (upper (strip h)))))
                    = replace_space (upper (strip h))) as Hh.
  { intros h. rewrite !normalize_header_chars.
    destruct (strip_clean h) as [Hs He].
    destruct (map_chars_clean (strip h) Hs He) as [Hs' He'].
    rewrite (strip_id _ Hs' He'), map_chars_compose.
    clear. induction (strip h) as [| a s IH]; [done |].
    cbn. by rewrite normalize_char_idemp, IH. }
  assert (forall cols, map (fun h => replace_space (upper (strip h)))
                         (map (fun h => replace_space (upper (strip h))) cols)
                       = map (fun h => replace_space (upper (strip h))) cols) as Hm.
  { intros cols. rewrite map_map. apply map_ext. intros h. apply Hh. }
  repeat split; apply Hm.
Qed.

Lemma lstrip_all_space (w : string) : all_space w = true -> lstrip w = "".
Proof.
  induction w as [| a w IH]; [done |]. cbn.
  intros [-> Hw]%andb_true_iff. by apply IH.
Qed.

Lemma rstrip_all_space (w : string) : all_space w = true -> rstrip w = "".
Proof.
  induction w as [| a w IH]; [done |]. cbn [all_space rstrip].
  intros [Ha Hw]%andb_true_iff. by rewrite (IH Hw), Ha.
Qed.

Lemma lstrip_app_space (s w : string) :
  all_space w = true ->
  lstrip (s +:+ w) = match lstrip s with
                     | EmptyString => EmptyString
                     | kept => kept +:+ w
                     end.
Proof.
  intros Hw. induction s as [| a s IH]; [by apply lstrip_all_space |].
  change (String a s +:+ w) with (String a (s +:+ w)).
  cbn [lstrip]. by destruct (is_space a).
Qed.

Lemma rstrip_app_space (s w : string) :
  all_space w = true -> rstrip (s +:+ w) = rstrip s.
Proof.
  intros Hw. induction s as [| a s IH]; [by apply rstrip_all_space |].
  change (String a s +:+ w) with (String a (s +:+ w)).
  cbn [rstrip]. by rewrite IH.
Qed.

Lemma strip_padded (w1 s w2 : string) :
  all_space w1 = true -> all_space w2 = true ->
  strip (w1 +:+ s +:+ w2) = strip s.
Proof.
  intros H1 H2. unfold strip.
  assert (lstrip (w1 +:+ s +:+ w2) = lstrip (s +:+ w2)) as ->.
  { clear H2. induction w1 as [| a w1 IH]; [done |].
    change (String a w1 +:+ s +:+ w2) with (String a (w1 +:+ s +:+ w2)).
    cbn [all_space lstrip] in *. apply andb_true_iff in H1 as [-> H1]. by apply IH. }
  rewrite (lstrip_app_space s w2 H2).
  destruct (lstrip s) as [| a kept]; [done |].
  by apply rstrip_app_space.
Qed.

(** X10.  The join key is insensitive to ASCII white space around the
    codes: a college code and a course code written in ASCII and padded, on
    either side, with spaces, tabs, line ends or the other ASCII white space
    that [str.strip()] removes give the key of the bare codes. *)
Theorem main_code_trims (college course w1 w2 w3 w4 : string) :
  is_ascii college = true -> is_ascii course = true ->
  all_space w1 = true -> all_space w2 = true ->
  all_space w3 = true -> all_space w4 = true ->
  main_code (Str (w1 +:+ college +:+ w2)) (Str (w3 +:+ course +:+ w4))
  = main_code (Str college) (Str course).
Proof.
  intros _ _ H1 H2 H3 H4. unfold main_code. by rewrite !strip_padded.
Qed.

Lemma main_code_trims_witness :
  main_code (Str (" " +:+ "C1" +:+ "  ")) (Str ("" +:+ "K1" +:+ " "))
  = main_code (Str "C1") (Str "K1").
Proof. apply main_code_trims; reflexivity. Defined.

Lemma normalized_header_not_main_code (h : string) :
  replace_space (upper (strip h)) <> "Main_Code".
Proof.
  rewrite normalize_header_chars.
  destruct (strip h) as [| x [| y rest]]; [done | done |].
  cbn. intros [= _ Hy _]. by apply (normalize_char_not_a y).
Qed.

Lemma main_code_not_normalized (columns : list string) :
  "Main_Code" ∉ Analyzer.normalize_columns columns.
Proof.
  unfold Analyzer.normalize_columns. intros Hin%list_elem_of_In.
  apply in_map_iff in Hin as (h & Hh & _).
  by apply (normalized_header_not_main_code h).
Qed.

(* ================================================================== *)
(** ** Loading the master table *)

Lemma cells_at_length (columns : list string) (row : list cell) (name : string) :
  length (cells_at columns row name) = occurrences columns name.
Proof.
  unfold occurrences. revert row.
  induction columns as [| h columns IH]; intros row; [done |].
  cbn [cells_at]. rewrite filter_cons, length_app, IH.
  destruct (decide (h = name)).
  - by rewrite bool_decide_eq_true_2.
  - by rewrite bool_decide_eq_false_2.
Qed.

Lemma occurrences_pos (columns : list string) (name : string) :
  name ∈ columns <-> (0 < occurrences columns name)%nat.
Proof.
  unfold occurrences. induction columns as [| h columns IH].
  - split; [by intros ?%elem_of_nil | cbn; lia].
  - rewrite elem_of_cons, filter_cons.
    destruct (decide (h = name)) as [-> | Hne]; cbn [length].
    + split; [lia | auto].
    + rewrite <- IH. split; [intros [? | ?]; [congruence | done] | auto].
Qed.

Lemma get_cell_Ok (columns : list string) (row : list cell) (name : string) :
  name ∈ columns -> exists c, get_cell columns row name = Ok c.
Proof.
  intros Hin%occurrences_pos. rewrite <- (cells_at_length columns row) in Hin.
  unfold get_cell.
  destruct (cells_at columns row name) as [| c [| d l]]; cbn in Hin; [lia | eauto | eauto].
Qed.

Lemma get_cell_Raise (columns : list string) (row : list cell) (name : string) :
  name ∉ columns -> get_cell columns row name = Raise KeyError.
Proof.
  intros Hin. unfold get_cell.
  pose proof (cells_at_length columns row name) as Hlen.
  destruct (cells_at columns row name) as [| c l]; [done |].
  destruct Hin. apply occurrences_pos. rewrite <- Hlen. cbn. lia.
Qed.

(** One column of the label: the row gives its cell, not a Series of cells. *)
Lemma get_cell_once (columns : list string) (row : list cell) (name : string) :
  occurrences columns name = 1%nat ->
  exists c, cells_at columns row name = [c] /\ get_cell columns row name = Ok c.
Proof.
  intros Hocc. rewrite <- (cells_at_length columns row) in Hocc. unfold get_cell.
  destruct (cells_at columns row name) as [| c [| d l]]; [done | eauto | done].
Qed.

(** Several columns of the label: the row gives a Series. *)
Lemma get_cell_several (columns : list string) (row : list cell) (name : string) :
  (2 <= occurrences columns name)%nat ->
  exists items, get_cell columns row name = Ok (Series items).
Proof.
  intros Hocc. rewrite <- (cells_at_length columns row) in Hocc. unfold get_cell.
  destruct (cells_at columns row name) as [| c [| d l]]; cbn in Hocc; [lia | lia | eauto].
Qed.

Lemma str_accessor_Ok (columns : list string) (name : string) (u : unit) :
  str_accessor columns name = Ok u <-> occurrences columns name = 1%nat.
Proof.
  unfold str_accessor. destruct (occurrences columns name) as [| [| n]]; [done | | done].
  by destruct u.
Qed.

Lemma str_accessor_several (columns : list string) (name : string) :
  (2 <= occurrences columns name)%nat ->
  str_accessor columns name = Raise AttributeError.
Proof.
  unfold str_accessor. destruct (occurrences columns name) as [| [| n]]; [lia | lia | done].
Qed.

Lemma to_numeric_column_Ok (columns : list string) (name : string) (u : unit) :
  to_numeric_column columns name = Ok u <-> occurrences columns name = 1%nat.
Proof.
  unfold to_numeric_column.
  destruct (occurrences columns name) as [| [| n]]; [done | | done].
  by destruct u.
Qed.

Lemma to_numeric_column_cases (columns : list string) (name : string) :
  name ∈ columns ->
  (occurrences columns name = 1%nat /\ to_numeric_column columns name = Ok tt)
  \/ ((2 <= occurrences columns name)%nat
      /\ to_numeric_column columns name = Raise TypeError).
Proof.
  intros Hin%occurrences_pos. unfold to_numeric_column.
  destruct (occurrences columns name) as [| [| n]]; [lia | by left | right].
  split; [lia | done].
Qed.

Lemma has_all_elem (required columns : list string) (col : string) :
  has_all required columns = true -> col ∈ required -> col ∈ columns.
Proof.
  unfold has_all. rewrite forallb_forall. intros H Hin%list_elem_of_In.
  exact (proj1 (bool_decide_eq_true _) (H col Hin)).
Qed.

(** [mapM] in the error monad: it returns when every call does, one result
    per item; it raises what the first failing call raises. *)
Lemma mapM_result_Ok {A B : Type} (f : A -> result B) (P : B -> Prop) (l : list A) :
  (forall x, x ∈ l -> exists y, f x = Ok y /\ P y) ->
  exists k, mapM f l = Ok k /\ length k = length l /\ Forall P k.
Proof.
  induction l as [| x l IH]; intros Hf.
  - exists []. by repeat split.
  - destruct IH as (k & Hk & Hlen & Hall); [intros z Hz; apply Hf; by right |].
    destruct (Hf x) as (y & Hy & HP); [left |]. exists (y :: k).
    cbn [mapM]. rewrite Hy. cbn. rewrite Hk. cbn.
    split; [done |]. split; [by rewrite Hlen | by constructor].
Qed.

Lemma mapM_result_Forall2 {A B : Type} (f : A -> result B) (l : list A) (k : list B) :
  mapM f l = Ok k <-> Forall2 (fun x y => f x = Ok y) l k.
Proof.
  revert k. induction l as [| x l IH]; intros k.
  - split; [intros [= <-]; constructor | by intros ->%Forall2_nil_inv_l].
  - cbn [mapM]. split.
    + destruct (f x) as [y |] eqn:Hy; [| done].
      cbn. destruct (mapM f l) as [k' |]; [| done].
      cbn. intros [= <-]. constructor; [done | by apply IH].
    + intros (y & k' & Hy & Hk & ->)%Forall2_cons_inv_l.
      rewrite Hy. cbn. apply IH in Hk. rewrite Hk. done.
Qed.

Lemma mapM_result_Raise {A B : Type} (f : A -> result B) (e : exn) (l : list A) :
  (forall x, x ∈ l -> (exists y, f x = Ok y) \/ f x = Raise e) ->
  (exists x, x ∈ l /\ f x = Raise e) ->
  mapM f l = Raise e.
Proof.
  induction l as [| x l IH]; intros Hall (z & Hz & Hraise).
  - by apply elem_of_nil in Hz.
  - cbn [mapM]. destruct (Hall x) as [[y Hy] | Hx]; [left | | by rewrite Hx].
    rewrite Hy. cbn. rewrite IH; [done | |].
    + intros w Hw. apply Hall. by right.
    + apply elem_of_cons in Hz as [-> | Hz]; [congruence | eauto].
Qed.

(** The cutoff cells of a row read from the file: one key for each cutoff
    label that the header has, and no other key. *)
Lemma cutoff_keys (to_numeric : cell -> float) (columns : list string)
    (row : list cell) (col : string) :
  is_Some ((list_to_map
              (omap (fun col => match get_cell columns row col with
                                | Ok c => Some (col, to_numeric c)
                                | Raise _ => None
                                end) all_cutoff_cols) : gmap string float) !! col)
  <-> col ∈ all_cutoff_cols /\ col ∈ columns.
Proof.
  rewrite <- not_eq_None_Some, <- not_elem_of_list_to_map.
  split.
  - intros Hin. apply dec_stable in Hin.
    apply list_elem_of_fmap in Hin as ([k v] & -> & Hkv).
    apply list_elem_of_omap in Hkv as (label & Hlabel & Hget).
    destruct (decide (label ∈ columns)) as [Hc | Hc].
    + destruct (get_cell_Ok columns row label Hc) as [c Hcell].
      rewrite Hcell in Hget. by injection Hget as <- _.
    + by rewrite (get_cell_Raise columns row label Hc) in Hget.
  - intros [Hlabel Hc] Hnot. apply Hnot.
    destruct (get_cell_Ok columns row col Hc) as [c Hcell].
    apply list_elem_of_fmap. exists (col, to_numeric c). split; [done |].
    apply list_elem_of_omap. exists col. split; [done |]. by rewrite Hcell.
Qed.

(** What an option read from a row holds. *)
Lemma master_option_of_inv (to_numeric : cell -> float) (columns : list string)
    (row : list cell) (opt : MasterOption) :
  master_option_of to_numeric columns row = Ok opt ->
  get_cell columns row "TYPE" = Ok (TYPE opt)
  /\ get_cell columns row "COLLEGE_CODE" = Ok (COLLEGE_CODE opt)
  /\ get_cell columns row "COURSE_CODE" = Ok (COURSE_CODE opt)
  /\ Main_Code opt = main_code (COLLEGE_CODE opt) (COURSE_CODE opt)
  /\ (forall col, is_Some (cutoffs opt !! col)
                  <-> col ∈ all_cutoff_cols /\ col ∈ columns).
Proof.
  unfold master_option_of.
  destruct (get_cell columns row "TYPE") as [t |]; [| done].
  destruct (get_cell columns row "COLLEGE_CODE") as [c |]; [| done].
  destruct (get_cell columns row "COURSE_CODE") as [k |]; [| done].
  intros [= <-]. cbn [TYPE COLLEGE_CODE COURSE_CODE Main_Code cutoffs].
  do 4 (split; [done |]). intros col. apply cutoff_keys.
Qed.

Lemma master_option_of_Ok (to_numeric : cell -> float) (columns : list string)
    (row : list cell) :
  has_all required_master_cols columns = true ->
  exists opt, master_option_of to_numeric columns row = Ok opt.
Proof.
  intros Hall. unfold master_option_of.
  destruct (get_cell_Ok columns row "TYPE") as [t ->];
    [apply (has_all_elem required_master_cols); [done | set_solver] |].
  destruct (get_cell_Ok columns row "COLLEGE_CODE") as [c ->];
    [apply (has_all_elem required_master_cols); [done | set_solver] |].
  destruct (get_cell_Ok columns row "COURSE_CODE") as [k ->];
    [apply (has_all_elem required_master_cols); [done | set_solver] |].
  cbn. eauto.
Qed.

(** What a master table that was loaded went through. *)
Lemma preprocess_master_Loaded (to_numeric : cell -> float) (master_df : RawFrame)
    (processed : MasterFrame) :
  preprocess_master to_numeric (Ok master_df) = Loaded processed ->
  let columns := Analyzer.normalize_columns (raw_columns master_df) in
  has_all required_master_cols columns = true
  /\ occurrences columns "COLLEGE_CODE" = 1%nat
  /\ occurrences columns "COURSE_CODE" = 1%nat
  /\ (forall col, col ∈ all_cutoff_cols -> (occurrences columns col <= 1)%nat)
  /\ master_columns processed = columns ++ ["Main_Code"]
  /\ Forall2 (fun row opt => master_option_of to_numeric columns row = Ok opt)
             (raw_rows master_df) (master_rows processed).
Proof.
  unfold preprocess_master. cbv zeta.
  set (columns := Analyzer.normalize_columns (raw_columns master_df)).
  destruct (has_all required_master_cols columns) eqn:Hall; [| done]. cbn [negb].
  destruct (str_accessor columns "COLLEGE_CODE") as [u1 |] eqn:H1; [| done].
  destruct (str_accessor columns "COURSE_CODE") as [u2 |] eqn:H2; [| done].
  destruct (mapM (to_numeric_column columns) _) as [units |] eqn:H3; [| done].
  destruct (mapM (master_option_of to_numeric columns) _) as [rows |] eqn:H4; [| done].
  intros [= <-]. cbn [master_columns master_rows].
  split; [done |]. split; [by eapply str_accessor_Ok |].
  split; [by eapply str_accessor_Ok |]. split; [| split].
  - intros col Hcol. destruct (decide (col ∈ columns)) as [Hin | Hin].
    + apply mapM_result_Forall2 in H3.
      assert (col ∈ filter (fun col => col ∈ columns) all_cutoff_cols) as Hf
        by (by apply list_elem_of_filter).
      apply list_elem_of_lookup_1 in Hf as [i Hi].
      destruct (Forall2_lookup_l _ _ _ _ _ H3 Hi) as (u & _ & Hu).
      apply to_numeric_column_Ok in Hu. lia.
    + destruct (occurrences columns col) eqn:Hocc; [lia |].
      destruct Hin. apply occurrences_pos. lia.
  - by rewrite bool_decide_eq_false_2 by apply main_code_not_normalized.
  - by apply mapM_result_Forall2.
Qed.

(** A master file that has the required columns, one COLLEGE_CODE and one
    COURSE_CODE column and at most one column for each cutoff label loads. *)
Lemma preprocess_master_loads_when (to_numeric : cell -> float) (master_df : RawFrame) :
  let columns := Analyzer.normalize_columns (raw_columns master_df) in
  has_all required_master_cols columns = true ->
  occurrences columns "COLLEGE_CODE" = 1%nat ->
  occurrences columns "COURSE_CODE" = 1%nat ->
  (forall col, col ∈ all_cutoff_cols -> (occurrences columns col <= 1)%nat) ->
  exists processed,
    preprocess_master to_numeric (Ok master_df) = Loaded processed
    /\ master_columns processed = columns ++ ["Main_Code"]
    /\ length (master_rows processed) = length (raw_rows master_df)
    /\ Forall (fun opt => Main_Code opt = main_code (COLLEGE_CODE opt) (COURSE_CODE opt))
              (master_rows processed).
Proof.
  intros columns Hall Hc Hk Hcut. unfold preprocess_master. fold columns.
  rewrite Hall. cbn [negb].
  rewrite (proj2 (str_accessor_Ok columns "COLLEGE_CODE" tt) Hc).
  rewrite (proj2 (str_accessor_Ok columns "COURSE_CODE" tt) Hk).
  cbn [mbind result_bind Py.bind].
  destruct (mapM_result_Ok (to_numeric_column columns) (fun _ => True)
              (filter (fun col => col ∈ columns) all_cutoff_cols))
    as (units & -> & _).
  { intros x [Hx Hlabel]%list_elem_of_filter. exists tt. split; [| done].
    apply to_numeric_column_Ok. apply occurrences_pos in Hx.
    specialize (Hcut x Hlabel). lia. }
  cbn [mbind result_bind Py.bind].
  destruct (mapM_result_Ok (master_option_of to_numeric columns)
              (fun opt => Main_Code opt = main_code (COLLEGE_CODE opt) (COURSE_CODE opt))
              (raw_rows master_df)) as (rows & -> & Hlen & Hrows).
  { intros row _. destruct (master_option_of_Ok to_numeric columns row Hall) as [opt Hopt].
    exists opt. split; [done |]. by apply master_option_of_inv in Hopt as (_ & _ & _ & ? & _). }
  eexists. split; [done |]. cbn [master_columns master_rows].
  rewrite bool_decide_eq_false_2 by apply main_code_not_normalized.
  by repeat split.
Qed.

(** X7.  A readable master file is refused in three cases, and loads in all
    others.  It is refused when a required column is missing (the columns
    detected are listed); when COLLEGE_CODE or COURSE_CODE is the normalised
    header of several columns (line 47 raises [AttributeError], which line 60
    catches); and when a cutoff label is the normalised header of several
    columns (line 56 raises [TypeError]).  Otherwise it loads, with one
    option per row of the file, each carrying the join key built from its own
    two codes, and the join key is a new last column (no normalised header
    can be "Main_Code"). *)
Theorem preprocess_master_loads (to_numeric : cell -> float) (master_df : RawFrame) :
  Forall (fun h => is_ascii h = true) (raw_columns master_df) ->
  let columns := Analyzer.normalize_columns (raw_columns master_df) in
  (has_all required_master_cols columns = false ->
   preprocess_master to_numeric (Ok master_df) = Missing_columns columns)
  /\ (has_all required_master_cols columns = true ->
      ((2 <= occurrences columns "COLLEGE_CODE")%nat
       \/ (2 <= occurrences columns "COURSE_CODE")%nat ->
       preprocess_master to_numeric (Ok master_df) = Unreadable AttributeError)
      /\ (occurrences columns "COLLEGE_CODE" = 1%nat ->
          occurrences columns "COURSE_CODE" = 1%nat ->
          (exists col, col ∈ all_cutoff_cols /\ (2 <= occurrences columns col)%nat) ->
          preprocess_master to_numeric (Ok master_df) = Unreadable TypeError)
      /\ (occurrences columns "COLLEGE_CODE" = 1%nat ->
          occurrences columns "COURSE_CODE" = 1%nat ->
          (forall col, col ∈ all_cutoff_cols -> (occurrences columns col <= 1)%nat) ->
          exists processed,
            preprocess_master to_numeric (Ok master_df) = Loaded processed
            /\ master_columns processed = columns ++ ["Main_Code"]
            /\ length (master_rows processed) = length (raw_rows master_df)
            /\ Forall (fun opt =>
                         Main_Code opt = main_code (COLLEGE_CODE opt) (COURSE_CODE opt))
                      (master_rows processed))).
Proof.
  intros _ columns.
  split; [intros Hall; unfold preprocess_master; fold columns; by rewrite Hall |].
  intros Hall.
  assert (forall name, name ∈ required_master_cols ->
                       (1 <= occurrences columns name)%nat) as Hreq.
  { intros name Hname. apply (has_all_elem _ _ _ Hall), occurrences_pos in Hname. lia. }
  split; [| split].
  - unfold preprocess_master. fold columns. rewrite Hall. cbn [negb].
    intros [Hc | Hk].
    + by rewrite (str_accessor_several _ _ Hc).
    + pose proof (Hreq "COLLEGE_CODE" ltac:(repeat constructor)) as Hc.
      destruct (str_accessor columns "COLLEGE_CODE") as [u |] eqn:Hu.
      * by rewrite (str_accessor_several _ _ Hk).
      * unfold str_accessor in Hu.
        by destruct (occurrences columns "COLLEGE_CODE") as [| [| n]];
          [lia | | injection Hu as <-].
  - unfold preprocess_master. fold columns. rewrite Hall. cbn [negb].
    intros Hc Hk (col & Hcol & Hocc).
    rewrite (proj2 (str_accessor_Ok columns "COLLEGE_CODE" tt) Hc).
    rewrite (proj2 (str_accessor_Ok columns "COURSE_CODE" tt) Hk).
    cbn [mbind result_bind Py.bind].
    rewrite (mapM_result_Raise (to_numeric_column columns) TypeError); [done | |].
    + intros x [Hx _]%list_elem_of_filter.
      destruct (to_numeric_column_cases columns x Hx) as [[_ ->] | [_ ->]]; eauto.
    + exists col. split.
      * apply list_elem_of_filter. split; [| done]. apply occurrences_pos. lia.
      * unfold to_numeric_column.
        by destruct (occurrences columns col) as [| [| n]]; [lia | lia |].
  - intros Hc Hk Hcut. by apply preprocess_master_loads_when.
Qed.

Lemma preprocess_master_loads_witness :
  exists processed,
    preprocess_master all_blank (Ok sample_master_file) = Loaded processed
    /\ master_columns processed
       = Analyzer.normalize_columns (raw_columns sample_master_file) ++ ["Main_Code"]
    /\ length (master_rows processed) = length (raw_rows sample_master_file)
    /\ Forall (fun opt => Main_Code opt = main_code (COLLEGE_CODE opt) (COURSE_CODE opt))
              (master_rows processed).
Proof.
  destruct (preprocess_master_loads all_blank sample_master_file) as [_ Hsome].
  { repeat constructor. }
  destruct (Hsome eq_refl) as (_ & _ & Hloads).
  apply Hloads; [reflexivity | reflexivity |].
  intros col Hcol.
  repeat (apply elem_of_cons in Hcol as [-> | Hcol]; [vm_compute; lia |]).
  by apply elem_of_nil in Hcol.
Defined.

(** A resolved column is a cutoff label and a column of the schema. *)
Lemma eligible_is_cutoff_label (o : SetOrder) (columns : list string)
    (category gender : cell) (col : string) :
  col ∈ eligible_cutoff_cols o columns category gender ->
  col ∈ all_cutoff_cols /\ col ∈ columns.
Proof.
  intros [Hc Hcol]%elem_of_eligible. split; [| done].
  destruct (category_map_of category) as [m |] eqn:Hcat.
  - destruct category as [s | x | items]; [| done | done].
    pose proof (category_map_of_Some s m Hcat) as Hs.
    apply elem_of_cons in Hs as [-> | Hs].
    + rewrite collected_OC in Hcol.
      destruct (cell_eq gender "FEM");
        repeat (apply elem_of_app in Hcol as [Hcol | Hcol]);
        apply elem_of_append_label in Hcol as [-> _]; set_solver.
    + rewrite (collected_reserved s columns gender Hs) in Hcol.
      repeat (apply elem_of_cons in Hs as [-> | Hs]); [| | | | by apply elem_of_nil in Hs];
        destruct (cell_eq gender "FEM");
        repeat (apply elem_of_app in Hcol as [Hcol | Hcol]);
        apply elem_of_append_label in Hcol as [-> _]; set_solver.
  - unfold collected_cutoff_cols in Hcol. rewrite Hcat in Hcol.
    by apply elem_of_nil in Hcol.
Qed.

(** X8.  In a master table loaded from a file, every row has a cell for
    every column that the resolver can return: the test
    [col in college_option] of line 192 never fails, so an eligible column
    is left out of the comparison only when its cell is blank. *)
Theorem loaded_rows_have_eligible_columns (to_numeric : cell -> float)
    (master_df : RawFrame) (processed : MasterFrame) (o : SetOrder)
    (category gender : cell) :
  preprocess_master to_numeric (Ok master_df) = Loaded processed ->
  Forall (fun opt =>
            forall col,
              col ∈ eligible_cutoff_cols o (master_columns processed) category gender ->
              is_Some (cutoffs opt !! col))
         (master_rows processed).
Proof.
  intros (_ & _ & _ & _ & Hcolumns & Hrows)%preprocess_master_Loaded.
  rewrite Hcolumns. apply Forall_forall. intros opt Hopt col Hcol.
  apply list_elem_of_lookup_1 in Hopt as [i Hi].
  destruct (Forall2_lookup_r _ _ _ _ _ Hrows Hi) as (row & _ & Hrow).
  apply master_option_of_inv in Hrow as (_ & _ & _ & _ & Hkeys).
  apply eligible_is_cutoff_label in Hcol as [Hlabel Hc].
  apply Hkeys. split; [done |].
  apply elem_of_app in Hc as [Hc | Hc]; [done |].
  apply list_elem_of_singleton in Hc as ->.
  exfalso. revert Hlabel.
  apply (bool_decide_unpack ("Main_Code" ∉ all_cutoff_cols)). by vm_compute.
Qed.

Lemma loaded_rows_have_eligible_columns_witness :
  exists processed,
    preprocess_master sample_to_numeric (Ok sample_master_file) = Loaded processed
    /\ Forall (fun opt =>
                 forall col,
                   col ∈ eligible_cutoff_cols insertion_order (master_columns processed)
                           (Str "SC") (Str "FEM") ->
                   is_Some (cutoffs opt !! col))
              (master_rows processed).
Proof.
  eexists. split; [vm_compute; reflexivity |].
  apply (loaded_rows_have_eligible_columns sample_to_numeric sample_master_file).
  vm_compute. reflexivity.
Defined.


(* ================================================================== *)
(** ** More on one pair *)

(** Every column resolved for a gender other than FEM is resolved for FEM. *)
Lemma eligible_subset_FEM (o o' : SetOrder) (columns : list string)
    (category gender : cell) (col : string) :
  cell_eq gender "FEM" = false ->
  col ∈ eligible_cutoff_cols o columns category gender ->
  col ∈ eligible_cutoff_cols o' columns category (Str "FEM").
Proof.
  intros Hg. rewrite !elem_of_eligible. intros [Hc Hcol]. split; [done |].
  unfold collected_cutoff_cols in *. rewrite Hg in Hcol.
  destruct (category_map_of category) as [m |]; [| done].
  replace (cell_eq (Str "FEM") "FEM") with true by done.
  apply elem_of_app in Hcol as [Hcol | Hcol]; apply elem_of_app.
  - left. destruct (bool_decide (m = ∅)); [done |].
    apply elem_of_app. by right.
  - right. destruct (negb (cell_eq category "OC")); [| done].
    apply elem_of_app. by left.
Qed.

(** More eligible columns can only lower the best cutoff. *)
Lemma best_wider (cols cols' : list string) (r : float) (opt : MasterOption) (b : float) :
  (forall col, col ∈ cols -> col ∈ cols') ->
  best_eligible_cutoff_for_option cols r opt = Some b ->
  exists b', best_eligible_cutoff_for_option cols' r opt = Some b'
             /\ float_le b' b = true.
Proof.
  intros Hsub Hb.
  apply best_Some_inv in Hb as (Hr & (col & Hcol & Hlook & Hnotna) & _).
  destruct (best_eligible_cutoff_for_option cols' r opt) as [b' |] eqn:Hb'.
  - exists b'. split; [done |].
    apply best_Some_inv in Hb' as (_ & _ & Hmin).
    eapply Hmin; eauto.
  - pose proof (best_None_inv cols' r opt Hb' Hr col b (Hsub col Hcol) Hlook).
    congruence.
Qed.

Lemma float_le_notna_l (x y : float) : float_le x y = true -> notna x = true.
Proof. by destruct x, y. Qed.

(** X9.  The female columns never help: for the same ranks and the same
    option, when the row of a student resolved as FEM says LIKELY, the row of
    the same student resolved with any other gender says LIKELY too, or has
    no cutoff to compare with; it never says UNLIKELY. *)
Theorem female_columns_never_help (o o' : SetOrder) (columns : list string)
    (category gender : cell) (stu stu' : Student) (adv mains : float)
    (opt : MasterOption) (row row' : ResultRow) :
  cell_eq gender "FEM" = false ->
  evaluate_option (eligible_cutoff_cols o columns category gender)
    stu adv mains opt = Ok (Some row) ->
  evaluate_option (eligible_cutoff_cols o' columns category (Str "FEM"))
    stu' adv mains opt = Ok (Some row') ->
  Seat_Chance row' = LIKELY ->
  Seat_Chance row = LIKELY \/ Seat_Chance row = NO_CUTOFF.
Proof.
  intros Hg Hrow Hrow' Hlikely.
  apply evaluate_option_row in Hrow as (r & label & Happ & _ & Hseat & _).
  apply evaluate_option_row in Hrow' as (r' & label' & Happ' & _ & Hseat' & _).
  rewrite Happ in Happ'. injection Happ' as <- <-.
  rewrite Hseat. rewrite Hseat' in Hlikely. clear Hseat Hseat'.
  set (cols := eligible_cutoff_cols o columns category gender) in *.
  set (cols' := eligible_cutoff_cols o' columns category (Str "FEM")) in *.
  destruct (best_eligible_cutoff_for_option cols r opt) as [b |] eqn:Hb.
  - destruct (best_wider cols cols' r opt b) as (b' & Hb' & Hle); [| done |].
    { intros col. by apply eligible_subset_FEM. }
    rewrite Hb' in Hlikely. unfold seat_chance in *.
    destruct (float_le r b') eqn:Hrb'; [| done].
    left. by rewrite (float_le_trans r b' b).
  - unfold seat_chance in *.
    destruct (best_eligible_cutoff_for_option cols' r opt) as [b' |] eqn:Hb'.
    + apply best_Some_inv in Hb' as (Hr & _). unfold isna. rewrite Hr. by right.
    + by destruct (isna r).
Qed.

Lemma female_columns_never_help_witness :
  exists row,
    evaluate_option (eligible_cutoff_cols insertion_order
                       (master_columns (mk_master [])) (Str "SC") (Str "GEN"))
      (mk_student "SC" "GEN" (rank 500)) (rank 500) (rank 500)
      (mk_option "IIT" [("SC_FEM", rank 900); ("SC_GEN", rank 800)]) = Ok (Some row)
    /\ (Seat_Chance row = LIKELY \/ Seat_Chance row = NO_CUTOFF).
Proof.
  eexists. split; [vm_compute; reflexivity |].
  eapply (female_columns_never_help insertion_order insertion_order
            (master_columns (mk_master [])) (Str "SC") (Str "GEN")
            (mk_student "SC" "GEN" (rank 500))
            (mk_student "SC" "FEM" (rank 500)) (rank 500) (rank 500)
            (mk_option "IIT" [("SC_FEM", rank 900); ("SC_GEN", rank 800)]));
    [reflexivity | vm_compute; reflexivity | vm_compute; reflexivity | reflexivity].
Defined.

Lemma applicable_le (t : cell) (adv mains adv' mains' r r' : float) (label label' : string) :
  applicable_student_rank t adv mains = Some (r, label) ->
  applicable_student_rank t adv' mains' = Some (r', label') ->
  float_le adv' adv = true -> float_le mains' mains = true ->
  float_le r' r = true.
Proof.
  unfold applicable_student_rank.
  destruct (cell_eq t "IIT"); [by intros [= <- _] [= <- _] |].
  destruct (_ || _); [by intros [= <- _] [= <- _] | done].
Qed.

(** X11.  A better rank never gives a worse verdict: if a student is LIKELY
    for an option, a student resolved to the same columns whose advanced and
    mains ranks are at most the first one's is LIKELY for it too. *)
Theorem better_rank_stays_likely (cols : list string) (stu stu' : Student)
    (adv mains adv' mains' : float) (opt : MasterOption) (row row' : ResultRow) :
  evaluate_option cols stu adv mains opt = Ok (Some row) ->
  evaluate_option cols stu' adv' mains' opt = Ok (Some row') ->
  float_le adv' adv = true -> float_le mains' mains = true ->
  Seat_Chance row = LIKELY -> Seat_Chance row' = LIKELY.
Proof.
  intros Hrow Hrow' Hadv Hmains Hlikely.
  apply evaluate_option_row in Hrow as (r & label & Happ & _ & Hseat & _).
  apply evaluate_option_row in Hrow' as (r' & label' & Happ' & _ & Hseat' & _).
  pose proof (applicable_le _ _ _ _ _ _ _ _ _ Happ Happ' Hadv Hmains) as Hle.
  rewrite Hseat in Hlikely. rewrite Hseat'. clear Hseat Hseat'.
  destruct (best_eligible_cutoff_for_option cols r opt) as [b |] eqn:Hb.
  - assert (best_eligible_cutoff_for_option cols r' opt = Some b) as ->.
    { unfold best_eligible_cutoff_for_option in *.
      rewrite (float_le_notna_l r' r Hle).
      by destruct (notna r). }
    unfold seat_chance in *. destruct (float_le r b) eqn:Hrb; [| done].
    by rewrite (float_le_trans r' r b).
  - unfold seat_chance in Hlikely. by destruct (isna r).
Qed.

Lemma better_rank_stays_likely_witness :
  exists row',
    evaluate_option ["OC_GEN"] (mk_student "OC" "GEN" (rank 40)) (rank 40) (rank 40)
      (mk_option "NIT" [("OC_GEN", rank 100)]) = Ok (Some row')
    /\ Seat_Chance row' = LIKELY.
Proof.
  eexists. split; [vm_compute; reflexivity |].
  eapply (better_rank_stays_likely ["OC_GEN"]
            (mk_student "OC" "GEN" (rank 50)) (mk_student "OC" "GEN" (rank 40))
            (rank 50) (rank 50) (rank 40) (rank 40)
            (mk_option "NIT" [("OC_GEN", rank 100)]));
    vm_compute; reflexivity.
Defined.

(* ================================================================== *)
(** ** The rows of a run *)

Lemma evaluate_option_identity (cols : list string) (stu : Student) (adv mains : float)
    (opt : MasterOption) (row : ResultRow) :
  evaluate_option cols stu adv mains opt = Ok (Some row) ->
  row_identity row = pair_identity stu opt
  /\ Student_Name row = NAME stu /\ Student_Category row = CATEGORY stu
  /\ Student_Gender row = GENDER stu.
Proof.
  open_pair opt.
  destruct (applicable_student_rank (TYPE opt) adv mains) as [[a label] |]; [| done].
  destruct (best_eligible_cutoff_for_option cols a opt) as [b |].
  - destruct (relevant_cutoffs_for_option_display cols opt) as [d |]; cbn; [| done].
    destruct (int_or_na a) as [ru |]; cbn; [| done].
    destruct (int_or_na b) as [bs |]; cbn; [| done].
    by intros [= <-].
  - cbn. destruct (int_or_na a) as [ru |]; cbn; [| done].
    by intros [= <-].
Qed.

Lemma evaluate_options_identity (cols : list string) (stu : Student) (adv mains : float)
    (options : list MasterOption) (rows : list ResultRow) :
  evaluate_options (evaluate_option cols stu adv mains) options = Ok rows ->
  map row_identity rows
  = map (pair_identity stu)
        (filter (fun opt => evaluated_type (TYPE opt) = true) options).
Proof.
  revert rows. induction options as [| opt options IH]; intros rows.
  - by intros [= <-].
  - cbn [evaluate_options].
    destruct (evaluate_option cols stu adv mains opt) as [r |] eqn:Hr; [| done].
    cbn. destruct (evaluate_options _ options) as [rest |]; [| done].
    cbn. intros [= <-]. specialize (IH rest eq_refl).
    pose proof (evaluate_option_Ok _ _ _ _ _ _ Hr) as Hiff.
    destruct (decide (evaluated_type (TYPE opt) = true)) as [Ht | Ht].
    + destruct (proj2 Hiff Ht) as [row ->].
      apply evaluate_option_identity in Hr as [Hid _].
      cbn. by rewrite Hid, IH.
    + destruct r as [row |]; [| done]. destruct Ht. apply Hiff. eauto.
Qed.

(** X12.  The rows of a run that completes come in input order, students
    first: their identity columns (student id, college code, course code,
    type) are those of the first student against every master row of an
    evaluated type in the order of the master table, then those of the second
    student, and so on. *)
Theorem run_analysis_rows_in_input_order (o : SetOrder) (master : MasterFrame)
    (students : list Student) (rows : list ResultRow) :
  run_analysis o master students = Ok rows ->
  map row_identity rows
  = students ≫= (fun stu => map (pair_identity stu) (evaluated_options master)).
Proof.
  revert rows. induction students as [| stu students IH]; intros rows.
  - by intros [= <-].
  - cbn [run_analysis].
    destruct (analyze_student o master stu) as [here |] eqn:Hs; [| done].
    cbn. destruct (run_analysis o master students) as [more |]; [| done].
    cbn. intros [= <-]. rewrite map_app. f_equal.
    + rewrite analyze_student_unfold in Hs.
      destruct (student_tests_ok stu); [| done].
      by apply evaluate_options_identity in Hs.
    + by apply IH.
Qed.

Lemma run_analysis_rows_in_input_order_witness :
  exists rows,
    run_analysis insertion_order duplicated_master
      [mk_student "OC" "GEN" (rank 500); mk_student "SC" "FEM" NaN] = Ok rows
    /\ map row_identity rows
       = [mk_student "OC" "GEN" (rank 500); mk_student "SC" "FEM" NaN]
         ≫= (fun stu => map (pair_identity stu) (evaluated_options duplicated_master)).
Proof.
  eexists. split; [vm_compute; reflexivity |].
  apply (run_analysis_rows_in_input_order insertion_order).
  vm_compute. reflexivity.
Defined.

(** X13.  The audit string explains the best cutoff: when a row shows a best
    cutoff, its Considered_Cutoffs_for_Option is the list, joined by ", ", of
    one "column: value" entry for each eligible column whose cell is present,
    and the best cutoff shown is the value of one of these entries; when the
    row shows no best cutoff the audit string is empty. *)
Theorem audit_explains_best_cutoff (cols : list string) (stu : Student)
    (adv mains : float) (opt : MasterOption) (row : ResultRow) :
  evaluate_option cols stu adv mains opt = Ok (Some row) ->
  (Considered_Cutoffs_for_Option row
   = Py.join ", " (map (entry_text opt)
                     (filter (fun col => cutoff_present opt col = true) cols))
   /\ exists col,
       col ∈ filter (fun col => cutoff_present opt col = true) cols
       /\ entry_text opt col = col +:+ ": " +:+ Best_Eligible_Cutoff row)
  \/ (Considered_Cutoffs_for_Option row = "" /\ Best_Eligible_Cutoff row = "N/A").
Proof.
  open_pair opt.
  destruct (applicable_student_rank (TYPE opt) adv mains) as [[a label] |]; [| done].
  destruct (best_eligible_cutoff_for_option cols a opt) as [b |] eqn:Hb.
  - rewrite display_char. destruct (has_inf_cutoff cols opt); [done |].
    cbn. destruct (int_or_na a) as [ru |]; cbn; [| done].
    destruct (int_or_na b) as [bs |] eqn:Hbs; cbn; [| done].
    intros [= <-]. cbn. left. split; [done |].
    apply best_Some_inv in Hb as (_ & (col & Hcol & Hlook & Hnotna) & _).
    exists col. split.
    + apply list_elem_of_filter. split; [| done].
      unfold cutoff_present. by rewrite Hlook.
    + unfold entry_text, trunc. rewrite Hlook. cbn.
      unfold int_or_na in Hbs. rewrite Hnotna in Hbs.
      destruct (Py.int b) as [n |]; cbn in Hbs; [| done].
      by injection Hbs as <-.
  - cbn. destruct (int_or_na a) as [ru |]; cbn; [| done].
    intros [= <-]. by right.
Qed.

Lemma audit_explains_best_cutoff_witness :
  exists row,
    evaluate_option ["SC_FEM"; "OC_GEN"] (mk_student "SC" "FEM" (rank 500))
      (rank 500) (rank 500)
      (mk_option "IIT" [("SC_FEM", rank 600); ("OC_GEN", rank 300)]) = Ok (Some row)
    /\ ((Considered_Cutoffs_for_Option row
         = Py.join ", "
             (map (entry_text (mk_option "IIT" [("SC_FEM", rank 600); ("OC_GEN", rank 300)]))
                (filter (fun col => cutoff_present
                           (mk_option "IIT" [("SC_FEM", rank 600); ("OC_GEN", rank 300)])
                           col = true) ["SC_FEM"; "OC_GEN"]))
         /\ exists col,
             col ∈ filter (fun col => cutoff_present
                             (mk_option "IIT" [("SC_FEM", rank 600); ("OC_GEN", rank 300)])
                             col = true) ["SC_FEM"; "OC_GEN"]
             /\ entry_text (mk_option "IIT" [("SC_FEM", rank 600); ("OC_GEN", rank 300)]) col
                = col +:+ ": " +:+ Best_Eligible_Cutoff row)
        \/ (Considered_Cutoffs_for_Option row = "" /\ Best_Eligible_Cutoff row = "N/A")).
Proof.
  eexists. split; [vm_compute; reflexivity |].
  apply (audit_explains_best_cutoff ["SC_FEM"; "OC_GEN"]
           (mk_student "SC" "FEM" (rank 500)) (rank 500) (rank 500)).
  vm_compute. reflexivity.
Defined.

(* ================================================================== *)
(** ** Which pairs raise *)








(* ================================================================== *)
(** ** The page, run after run *)

Lemma ready_with_button (to_numeric : cell -> float) (inp : Inputs) (pressed : bool) :
  ready to_numeric (with_button inp pressed) = ready to_numeric inp.
Proof. reflexivity. Qed.

Lemma display_ready (to_numeric : cell -> float) (o : SetOrder) (inp : Inputs)
    (st : gmap string session_value) (master : MasterFrame) (students : list Student) :
  ready to_numeric inp = Some (master, students) ->
  display_multi_student_analyzer to_numeric o inp st
  = let written := [Success_loaded (length students) (length (master_rows master))] in
    if run_button inp then
      match run_analysis o master students with
      | Raise e => {| session := <[RESULTS_KEY := PyNone]> st;
                      written := written; raised := Some e |}
      | Ok results_list =>
          display_results
            (<[RESULTS_KEY := Frame results_list]> (<[RESULTS_KEY := PyNone]> st)) written
      end
    else display_results st written.
Proof.
  unfold ready, display_multi_student_analyzer.
  destruct (master_exists inp); [| done]. cbn [negb].
  destruct (preprocess_master to_numeric (load_excel inp)) as [m | |]; [| done | done].
  destruct (student_batch_file inp) as [file |]; [| done].
  destruct (preprocess_students to_numeric file) as [s | |]; [| done | done].
  by intros [= <- <-].
Qed.

(** X15.  Results survive a rerun: after a run of the page in which the
    analysis is pressed and returns at least one row, the page shows these
    rows and keeps them in the session; a following run on the same files
    without the button shows the same rows again, writes the same messages
    and leaves the session as it is. *)
Theorem results_survive_rerun (to_numeric : cell -> float) (o : SetOrder)
    (inp : Inputs) (st : gmap string session_value)
    (master : MasterFrame) (students : list Student)
    (row : ResultRow) (rows : list ResultRow) :
  ready to_numeric inp = Some (master, students) ->
  run_analysis o master students = Ok (row :: rows) ->
  let first := display_multi_student_analyzer to_numeric o (with_button inp true) st in
  let second := display_multi_student_analyzer to_numeric o (with_button inp false)
                  (session first) in
  raised first = None
  /\ written first = [Success_loaded (length students) (length (master_rows master));
                      Results_table (row :: rows)]
  /\ session first !! RESULTS_KEY = Some (Frame (row :: rows))
  /\ raised second = None
  /\ written second = written first
  /\ session second = session first.
Proof.
  intros Hready Hrun first second. subst first second.
  rewrite (display_ready to_numeric o (with_button inp true) st master students)
    by done.
  cbn [with_button run_button]. rewrite Hrun.
  unfold display_results at 1 2 3. rewrite lookup_insert_eq. cbn.
  rewrite (display_ready to_numeric o (with_button inp false) _ master students)
    by done.
  cbn [with_button run_button]. unfold display_results. rewrite !lookup_insert_eq.
  cbn. by rewrite lookup_insert_eq.
Qed.

Lemma results_survive_rerun_witness :
  exists rows,
    session (display_multi_student_analyzer sample_to_numeric insertion_order
               (with_button sample_inputs_ok true) prior_session) !! RESULTS_KEY
    = Some (Frame rows).
Proof.
  eexists.
  eapply (results_survive_rerun sample_to_numeric insertion_order sample_inputs_ok
            prior_session); vm_compute; reflexivity.
Defined.

(** X16.  A run that raises poisons the next one: when the analysis is
    pressed and raises, the exception leaves the page, the session holds
    [None] in place of any earlier results, and a following run on the same
    files without the button raises [AttributeError] in the display section
    (line 234) instead of showing the prompt. *)
Theorem raise_poisons_next_run (to_numeric : cell -> float) (o : SetOrder)
    (inp : Inputs) (st : gmap string session_value)
    (master : MasterFrame) (students : list Student) (e : exn) :
  ready to_numeric inp = Some (master, students) ->
  run_analysis o master students = Raise e ->
  let first := display_multi_student_analyzer to_numeric o (with_button inp true) st in
  let second := display_multi_student_analyzer to_numeric o (with_button inp false)
                  (session first) in
  raised first = Some e
  /\ session first !! RESULTS_KEY = Some PyNone
  /\ raised second = Some AttributeError
  /\ session second = session first.
Proof.
  intros Hready Hrun first second. subst first second.
  rewrite (display_ready to_numeric o (with_button inp true) st master students)
    by done.
  cbn [with_button run_button]. rewrite Hrun. cbn.
  rewrite (display_ready to_numeric o (with_button inp false) _ master students)
    by done.
  cbn [with_button run_button]. unfold display_results. rewrite !lookup_insert_eq.
  by cbn.
Qed.

Lemma raise_poisons_next_run_witness :
  raised (display_multi_student_analyzer sample_to_numeric insertion_order
            (with_button (sample_inputs_with_inf true) true) prior_session)
  = Some OverflowError.
Proof.
  eapply (raise_poisons_next_run sample_to_numeric insertion_order
            (sample_inputs_with_inf true) prior_session);
    vm_compute; reflexivity.
Defined.

(* ================================================================== *)
(** ** Duplicate join keys of the master table *)






(* ================================================================== *)
(** ** Smart insights *)

Lemma two_key_lookup (f g k : string) :
  (list_to_map [("FEM", f); ("GEN", g)] : gmap string string) !! k
  = if decide (k = "FEM") then Some f
    else if decide (k = "GEN") then Some g else None.
Proof.
  change (list_to_map [("FEM", f); ("GEN", g)] : gmap string string)
    with (<["FEM" := f]> (<["GEN" := g]> (∅ : gmap string string))).
  destruct (decide (k = "FEM")) as [-> | Hf]; [by rewrite lookup_insert_eq |].
  rewrite lookup_insert_ne by done.
  destruct (decide (k = "GEN")) as [-> | Hg]; [by rewrite lookup_insert_eq |].
  by rewrite lookup_insert_ne.
Qed.

(** The dict: five keys, each with its own FEM and GEN labels. *)
Lemma category_lookup (cat : string) (m : gmap string string) :
  category_to_cutoff_map !! cat = Some m ->
  cat ∈ ["OC"; "EWS"; "OBC"; "SC"; "ST"]
  /\ m = list_to_map [("FEM", cat +:+ "_FEM"); ("GEN", cat +:+ "_GEN")]
  /\ m <> ∅.
Proof.
  intros H. unfold category_to_cutoff_map in H.
  apply elem_of_list_to_map_2 in H.
  repeat (apply elem_of_cons in H as [H | H];
          [injection H as -> ->; split; [set_solver |]; split; [done |];
           apply (bool_decide_unpack _); by vm_compute |]).
  by apply elem_of_nil in H.
Qed.

Lemma col_to_check_inv (merged_df : RawFrame) (category gender col : string) :
  col_to_check merged_df category gender = Some col ->
  category ∈ ["OC"; "EWS"; "OBC"; "SC"; "ST"]
  /\ column_has_data merged_df col = true
  /\ (col = category +:+ "_FEM" \/ col = category +:+ "_GEN")
  /\ (gender <> "FEM" -> col = category +:+ "_GEN").
Proof.
  unfold col_to_check. revert col.
  intros col.
    destruct (truthy category && truthy gender); [| done].
    destruct (category_to_cutoff_map !! category) as [m |] eqn:Hm; [| done].
    apply category_lookup in Hm as (Hcat & -> & Hne).
    rewrite bool_decide_eq_false_2 by done.
    rewrite !two_key_lookup.
    rewrite (decide_False (P := "GEN" = "FEM")) by done.
    rewrite (decide_True (P := "GEN" = "GEN")) by done.
    destruct (decide (gender = "FEM")) as [-> | Hf];
      [| destruct (decide (gender = "GEN")) as [-> | Hg]];
      repeat match goal with
             | |- context [truthy ?c && column_has_data merged_df ?c] =>
                 let H := fresh "H" in
                 destruct (truthy c && column_has_data merged_df c) eqn:H;
                 [apply andb_true_iff in H as [_ H] |]
             end;
      try done; intros [= <-]; repeat split; auto; by intros [].
Qed.

(** X17.  The column that smart insights compares against is always one of
    the two columns of the category selected, and one that has data in the
    merged table; it is the GEN column unless the preference is FEM, and
    never an open-category column for another category.  With a category of
    the dict and a non-empty preference, a GEN column with data is enough for
    a column to be chosen. *)
Theorem col_to_check_sound (merged_df : RawFrame) (category gender : string) :
  (forall col,
     col_to_check merged_df category gender = Some col ->
     category ∈ ["OC"; "EWS"; "OBC"; "SC"; "ST"]
     /\ column_has_data merged_df col = true
     /\ (col = category +:+ "_FEM" \/ col = category +:+ "_GEN")
     /\ (gender <> "FEM" -> col = category +:+ "_GEN"))
  /\ (category ∈ ["OC"; "EWS"; "OBC"; "SC"; "ST"] ->
      truthy gender = true ->
      column_has_data merged_df (category +:+ "_GEN") = true ->
      is_Some (col_to_check merged_df category gender)).
Proof.
  split; [intros col; apply col_to_check_inv |].
  unfold col_to_check.
  intros Hcat Hg Hdata.
    assert (truthy category = true /\ truthy (category +:+ "_GEN") = true
            /\ is_Some (category_to_cutoff_map !! category)) as (-> & Ht & [m Hm]).
    { repeat (apply elem_of_cons in Hcat as [-> | Hcat]);
        [| | | | | by apply elem_of_nil in Hcat];
        (split; [done |]; split; [done |]; eexists; vm_compute; reflexivity). }
    rewrite Hg, Hm. cbn [andb].
    apply category_lookup in Hm as (_ & -> & Hne).
    rewrite bool_decide_eq_false_2 by done.
    rewrite !two_key_lookup. rewrite (decide_False (P := "GEN" = "FEM")) by done.
    rewrite (decide_True (P := "GEN" = "GEN")) by done.
    rewrite Ht, Hdata. cbn [andb].
    destruct (decide (gender = "FEM")); [| destruct (decide (gender = "GEN"))];
      rewrite ?Ht, ?Hdata; cbn [andb]; repeat (destruct (_ && _)); eauto.
Qed.

Lemma col_to_check_sound_witness :
  is_Some (col_to_check sample_merged "SC" "FEM").
Proof.
  apply (col_to_check_sound sample_merged "SC" "FEM").
  - set_solver.
  - reflexivity.
  - vm_compute. reflexivity.
Defined.

(** X18.  The batch verdict is the stricter one: when the batch engine says
    LIKELY for a pair whose applicable rank is the integer [n], smart
    insights says "Likely" for rank [n] against the cutoff of any eligible
    column of the option whose cell is present. *)
Theorem batch_likely_implies_smart_likely (cols : list string) (stu : Student)
    (adv mains : float) (opt : MasterOption) (row : ResultRow)
    (n : Z) (label col : string) (v : float) :
  evaluate_option cols stu adv mains opt = Ok (Some row) ->
  applicable_student_rank (TYPE opt) adv mains = Some (Fin (inject_Z n), label) ->
  Seat_Chance row = LIKELY ->
  col ∈ cols -> cutoffs opt !! col = Some v -> notna v = true ->
  rank_status n v = SMART_LIKELY.
Proof.
  intros Hrow Happ Hlikely Hcol Hlook Hv.
  apply evaluate_option_row in Hrow as (r & label' & Happ' & _ & Hseat & _).
  rewrite Happ in Happ'. injection Happ' as <- <-.
  rewrite Hseat in Hlikely. unfold seat_chance in Hlikely.
  destruct (best_eligible_cutoff_for_option cols _ opt) as [b |] eqn:Hb.
  - destruct (float_le (Fin (inject_Z n)) b) eqn:Hle; [| done].
    apply best_Some_inv in Hb as (_ & _ & Hmin).
    unfold rank_status. rewrite Hv. cbn [andb].
    by rewrite (float_le_trans _ b v Hle (Hmin col v Hcol Hlook Hv)).
  - by destruct (isna _).
Qed.

Lemma batch_likely_implies_smart_likely_witness :
  rank_status 500 (rank 600) = SMART_LIKELY.
Proof.
  eapply (batch_likely_implies_smart_likely ["SC_FEM"; "OC_GEN"]
            (mk_student "SC" "FEM" (rank 500)) (rank 500) (rank 500)
            (mk_option "IIT" [("SC_FEM", rank 600); ("OC_GEN", rank 550)])
            _ 500 _ "SC_FEM" (rank 600));
    try (vm_compute; reflexivity).
  set_solver.
Defined.




(* ================================================================== *)
(** ** Navigation *)

Lemma navigate_known (b : Buttons) (page : option string) :
  (forall p, page = Some p -> known_page p) ->
  forall p, navigate b page = Some p -> known_page p.
Proof.
  intros Hpage p. unfold navigate, known_page in *.
  destruct (nav_multi_student_analyzer b); [intros [= <-]; set_solver |].
  destruct (nav_smart_insights b); [intros [= <-]; set_solver |].
  destruct (nav_dashboard_verifier b); [intros [= <-]; set_solver |].
  destruct (nav_home b); [intros [= <-]; set_solver |].
  apply Hpage.
Qed.

Lemma run_page_known (page : option string) :
  (forall p, page = Some p -> known_page p) ->
  known_page (run_page page).1 /\ router_outcome (run_page page).2.
Proof.
  intros Hpage. unfold run_page, router_outcome.
  destruct page as [p |]; cbn [default fst snd].
  - specialize (Hpage p eq_refl). unfold known_page in Hpage.
    split; [done |].
    repeat (apply elem_of_cons in Hpage as [-> | Hpage]); cbn; auto.
    by apply elem_of_nil in Hpage.
  - split; [unfold known_page; set_solver | cbn; auto].
Qed.

(** X20.  From a fresh session, whatever buttons are pressed run after run,
    the page attribute is always one of home, verify_choice_dashboard,
    smart_insights and multi_student_analyzer.  A run calls the page function
    of home, of smart insights or of the batch analyzer, or it raises
    [ModuleNotFoundError]: on the page verify_choice_dashboard the import of
    line 46 fails, so neither the dashboard nor the plain choice verifier is
    ever shown, and that page raises again at every run until another button
    is pressed. *)
Theorem navigation_stays_on_known_pages (runs : list Buttons) :
  (forall p, (main_runs runs None).1 = Some p -> known_page p)
  /\ Forall router_outcome (main_runs runs None).2
  /\ (forall b page,
        navigate b page = Some "verify_choice_dashboard" ->
        run_page (navigate b page)
        = ("verify_choice_dashboard", Raise ModuleNotFoundError)
        /\ run_page (navigate no_button (Some (run_page (navigate b page)).1))
           = ("verify_choice_dashboard", Raise ModuleNotFoundError)).
Proof.
  split; [| split].
  - assert (forall page, (forall p, page = Some p -> known_page p) ->
              forall p, (main_runs runs page).1 = Some p -> known_page p)
      as Hgen; [| by apply Hgen].
    induction runs as [| b runs IH]; intros page Hpage; [done |].
    cbn [main_runs].
    destruct (run_page_known (navigate b page) (navigate_known b page Hpage))
      as [Hknown _].
    destruct (run_page (navigate b page)) as [page' shown]. cbn [fst snd] in *.
    specialize (IH (Some page')).
    destruct (main_runs runs (Some page')) as [final more]. cbn [fst snd] in *.
    apply IH. by intros p [= <-].
  - assert (forall page, (forall p, page = Some p -> known_page p) ->
              Forall router_outcome (main_runs runs page).2)
      as Hgen; [| by apply Hgen].
    induction runs as [| b runs IH]; intros page Hpage; [by constructor |].
    cbn [main_runs].
    destruct (run_page_known (navigate b page) (navigate_known b page Hpage))
      as [Hknown Hshown].
    destruct (run_page (navigate b page)) as [page' shown]. cbn [fst snd] in *.
    specialize (IH (Some page')).
    destruct (main_runs runs (Some page')) as [final more]. cbn [fst snd] in *.
    constructor; [done |]. apply IH. by intros p [= <-].
  - intros b page ->. by split.
Qed.

Lemma navigation_stays_on_known_pages_witness :
  known_page "smart_insights"
  /\ run_page (navigate {| nav_home := false; nav_dashboard_verifier := true;
                           nav_smart_insights := false;
                           nav_multi_student_analyzer := false |} None)
     = ("verify_choice_dashboard", Raise ModuleNotFoundError).
Proof.
  split.
  - apply (navigation_stays_on_known_pages
             [{| nav_home := false; nav_dashboard_verifier := true;
                 nav_smart_insights := false; nav_multi_student_analyzer := false |};
              {| nav_home := false; nav_dashboard_verifier := false;
                 nav_smart_insights := true; nav_multi_student_analyzer := false |};
              no_button]).
    reflexivity.
  - apply (navigation_stays_on_known_pages []). reflexivity.
Defined.

(* ================================================================== *)
(** ** Loading the batch file; a master without evaluated options *)

(** What a student read from a row holds. *)
Lemma student_of_inv (to_numeric : cell -> float) (columns : list string)
    (row : list cell) (stu : Student) :
  student_of to_numeric columns row = Ok stu ->
  get_cell columns row "NAME" = Ok (NAME stu)
  /\ get_cell columns row "STUDENT_ID" = Ok (STUDENT_ID stu)
  /\ get_cell columns row "GENDER" = Ok (GENDER stu)
  /\ get_cell columns row "CATEGORY" = Ok (CATEGORY stu)
  /\ (exists c, get_cell columns row "JEE_ADVACED_CRL_RANK" = Ok c
                /\ JEE_ADVACED_CRL_RANK stu = to_numeric c)
  /\ (exists c, get_cell columns row "JEE_ADVNCED_CATEGORY_RANK" = Ok c
                /\ JEE_ADVNCED_CATEGORY_RANK stu = to_numeric c)
  /\ (exists c, get_cell columns row "JEE_MAIN_CRL_RANK" = Ok c
                /\ JEE_MAIN_CRL_RANK stu = to_numeric c)
  /\ (exists c, get_cell columns row "JEE_MAIN_CATEGORY_RANK" = Ok c
                /\ JEE_MAIN_CATEGORY_RANK stu = to_numeric c).
Proof.
  unfold student_of.
  destruct (get_cell columns row "NAME") as [c1 |]; [| done].
  destruct (get_cell columns row "STUDENT_ID") as [c2 |]; [| done].
  destruct (get_cell columns row "GENDER") as [c3 |]; [| done].
  destruct (get_cell columns row "CATEGORY") as [c4 |]; [| done].
  destruct (get_cell columns row "JEE_ADVACED_CRL_RANK") as [c5 |]; [| done].
  destruct (get_cell columns row "JEE_ADVNCED_CATEGORY_RANK") as [c6 |]; [| done].
  destruct (get_cell columns row "JEE_MAIN_CRL_RANK") as [c7 |]; [| done].
  destruct (get_cell columns row "JEE_MAIN_CATEGORY_RANK") as [c8 |]; [| done].
  intros [= <-]. cbn. eauto 20.
Qed.

Lemma student_of_Ok (to_numeric : cell -> float) (columns : list string)
    (row : list cell) :
  has_all required_student_cols columns = true ->
  exists stu, student_of to_numeric columns row = Ok stu.
Proof.
  intros Hall. unfold student_of.
  assert (forall name, name ∈ required_student_cols ->
                       exists c, get_cell columns row name = Ok c) as Hget.
  { intros name Hname. apply get_cell_Ok. by eapply has_all_elem. }
  destruct (Hget "NAME") as [c1 H1]; [repeat constructor |].
  destruct (Hget "STUDENT_ID") as [c2 H2]; [repeat constructor |].
  destruct (Hget "GENDER") as [c3 H3]; [repeat constructor |].
  destruct (Hget "CATEGORY") as [c4 H4]; [repeat constructor |].
  destruct (Hget "JEE_ADVACED_CRL_RANK") as [c5 H5]; [repeat constructor |].
  destruct (Hget "JEE_ADVNCED_CATEGORY_RANK") as [c6 H6]; [repeat constructor |].
  destruct (Hget "JEE_MAIN_CRL_RANK") as [c7 H7]; [repeat constructor |].
  destruct (Hget "JEE_MAIN_CATEGORY_RANK") as [c8 H8]; [repeat constructor |].
  rewrite H1, H2, H3, H4, H5, H6, H7, H8. cbn. eauto.
Qed.

(** What a batch that was loaded went through. *)
Lemma preprocess_students_Loaded (to_numeric : cell -> float)
    (student_batch_df : RawFrame) (students : list Student) :
  preprocess_students to_numeric (Ok student_batch_df) = Loaded students ->
  let columns := Analyzer.normalize_columns (raw_columns student_batch_df) in
  has_all required_student_cols columns = true
  /\ (forall col, col ∈ rank_cols -> occurrences columns col = 1%nat)
  /\ Forall2 (fun row stu => student_of to_numeric columns row = Ok stu)
             (raw_rows student_batch_df) students.
Proof.
  unfold preprocess_students. cbv zeta.
  set (columns := Analyzer.normalize_columns (raw_columns student_batch_df)).
  destruct (has_all required_student_cols columns) eqn:Hall; [| done]. cbn [negb].
  destruct (mapM (to_numeric_column columns) rank_cols) as [units |] eqn:H1; [| done].
  destruct (mapM (student_of to_numeric columns) _) as [rows |] eqn:H2; [| done].
  intros [= <-]. split; [done |]. split; [| by apply mapM_result_Forall2].
  intros col Hcol. apply mapM_result_Forall2 in H1.
  apply list_elem_of_lookup_1 in Hcol as [i Hi].
  destruct (Forall2_lookup_l _ _ _ _ _ H1 Hi) as (u & _ & Hu).
  by apply to_numeric_column_Ok in Hu.
Qed.

(** X21.  A readable batch file is refused in two cases, and loads in all
    others (with the headers as the code spells them, JEE_ADVACED_CRL_RANK
    and JEE_ADVNCED_CATEGORY_RANK included).  It is refused when a required
    column is missing (the columns detected are listed), and when a rank
    label is the normalised header of several columns (line 96 raises
    [TypeError], which line 98 catches).  Otherwise it loads, one student per
    row in the order of the file, each with what its row gives for the id
    and the category and with ranks that are the coercion of the rank cells
    of its row. *)
Theorem preprocess_students_loads (to_numeric : cell -> float) (student_batch_df : RawFrame) :
  Forall (fun h => is_ascii h = true) (raw_columns student_batch_df) ->
  let columns := Analyzer.normalize_columns (raw_columns student_batch_df) in
  (has_all required_student_cols columns = false ->
   preprocess_students to_numeric (Ok student_batch_df) = Missing_columns columns)
  /\ (has_all required_student_cols columns = true ->
      ((exists col, col ∈ rank_cols /\ (2 <= occurrences columns col)%nat) ->
       preprocess_students to_numeric (Ok student_batch_df) = Unreadable TypeError)
      /\ ((forall col, col ∈ rank_cols -> occurrences columns col = 1%nat) ->
          exists students,
            preprocess_students to_numeric (Ok student_batch_df) = Loaded students
            /\ Forall2 (fun row stu =>
                          get_cell columns row "STUDENT_ID" = Ok (STUDENT_ID stu)
                          /\ get_cell columns row "CATEGORY" = Ok (CATEGORY stu)
                          /\ (exists c, cells_at columns row "JEE_MAIN_CRL_RANK" = [c]
                                        /\ JEE_MAIN_CRL_RANK stu = to_numeric c)
                          /\ (exists c, cells_at columns row "JEE_ADVACED_CRL_RANK" = [c]
                                        /\ JEE_ADVACED_CRL_RANK stu = to_numeric c))
                       (raw_rows student_batch_df) students)).
Proof.
  intros _ columns. unfold preprocess_students. fold columns.
  split; intros Hall; rewrite Hall; [done |]. cbn [negb]. split.
  - intros (col & Hcol & Hocc).
    rewrite (mapM_result_Raise (to_numeric_column columns) TypeError); [done | |].
    + intros x Hx.
      destruct (to_numeric_column_cases columns x) as [[_ ->] | [_ ->]]; eauto.
      apply (has_all_elem _ _ _ Hall).
      repeat (apply elem_of_cons in Hx as [-> | Hx]; [repeat constructor |]).
      by apply elem_of_nil in Hx.
    + exists col. split; [done |]. unfold to_numeric_column.
      by destruct (occurrences columns col) as [| [| n]]; [lia | lia |].
  - intros Hranks.
    destruct (mapM_result_Ok (to_numeric_column columns) (fun _ => True) rank_cols)
      as (units & -> & _).
    { intros x Hx. exists tt. split; [| done]. by apply to_numeric_column_Ok, Hranks. }
    cbn [mbind result_bind Py.bind].
    destruct (mapM (student_of to_numeric columns) (raw_rows student_batch_df))
      as [students |] eqn:Hstudents.
    + exists students. split; [done |].
      apply mapM_result_Forall2 in Hstudents.
      eapply Forall2_impl; [exact Hstudents |]. cbn.
      intros row stu (_ & Hid & _ & Hcat & (c5 & H5 & E5) & _ & (c7 & H7 & E7) & _)%student_of_inv.
      split; [done |]. split; [done |].
      destruct (get_cell_once columns row "JEE_MAIN_CRL_RANK") as (c & Hc & Hget);
        [apply Hranks; set_solver |].
      destruct (get_cell_once columns row "JEE_ADVACED_CRL_RANK") as (d & Hd & Hget');
        [apply Hranks; set_solver |].
      split; [exists c | exists d]; split; try done; congruence.
    + exfalso.
      destruct (mapM_result_Ok (student_of to_numeric columns) (fun _ => True)
                  (raw_rows student_batch_df)) as (k & Hk & _); [| congruence].
      intros row _. destruct (student_of_Ok to_numeric columns row Hall) as [stu ->].
      eauto.
Qed.

Lemma preprocess_students_loads_witness :
  preprocess_students all_blank (Ok sample_batch_without_category)
  = Missing_columns (Analyzer.normalize_columns (raw_columns sample_batch_without_category))
  /\ exists students,
       preprocess_students sample_to_numeric (Ok sample_batch_with_inf) = Loaded students
       /\ length students = 2%nat.
Proof.
  split.
  - apply (preprocess_students_loads all_blank sample_batch_without_category).
    + repeat constructor.
    + vm_compute. reflexivity.
  - destruct (preprocess_students_loads sample_to_numeric sample_batch_with_inf)
      as [_ Hsome]; [repeat constructor |].
    destruct (Hsome eq_refl) as [_ Hloads].
    destruct Hloads as (students & Hloaded & Hrows).
    { intros col Hcol.
      repeat (apply elem_of_cons in Hcol as [-> | Hcol]; [vm_compute; reflexivity |]).
      by apply elem_of_nil in Hcol. }
    exists students. split; [done |].
    apply Forall2_length in Hrows. by rewrite <- Hrows.
Defined.

(** A batch file whose rank headers are spelled correctly is refused. *)
Example correctly_spelled_headers_refused :
  preprocess_students all_blank
    (Ok {| raw_columns := ["Name"; "Student ID"; "Gender"; "Category";
                           "JEE Advanced CRL Rank"; "JEE Advanced Category Rank";
                           "JEE Main CRL Rank"; "JEE Main Category Rank"];
           raw_rows := [] |})
  = Missing_columns ["NAME"; "STUDENT_ID"; "GENDER"; "CATEGORY";
                     "JEE_ADVANCED_CRL_RANK"; "JEE_ADVANCED_CATEGORY_RANK";
                     "JEE_MAIN_CRL_RANK"; "JEE_MAIN_CATEGORY_RANK"].
Proof. vm_compute. reflexivity. Qed.

(** ** Labels on one column, labels on several *)

Lemma cells_at_plain (columns : list string) (row : list cell) (name : string) :
  Forall (fun c => is_series c = false) row ->
  Forall (fun c => is_series c = false) (cells_at columns row name).
Proof.
  revert row. induction columns as [| h columns IH]; intros row Hrow; [constructor |].
  cbn [cells_at]. apply Forall_app. split.
  - destruct (bool_decide (h = name)); [| constructor].
    constructor; [| constructor]. by destruct Hrow.
  - apply IH. destruct Hrow; [constructor | done].
Qed.

(** A label on one column: the row gives a text or a float. *)
Lemma get_cell_plain (columns : list string) (row : list cell) (name : string) (c : cell) :
  occurrences columns name = 1%nat ->
  Forall (fun c => is_series c = false) row ->
  get_cell columns row name = Ok c -> is_series c = false.
Proof.
  intros Hocc Hrow Hget.
  destruct (get_cell_once columns row name Hocc) as (c' & Hcells & Hget').
  assert (c = c') as -> by congruence.
  pose proof (cells_at_plain columns row name Hrow) as Hall.
  rewrite Hcells in Hall. by inversion Hall.
Qed.

(** With one CATEGORY and one GENDER column in the batch file, the tests of
    lines 131 and 146 have a truth value for every student; with one TYPE
    column in the master file, so has the test of line 176 for every
    option. *)
Lemma loaded_students_tests_ok (to_numeric : cell -> float) (student_batch_df : RawFrame)
    (students : list Student) :
  preprocess_students to_numeric (Ok student_batch_df) = Loaded students ->
  occurrences (Analyzer.normalize_columns (raw_columns student_batch_df)) "CATEGORY"
  = 1%nat ->
  occurrences (Analyzer.normalize_columns (raw_columns student_batch_df)) "GENDER"
  = 1%nat ->
  plain_cells student_batch_df ->
  Forall (fun stu => student_tests_ok stu = true) students.
Proof.
  intros (_ & _ & Hrows)%preprocess_students_Loaded Hcat Hgen Hplain.
  unfold plain_cells in Hplain. apply Forall_forall. intros stu Hstu.
  apply list_elem_of_lookup_1 in Hstu as [i Hi].
  destruct (Forall2_lookup_r _ _ _ _ _ Hrows Hi) as (row & Hrow & Hof).
  apply student_of_inv in Hof as (_ & _ & Hg & Hc & _).
  assert (Forall (fun c => is_series c = false) row) as Hcells
    by (by eapply (Forall_lookup_1 _ _ _ _ Hplain)).
  unfold student_tests_ok.
  rewrite (get_cell_plain _ _ _ _ Hcat Hcells Hc).
  rewrite (get_cell_plain _ _ _ _ Hgen Hcells Hg).
  by rewrite andb_false_r.
Qed.

Lemma loaded_options_type_plain (to_numeric : cell -> float) (master_df : RawFrame)
    (processed : MasterFrame) :
  preprocess_master to_numeric (Ok master_df) = Loaded processed ->
  occurrences (Analyzer.normalize_columns (raw_columns master_df)) "TYPE" = 1%nat ->
  plain_cells master_df ->
  Forall (fun opt => is_series (TYPE opt) = false) (master_rows processed).
Proof.
  intros (_ & _ & _ & _ & _ & Hrows)%preprocess_master_Loaded Htype Hplain.
  unfold plain_cells in Hplain. apply Forall_forall. intros opt Hopt.
  apply list_elem_of_lookup_1 in Hopt as [i Hi].
  destruct (Forall2_lookup_r _ _ _ _ _ Hrows Hi) as (row & Hrow & Hof).
  apply master_option_of_inv in Hof as (Ht & _).
  eapply get_cell_plain; [exact Htype | | exact Ht].
  by eapply (Forall_lookup_1 _ _ _ _ Hplain).
Qed.

(** With several CATEGORY columns the batch loads, and the analysis raises
    at its first student. *)
Lemma several_category_columns_raise (to_numeric : cell -> float) (o : SetOrder)
    (student_batch_df : RawFrame) (master : MasterFrame)
    (stu : Student) (students : list Student) :
  preprocess_students to_numeric (Ok student_batch_df) = Loaded (stu :: students) ->
  (2 <= occurrences (Analyzer.normalize_columns (raw_columns student_batch_df))
          "CATEGORY")%nat ->
  run_analysis o master (stu :: students) = Raise ValueError.
Proof.
  intros (_ & _ & Hrows)%preprocess_students_Loaded Hcat.
  apply Forall2_cons_inv_r in Hrows as (row & rows & Hof & _ & _).
  apply student_of_inv in Hof as (_ & _ & _ & Hc & _).
  destruct (get_cell_several _ row _ Hcat) as [items Hitems].
  assert (CATEGORY stu = Series items) as Hseries by congruence.
  cbn [run_analysis]. unfold analyze_student. by rewrite Hseries.
Qed.

(** A master file with the headers "College Code" and "COLLEGE_CODE" is
    refused by the handler of line 60, and the prior results are cleared. *)
Example two_code_headers_refused :
  let run := display_multi_student_analyzer all_blank insertion_order
               {| master_exists := true;
                  load_excel := Ok master_with_two_code_headers;
                  student_batch_file := Some (Ok sample_batch_with_inf);
                  run_button := false |} prior_session in
  preprocess_master all_blank (Ok master_with_two_code_headers)
  = Unreadable AttributeError
  /\ written run = [Error_master_load AttributeError]
  /\ session run !! RESULTS_KEY = None
  /\ raised run = None.
Proof. repeat split; by vm_compute. Qed.

(** A batch file with the headers "Category" and "CATEGORY" loads, and the
    analysis raises [ValueError] at line 131. *)
Example two_category_headers_raise :
  let run := display_multi_student_analyzer sample_to_numeric insertion_order
               {| master_exists := true;
                  load_excel := Ok sample_master_file;
                  student_batch_file := Some (Ok batch_with_two_category_headers);
                  run_button := true |} prior_session in
  written run = [Success_loaded 1 1]
  /\ raised run = Some ValueError
  /\ session run !! RESULTS_KEY = Some PyNone.
Proof. repeat split; by vm_compute. Qed.





(* ================================================================== *)
(** ** The join key across the workflows *)

Lemma cells_at_absent (columns : list string) (row : list cell) (name : string) :
  name ∉ columns -> cells_at columns row name = [].
Proof.
  intros Hin. pose proof (cells_at_length columns row name) as Hlen.
  destruct (cells_at columns row name) as [| c l]; [done |].
  destruct Hin. apply occurrences_pos. rewrite <- Hlen. cbn. lia.
Qed.

Lemma occurrences_NoDup (columns : list string) (name : string) :
  NoDup columns -> (occurrences columns name <= 1)%nat.
Proof.
  unfold occurrences. induction 1 as [| h columns Hh _ IH]; [cbn; lia |].
  rewrite filter_cons. destruct (decide (h = name)) as [-> | _]; [| done].
  cbn. destruct (filter _ columns) as [| x l] eqn:Hf; [cbn; lia |].
  destruct Hh.
  assert (x ∈ filter (fun h => h = name) columns) as Hx by (rewrite Hf; left).
  by apply list_elem_of_filter in Hx as [-> ?].
Qed.

Lemma occurrences_NoDup_elem (columns : list string) (name : string) :
  NoDup columns -> name ∈ columns -> occurrences columns name = 1%nat.
Proof.
  intros Hnodup Hin%occurrences_pos.
  pose proof (occurrences_NoDup columns name Hnodup). lia.
Qed.

(** Renaming the headers by a map that keeps them distinct does not change
    what a row gives for a label of the header. *)
Lemma cells_at_rename (rename : string -> string) (columns : list string)
    (row : list cell) (name : string) :
  NoDup (map rename columns) -> name ∈ columns ->
  cells_at (map rename columns) row (rename name) = cells_at columns row name.
Proof.
  revert row. induction columns as [| h columns IH]; intros row Hnodup Hin.
  - by apply elem_of_nil in Hin.
  - cbn [map] in Hnodup. apply NoDup_cons in Hnodup as [Hh Hnodup].
    cbn [map cells_at].
    destruct (decide (h = name)) as [-> | Hne].
    + rewrite !bool_decide_eq_true_2 by done.
      rewrite (cells_at_absent (map rename columns)) by done.
      rewrite (cells_at_absent columns); [done |].
      intros Hname. apply Hh, list_elem_of_fmap. eauto.
    + apply elem_of_cons in Hin as [-> | Hin]; [done |].
      rewrite (bool_decide_eq_false_2 (h = name)) by done.
      rewrite bool_decide_eq_false_2; [by apply IH |].
      intros Heq. apply Hh. rewrite Heq. apply list_elem_of_fmap. eauto.
Qed.

Lemma get_cell_rename (rename : string -> string) (columns : list string)
    (row : list cell) (name : string) (c : cell) :
  NoDup (map rename columns) ->
  get_cell columns row name = Ok c ->
  get_cell (map rename columns) row (rename name) = Ok c.
Proof.
  intros Hnodup Hget. destruct (decide (name ∈ columns)) as [Hin | Hin].
  - unfold get_cell in *. by rewrite cells_at_rename.
  - by rewrite get_cell_Raise in Hget.
Qed.

Lemma mapM_result_impl {A B : Type} (f g : A -> result B) (l : list A) (k : list B) :
  (forall x y, f x = Ok y -> g x = Ok y) ->
  mapM f l = Ok k -> mapM g l = Ok k.
Proof.
  intros Himp. revert k. induction l as [| x l IH]; intros k; [done |].
  cbn [mapM]. destruct (f x) as [y |] eqn:Hy; [| done].
  cbn. destruct (mapM f l) as [k' |]; [| done].
  cbn. intros [= <-]. by rewrite (Himp x y Hy), (IH k' eq_refl).
Qed.

(** The keys that the statement of line 47 builds are those of the options
    that the batch analyzer loads. *)
Lemma loaded_main_codes (to_numeric : cell -> float) (master_df : RawFrame)
    (processed : MasterFrame) (keys : list cell) :
  preprocess_master to_numeric (Ok master_df) = Loaded processed ->
  master_main_codes Analyzer.normalize_columns Analyzer.COLLEGE Analyzer.COURSE master_df
  = Ok keys ->
  map Main_Code (master_rows processed) = keys.
Proof.
  intros (_ & _ & _ & _ & _ & Hrows)%preprocess_master_Loaded.
  unfold master_main_codes.
  destruct (str_accessor _ Analyzer.COLLEGE) as [u1 |]; [| done].
  destruct (str_accessor _ Analyzer.COURSE) as [u2 |]; [| done].
  cbn [mbind result_bind Py.bind]. intros Hkeys%mapM_result_Forall2.
  revert keys Hkeys.
  induction Hrows as [| row opt rows opts Hopt _ IH]; intros keys Hkeys.
  - by apply Forall2_nil_inv_l in Hkeys as ->.
  - apply Forall2_cons_inv_l in Hkeys as (key & keys' & Hkey & Hkeys & ->).
    cbn [map]. rewrite (IH keys' Hkeys). f_equal.
    apply master_option_of_inv in Hopt as (_ & Hc & Hk & -> & _).
    unfold Analyzer.COLLEGE, Analyzer.COURSE in Hkey.
    rewrite Hc, Hk in Hkey. cbn in Hkey. by injection Hkey as <-.
Qed.

Lemma has_all_false (required columns : list string) (col : string) :
  col ∈ required -> col ∉ columns -> has_all required columns = false.
Proof.
  intros Hreq Hcol. apply not_true_is_false. intros Hall.
  by apply Hcol, (has_all_elem required).
Qed.

(** X23.  Whenever the choice verifier can derive the join keys of a master
    file whose normalised headers are distinct, the dashboard and smart
    insights pass their check of the two code columns and derive the same
    keys, row for row; the batch analyzer loads the file with these keys when
    it has a TYPE column, and refuses it for the missing column when it has
    none (the converse fails for headers written with underscores). *)
Theorem verifier_keys_are_analyzer_keys (to_numeric : cell -> float)
    (master : RawFrame) (keys : list cell) :
  Forall (fun h => is_ascii h = true) (raw_columns master) ->
  NoDup (Analyzer.normalize_columns (raw_columns master)) ->
  master_main_codes ChoiceVerifier.normalize_columns
    ChoiceVerifier.COLLEGE ChoiceVerifier.COURSE master = Ok keys ->
  (Dashboard.COLLEGE ∈ Dashboard.normalize_columns (raw_columns master)
   /\ Dashboard.COURSE ∈ Dashboard.normalize_columns (raw_columns master)
   /\ master_main_codes Dashboard.normalize_columns Dashboard.COLLEGE Dashboard.COURSE
        master = Ok keys)
  /\ (SmartInsights.COLLEGE ∈ SmartInsights.normalize_columns (raw_columns master)
      /\ SmartInsights.COURSE ∈ SmartInsights.normalize_columns (raw_columns master)
      /\ master_main_codes SmartInsights.normalize_columns
           SmartInsights.COLLEGE SmartInsights.COURSE master = Ok keys)
  /\ ("TYPE" ∈ Analyzer.normalize_columns (raw_columns master) ->
      exists processed,
        preprocess_master to_numeric (Ok master) = Loaded processed
        /\ map Main_Code (master_rows processed) = keys)
  /\ ("TYPE" ∉ Analyzer.normalize_columns (raw_columns master) ->
      preprocess_master to_numeric (Ok master)
      = Missing_columns (Analyzer.normalize_columns (raw_columns master))).
Proof.
  intros _ Hnodup Hkeys.
  assert ("COLLEGE_CODE" ∈ Analyzer.normalize_columns (raw_columns master)
          /\ "COURSE_CODE" ∈ Analyzer.normalize_columns (raw_columns master)
          /\ master_main_codes Analyzer.normalize_columns Analyzer.COLLEGE Analyzer.COURSE
               master = Ok keys) as (Hcollege & Hcourse & Ha).
  { unfold master_main_codes in *.
    rewrite choice_verifier_up_to_underscore in *.
    set (columns := ChoiceVerifier.normalize_columns (raw_columns master)) in *.
    destruct (str_accessor columns ChoiceVerifier.COLLEGE) as [u1 |] eqn:H1; [| done].
    destruct (str_accessor columns ChoiceVerifier.COURSE) as [u2 |] eqn:H2; [| done].
    cbn [mbind result_bind Py.bind] in Hkeys.
    apply str_accessor_Ok in H1, H2.
    assert (ChoiceVerifier.COLLEGE ∈ columns) as Hin1 by (apply occurrences_pos; lia).
    assert (ChoiceVerifier.COURSE ∈ columns) as Hin2 by (apply occurrences_pos; lia).
    assert (Analyzer.COLLEGE ∈ map replace_space columns) as Hc
      by (apply list_elem_of_fmap; by exists ChoiceVerifier.COLLEGE).
    assert (Analyzer.COURSE ∈ map replace_space columns) as Hk
      by (apply list_elem_of_fmap; by exists ChoiceVerifier.COURSE).
    split; [done |]. split; [done |].
    rewrite (proj2 (str_accessor_Ok _ Analyzer.COLLEGE tt)
               (occurrences_NoDup_elem _ _ Hnodup Hc)).
    rewrite (proj2 (str_accessor_Ok _ Analyzer.COURSE tt)
               (occurrences_NoDup_elem _ _ Hnodup Hk)).
    cbn [mbind result_bind Py.bind].
    eapply mapM_result_impl; [| exact Hkeys].
    intros row key. cbn beta.
    destruct (get_cell _ row ChoiceVerifier.COLLEGE) as [a |] eqn:Ha; [| done].
    destruct (get_cell _ row ChoiceVerifier.COURSE) as [b |] eqn:Hb; [| done].
    apply (get_cell_rename replace_space _ _ _ _ Hnodup) in Ha.
    apply (get_cell_rename replace_space _ _ _ _ Hnodup) in Hb.
    change (replace_space ChoiceVerifier.COLLEGE) with Analyzer.COLLEGE in Ha.
    change (replace_space ChoiceVerifier.COURSE) with Analyzer.COURSE in Hb.
    by rewrite Ha, Hb. }
  split; [by repeat split |]. split; [by repeat split |]. split.
  - intros Htype.
    destruct (preprocess_master_loads_when to_numeric master)
      as (processed & Hloaded & _).
    + apply forallb_forall. intros col Hcol%list_elem_of_In.
      apply bool_decide_eq_true.
      repeat (apply elem_of_cons in Hcol as [-> | Hcol]; [done |]).
      by apply elem_of_nil in Hcol.
    + by apply occurrences_NoDup_elem.
    + by apply occurrences_NoDup_elem.
    + intros col _. by apply occurrences_NoDup.
    + exists processed. split; [done |]. by eapply loaded_main_codes.
  - intros Htype. unfold preprocess_master.
    rewrite (has_all_false required_master_cols _ "TYPE"); [done | | done].
    repeat constructor.
Qed.

Lemma verifier_keys_are_analyzer_keys_witness :
  master_main_codes Dashboard.normalize_columns Dashboard.COLLEGE Dashboard.COURSE
    master_with_spaces = Ok [Str "C1_K1"]
  /\ exists processed,
       preprocess_master all_blank (Ok master_with_spaces) = Loaded processed
       /\ map Main_Code (master_rows processed) = [Str "C1_K1"].
Proof.
  destruct (verifier_keys_are_analyzer_keys all_blank master_with_spaces [Str "C1_K1"])
    as ((_ & _ & Hdash) & _ & Hloads & _).
  - repeat constructor.
  - apply (bool_decide_unpack _). by vm_compute.
  - vm_compute. reflexivity.
  - split; [exact Hdash |]. apply Hloads.
    apply (bool_decide_unpack _). by vm_compute.
Defined.
